(** * Atomsmiths site: the membership API

    A shallow embedding of the three request handlers of the repository
    (the [DatabaseService] with its router, [api/join.js] and the bare
    insert handler) over a small model of the JavaScript values, the
    MongoDB collections and the process state they work on.

    Conventions of the model.
    - Strings are sequences of Latin-1 code units ([string] of [ascii]);
      [toLowerCase], [trim] and the class [\s] are given on that range.
    - Numbers are the integral ones ([Z]); [NaN] appears where the code can
      produce it ([parseInt], an invalid [Date]).
    - A document is a finite map from field names to values; a nested
      array or object inside a field is opaque ([VOther], carrying its
      string conversion), and a query compares fields by equality.
    - What the platform and the driver decide (the clock, [Date.parse],
      [JSON.parse], [parseInt], the [ObjectId] constructor, whether the
      server can be reached) is a field of the environment [Env]; every
      statement holds for all environments.
    - An operation on a connected collection succeeds: network failures
      after the connection has been made are not modelled.
    - A collection holds its documents as they were handed to the driver.
      BSON writes the date of time 0 for an invalid [Date]: the queries
      and the sorts read a stored [VDate None] so.
    - [findOneAndUpdate] answers with the [{ value }] wrapper the code
      reads (driver versions 4 and 5). *)

From Stdlib Require Import ZArith NArith Ascii String List Permutation Sorted Lia.
From stdpp Require Import base option list gmap strings.

Local Open Scope Z_scope.

(** ** JavaScript strings *)

Module JsString.

Definition code (c : ascii) : N := N_of_ascii c.

(** [\s] of a regular expression, and the characters [trim] strips:
    TAB, LF, VT, FF, CR, SP and NBSP on the Latin-1 range. *)
Definition is_space (c : ascii) : bool :=
  let n := code c in
  ((9 <=? n) && (n <=? 13) || (n =? 32) || (n =? 160))%N.

Definition is_upper (c : ascii) : bool :=
  let n := code c in
  ((65 <=? n) && (n <=? 90)
   || (192 <=? n) && (n <=? 222) && negb (n =? 215))%N.

Definition lower_char (c : ascii) : ascii :=
  if is_upper c then ascii_of_N (code c + 32) else c.

Fixpoint toLowerCase (s : string) : string :=
  match s with
  | EmptyString => EmptyString
  | String c r => String (lower_char c) (toLowerCase r)
  end.

Fixpoint trimStart (s : string) : string :=
  match s with
  | EmptyString => EmptyString
  | String c r => if is_space c then trimStart r else s
  end.

Fixpoint trimEnd (s : string) : string :=
  match s with
  | EmptyString => EmptyString
  | String c r =>
      match trimEnd r with
      | EmptyString => if is_space c then EmptyString else String c EmptyString
      | r' => String c r'
      end
  end.

Definition trim (s : string) : string := trimEnd (trimStart s).

Fixpoint chars (s : string) : list ascii :=
  match s with
  | EmptyString => []
  | String c r => c :: chars r
  end.

(** A string as [toLowerCase] leaves it. *)
Definition lowercased (s : string) : Prop := toLowerCase s = s.

(** A string without white space. *)
Definition spaceless (s : string) : Prop :=
  Forall (fun c => is_space c = false) (chars s).

End JsString.

(** ** Regular expressions, by derivatives *)

Module Regex.

Inductive regex : Type :=
| Void : regex
| Eps : regex
| Class (p : ascii -> bool) : regex
| Cat (r1 r2 : regex) : regex
| Alt (r1 r2 : regex) : regex
| Star (r : regex) : regex.

Definition Lit (c : ascii) : regex := Class (Ascii.eqb c).
Definition Plus (r : regex) : regex := Cat r (Star r).

Fixpoint nullable (r : regex) : bool :=
  match r with
  | Void => false
  | Eps => true
  | Class _ => false
  | Cat a b => nullable a && nullable b
  | Alt a b => nullable a || nullable b
  | Star _ => true
  end.

Fixpoint deriv (c : ascii) (r : regex) : regex :=
  match r with
  | Void => Void
  | Eps => Void
  | Class p => if p c then Eps else Void
  | Cat a b =>
      Alt (Cat (deriv c a) b) (if nullable a then deriv c b else Void)
  | Alt a b => Alt (deriv c a) (deriv c b)
  | Star a => Cat (deriv c a) (Star a)
  end.

(** [^r$] tested against the whole input. *)
Fixpoint matches (r : regex) (s : string) : bool :=
  match s with
  | EmptyString => nullable r
  | String c s' => matches (deriv c r) s'
  end.

(** No word at all. *)
Fixpoint void (r : regex) : bool :=
  match r with
  | Void => true
  | Eps => false
  | Class _ => false
  | Cat a b => void a || void b
  | Alt a b => void a && void b
  | Star _ => false
  end.

(** Every character class of [r] rejects the characters in [P]. *)
Fixpoint avoids (P : ascii -> bool) (r : regex) : Prop :=
  match r with
  | Void | Eps => True
  | Class p => forall c, P c = true -> p c = false
  | Cat a b | Alt a b => avoids P a /\ avoids P b
  | Star a => avoids P a
  end.

End Regex.

(** [/^[^\s@]+@[^\s@]+\.[^\s@]+$/], the pattern of [registerMember] and of
    the join handler. *)
Definition not_space_at (c : ascii) : bool :=
  negb (JsString.is_space c) && negb (Ascii.eqb c "@").

Definition emailRegex : Regex.regex :=
  Regex.Cat (Regex.Plus (Regex.Class not_space_at))
    (Regex.Cat (Regex.Lit "@")
       (Regex.Cat (Regex.Plus (Regex.Class not_space_at))
          (Regex.Cat (Regex.Lit ".") (Regex.Plus (Regex.Class not_space_at))))).

(** ** Values, documents and exceptions *)

Definition oid := N.

Inductive value : Type :=
| VUndefined : value
| VNull : value
| VBool (b : bool) : value
| VNum (n : Z) : value
| VStr (s : string) : value
| VDate (t : option Z) : value      (* [None]: an invalid date *)
| VObjectId (o : oid) : value
| VOther (repr : string) : value.   (* an array or object; [repr] is [String(v)] *)

Arguments VObjectId o%_N.

#[global] Instance value_eq_dec : EqDecision value.
Proof. solve_decision. Defined.

Abbreviation doc := (gmap string value).

(** [d.k], [undefined] when the property is absent. *)
Definition field (d : doc) (k : string) : value := default VUndefined (d !! k).

Definition truthy (v : value) : bool :=
  match v with
  | VUndefined | VNull => false
  | VBool b => b
  | VNum n => negb (n =? 0)
  | VStr s => negb (String.eqb s "")
  | VDate _ | VObjectId _ | VOther _ => true
  end.

(** [v || null] *)
Definition or_null (v : value) : value := if truthy v then v else VNull.

(** The result of [parseInt], and of a subtraction. *)
Inductive number : Type :=
| Int (n : Z) : number
| NaN : number.

(** What a handler or a service method is handed as a body: an object
    whose properties can be read, or anything else. *)
Inductive data : Type :=
| Obj (d : doc) : data
| Prim (v : value) : data.

Inductive exn : Type :=
| Error (message : string) : exn
| TypeError (message : string) : exn
| DriverError (message : string) : exn.

Definition message (e : exn) : string :=
  match e with Error m | TypeError m | DriverError m => m end.

(** What a service method resolves to. *)
Inductive payload : Type :=
| PUndefined : payload
| PNull : payload
| PDoc (d : doc) : payload
| PDocs (l : list doc) : payload.

(** ** The state and exception monad *)

Inductive outcome (A : Type) : Type :=
| Return (a : A) : outcome A
| Throw (e : exn) : outcome A.
Arguments Return {A} a.
Arguments Throw {A} e.

Definition M (S A : Type) : Type := S -> outcome A * S.

#[global] Instance M_ret {S} : MRet (M S) := fun A a s => (Return a, s).

#[global] Instance M_bind {S} : MBind (M S) := fun A B f m s =>
  match m s with
  | (Return a, s') => f a s'
  | (Throw e, s') => (Throw e, s')
  end.

Definition throw {S A} (e : exn) : M S A := fun s => (Throw e, s).
Definition get {S} : M S S := fun s => (Return s, s).
Definition modify {S} (f : S -> S) : M S unit := fun s => (Return tt, f s).

(** [try { m } catch (e) { h e }] *)
Definition try_catch {S A} (m : M S A) (h : exn -> M S A) : M S A := fun s =>
  match m s with
  | (Return a, s') => (Return a, s')
  | (Throw e, s') => h e s'
  end.

(** [wp m Q s]: running [m] from [s] ends in a result and a state that
    satisfy [Q]. *)
Definition wp {S A} (m : M S A) (Q : outcome A -> S -> Prop) (s : S) : Prop :=
  let (r, s') := m s in Q r s'.

(** ** The environment of the process *)

Record Env : Type := {
  DB_TYPE : option string;
  MONGODB_URI : option string;
  MONGO_URI : option string;
  MONGODB_DB : option string;
  NODE_ENV : option string;
  clock : nat -> Z;                        (* the n-th reading of the clock *)
  Date_parse : string -> option Z;
  JSON_parse : string -> option data;
  parseInt : value -> number;
  ObjectId_parse : value -> option oid;    (* [None]: the constructor throws *)
  uri_valid : option string -> bool;       (* [new MongoClient(uri)] returns *)
  reachable : option string -> bool;       (* [client.connect()] resolves *)
  show : value -> string;                  (* [String(v)] of numbers, dates, ids *)
  Number_parse : string -> number;         (* [Number(s)] *)
  stack : exn -> string
}.

(** [process.env.X || fallback] *)
Definition env_or (x : option string) (fallback : string) : string :=
  match x with
  | Some s => if String.eqb s "" then fallback else s
  | None => fallback
  end.

(** ** The database and the process state *)

Inductive coll_name : Type := Members | Events | Blogs.

Record Client : Type := mkClient {
  client_uri : option string;
  client_options : list (string * Z)
}.

(** [{ client, db }]: the client is named by its rank among the clients
    the process has constructed. *)
Record Conn : Type := mkConn { conn_client : nat; conn_db : string }.

(** [global._mongo]; a promise is kept with what it settles to. *)
Record Cache : Type := mkCache {
  conn : option Conn;
  promise : option (outcome Conn)
}.

Record World : Type := mkWorld {
  w_mongo : Cache;              (* the object both modules name [cached] *)
  w_client : option nat;        (* [client] of the bare insert handler *)
  w_clients : list Client;      (* every [MongoClient] constructed so far *)
  w_ticks : nat;                (* readings of the clock so far *)
  w_oids : N;                   (* least identifier never handed out *)
  members : list doc;
  events : list doc;
  blogs : list doc
}.

Definition collection (c : coll_name) (w : World) : list doc :=
  match c with Members => members w | Events => events w | Blogs => blogs w end.

Definition set_collection (c : coll_name) (l : list doc) (w : World) : World :=
  match c with
  | Members => mkWorld (w_mongo w) (w_client w) (w_clients w) (w_ticks w) (w_oids w) l (events w) (blogs w)
  | Events => mkWorld (w_mongo w) (w_client w) (w_clients w) (w_ticks w) (w_oids w) (members w) l (blogs w)
  | Blogs => mkWorld (w_mongo w) (w_client w) (w_clients w) (w_ticks w) (w_oids w) (members w) (events w) l
  end.

Definition set_mongo (c : Cache) (w : World) : World :=
  mkWorld c (w_client w) (w_clients w) (w_ticks w) (w_oids w) (members w) (events w) (blogs w).

Definition set_client (c : option nat) (w : World) : World :=
  mkWorld (w_mongo w) c (w_clients w) (w_ticks w) (w_oids w) (members w) (events w) (blogs w).

Definition add_client (c : Client) (w : World) : World :=
  mkWorld (w_mongo w) (w_client w) (w_clients w ++ [c]) (w_ticks w) (w_oids w) (members w) (events w) (blogs w).

Definition tick (w : World) : World :=
  mkWorld (w_mongo w) (w_client w) (w_clients w) (S (w_ticks w)) (w_oids w) (members w) (events w) (blogs w).

Definition set_oids (n : N) (w : World) : World :=
  mkWorld (w_mongo w) (w_client w) (w_clients w) (w_ticks w) n (members w) (events w) (blogs w).

(** The three collections together. *)
Definition store (w : World) : list doc * list doc * list doc :=
  (members w, events w, blogs w).

(** A process that has just loaded its modules, over a given database. *)
Definition boot (ms es bs : list doc) : World :=
  mkWorld (mkCache None None) None [] 0 0 ms es bs.

(** ** Queries *)

Inductive filter : Type :=
| FAll : filter                              (* [{}] *)
| FEq (k : string) (v : value) : filter      (* [{ k: v }] *)
| FNe (k : string) (v : value) : filter      (* [{ k: { $ne: v } }] *)
| FAnd (f g : filter) : filter.

Fixpoint sat (f : filter) (d : doc) : bool :=
  match f with
  | FAll => true
  | FEq k v => bool_decide (field d k = v)
  | FNe k v => negb (bool_decide (field d k = v))
  | FAnd f g => sat f d && sat g d
  end.

(** [deleteOne]: the first match goes. *)
Fixpoint remove_first (p : doc -> bool) (l : list doc) : list doc :=
  match l with
  | [] => []
  | d :: r => if p d then r else d :: remove_first p r
  end.

(** [findOneAndUpdate] with [$set]: the first match takes the new fields. *)
Fixpoint update_first (p : doc -> bool) (fields : doc) (l : list doc) : list doc :=
  match l with
  | [] => []
  | d :: r => if p d then (fields ∪ d) :: r else d :: update_first p fields r
  end.

Definition max_oid (l : list doc) : N :=
  fold_right (fun d m => match field d "_id" with VObjectId o => N.max o m | _ => m end) 0%N l.

(** ** The platform and the driver *)

Section Platform.
Context (E : Env).

(** [new Date()] *)
Definition Date_now : M World Z := fun w =>
  (Return (clock E (w_ticks w)), tick w).

Definition new_Date : M World value :=
  t ← Date_now; mret (VDate (Some t)).

(** [String(v)], as a template literal converts. *)
Definition ToString (v : value) : string :=
  match v with
  | VStr s => s
  | VOther r => r
  | VUndefined => "undefined"
  | VNull => "null"
  | VBool true => "true"
  | VBool false => "false"
  | VNum _ | VDate _ | VObjectId _ => show E v
  end.

(** The time value of [new Date(v)]; [None] is an invalid date. *)
Definition Date_of (v : value) : option Z :=
  match v with
  | VUndefined => None
  | VNull => Some 0
  | VBool b => Some (if b then 1 else 0)
  | VNum n => if Z.abs n <=? 8640000000000000 then Some n else None
  | VStr s => Date_parse E s
  | VDate t => t
  | VObjectId _ | VOther _ => Date_parse E (ToString v)
  end.

(** [a <= b] on two dates: false as soon as one is invalid. *)
Definition date_le (a b : option Z) : bool :=
  match a, b with
  | Some x, Some y => x <=? y
  | _, _ => false
  end.

(** [emailRegex.test(v)]: the argument is converted to a string first.
    The conversion of a number, a boolean, a date, an identifier, [null]
    or [undefined] holds no [@], so the pattern fails on it. *)
Definition emailRegex_test (v : value) : bool :=
  match v with
  | VStr s | VOther s => Regex.matches emailRegex s
  | _ => false
  end.

(** [new ObjectId(v)] *)
Definition new_ObjectId {S} (v : value) : M S value :=
  match ObjectId_parse E v with
  | Some o => mret (VObjectId o)
  | None => throw (DriverError "BSONError")
  end.

(** [const { a, b } = d] *)
Definition destructure {S} (d : data) : M S doc :=
  match d with
  | Obj d => mret d
  | Prim VUndefined | Prim VNull => throw (TypeError "Cannot destructure")
  | Prim _ => mret ∅
  end.

(** [x.trim()] *)
Definition call_trim {S} (x : string) (v : value) : M S value :=
  match v with
  | VStr s => mret (VStr (JsString.trim s))
  | VUndefined | VNull => throw (TypeError ("Cannot read properties of " +:+ ToString v))
  | _ => throw (TypeError (x +:+ ".trim is not a function"))
  end.

(** [x?.trim()] *)
Definition opt_trim {S} (x : string) (v : value) : M S value :=
  match v with
  | VUndefined | VNull => mret VUndefined
  | _ => call_trim x v
  end.

(** [x.toLowerCase().trim()] *)
Definition call_toLowerCase_trim {S} (x : string) (v : value) : M S value :=
  match v with
  | VStr s => mret (VStr (JsString.trim (JsString.toLowerCase s)))
  | VUndefined | VNull => throw (TypeError ("Cannot read properties of " +:+ ToString v))
  | _ => throw (TypeError (x +:+ ".toLowerCase is not a function"))
  end.

(** A property of an object literal; one that holds [undefined] reads
    like an absent one and is left out. *)
Definition prop (k : string) (v : value) (d : doc) : doc :=
  match v with VUndefined => d | _ => <[k := v]> d end.

(** [...(c && { k: v })] *)
Definition spread_if (c : value) (k : string) (v : value) (d : doc) : doc :=
  if truthy c then prop k v d else d.

(** *** The connection cache *)

Definition open_db (client : nat) : Conn :=
  mkConn client (env_or (MONGODB_DB E) "atomsmiths").

(** [new MongoClient(uri, options)] followed by
    [client.connect().then(...)]: the client is recorded, and the promise
    is kept with the result it settles to. *)
Definition new_MongoClient (uri : option string) (options : list (string * Z))
  : M World nat := fun w =>
  if uri_valid E uri
  then (Return (length (w_clients w)), add_client (mkClient uri options) w)
  else (Throw (DriverError "MongoParseError"), w).

Definition client_connect (client : nat) (uri : option string) : outcome Conn :=
  if reachable E uri then Return (open_db client)
  else Throw (DriverError "MongoServerSelectionError").

Definition await {A} (p : outcome A) : M World A := fun w => (p, w).

Definition cached_connect (options : list (string * Z)) (uri : option string)
  : M World Conn :=
  w ← get;
  let cached := w_mongo w in
  match conn cached with
  | Some c => mret c
  | None =>
      p ← match promise cached with
          | Some p => mret p
          | None =>
              client ← new_MongoClient uri options;
              let p := client_connect client uri in
              modify (set_mongo (mkCache None (Some p)));;
              mret p
          end;
      c ← await p;
      modify (set_mongo (mkCache (Some c) (Some p)));;
      mret c
  end.

Definition connectToMongoDB (uri : option string) : M World Conn :=
  cached_connect
    [("serverSelectionTimeoutMS", 5000); ("maxPoolSize", 10); ("minPoolSize", 2)]%string
    uri.

Definition connectToDatabase (uri : option string) : M World Conn :=
  cached_connect [("serverSelectionTimeoutMS", 5000)]%string uri.

(** *** Collections *)

Definition findOne (c : coll_name) (f : filter) : M World (option doc) :=
  w ← get; mret (List.find (sat f) (collection c w)).

Definition nullish (v : value) : bool :=
  match v with VUndefined | VNull => true | _ => false end.

(** The identifier the driver makes for a document without one: new to
    the collection and never handed out before. *)
Definition fresh_oid (c : coll_name) (w : World) : oid :=
  N.max (w_oids w) (N.succ (max_oid (collection c w))).

(** [insertOne(d)] resolves to the inserted identifier. *)
Definition insertOne (c : coll_name) (d : data) : M World value :=
  match d with
  | Prim _ => throw (TypeError "Cannot create property '_id'")
  | Obj d =>
      w ← get;
      if nullish (field d "_id") then
        let o := fresh_oid c w in
        modify (set_oids (N.succ o));;
        modify (fun w => set_collection c (collection c w ++ [<["_id" := VObjectId o]> d]) w);;
        mret (VObjectId o)
      else if existsb (sat (FEq "_id" (field d "_id"))) (collection c w) then
        throw (DriverError "E11000 duplicate key error")
      else
        modify (fun w => set_collection c (collection c w ++ [d]) w);;
        mret (field d "_id")
  end.

(** [deleteOne(f)] resolves to [deletedCount]. *)
Definition deleteOne (c : coll_name) (f : filter) : M World nat :=
  w ← get;
  match List.find (sat f) (collection c w) with
  | Some _ =>
      modify (set_collection c (remove_first (sat f) (collection c w)));;
      mret 1%nat
  | None => mret 0%nat
  end.

Definition deleteMany (c : coll_name) (f : filter) : M World nat :=
  w ← get;
  modify (set_collection c (List.filter (fun d => negb (sat f d)) (collection c w)));;
  mret (length (List.filter (sat f) (collection c w))).

(** [findOneAndUpdate(f, { $set: fields }, { returnDocument: 'after' })]
    resolves to [result.value]. *)
Definition findOneAndUpdate (c : coll_name) (f : filter) (fields : doc)
  : M World (option doc) :=
  w ← get;
  match List.find (sat f) (collection c w) with
  | Some d =>
      modify (set_collection c (update_first (sat f) fields (collection c w)));;
      mret (Some (fields ∪ d))
  | None => mret None
  end.

End Platform.

(** ** The database service *)

Record Service : Type := { dbType : string }.

(** [new DatabaseService()] *)
Definition new_DatabaseService (E : Env) : Service :=
  {| dbType := env_or (DB_TYPE E) "mongodb" |}.

(** What the platform and the server decide beyond [Env]: every statement
    holds for all hosts. *)
Record Host : Type := {
  (* [new Date(y, m, d)] on the local year, month and day of a time *)
  startOfDay : Z -> Z;
  (* what a sorted cursor yields when its [limit] or [skip] is [NaN],
     negative or beyond 64 bits *)
  off_range : number -> number -> list doc -> outcome (list doc);
  (* [parseFloat((count * 100 / total).toFixed(2))] *)
  percentage : value -> Z -> value
}.

Module DatabaseService.
Section Methods.
Context (E : Env) (this : Service).

(** The branches every method has on [this.dbType]; with any other
    value the method falls off its end and resolves to [undefined]. *)
Definition by_dbType (mongodb : M World payload) : M World payload :=
  if String.eqb (dbType this) "mongodb" then mongodb
  else if String.eqb (dbType this) "mysql"
  then throw (Error "MySQL implementation not enabled")
  else mret PUndefined.

Definition registerMember (memberData : data) : M World payload :=
  o ← destructure memberData;
  let name := field o "name" in
  let email := field o "email" in
  let department := field o "department" in
  let year := field o "year" in
  let interests := field o "interests" in
  if negb (truthy name) || negb (truthy email)
  then throw (Error "Name and email are required")
  else if negb (emailRegex_test email)
  then throw (Error "Invalid email format")
  else by_dbType (
    _ ← connectToMongoDB E (MONGODB_URI E);
    existingMember ← findOne Members (FEq "email" email);
    match existingMember with
    | Some _ => throw (Error "Email already registered")
    | None =>
        name' ← call_trim E "name" name;
        email' ← call_toLowerCase_trim E "email" email;
        department' ← opt_trim E "department" department;
        interests' ← opt_trim E "interests" interests;
        joinedAt ← new_Date E;
        createdAt ← new_Date E;
        updatedAt ← new_Date E;
        let member : doc :=
          <["name" := name']> (<["email" := email']> (
          <["department" := or_null department']> (<["year" := or_null year]> (
          <["interests" := or_null interests']> (<["joinedAt" := joinedAt]> (
          <["createdAt" := createdAt]> (<["updatedAt" := updatedAt]> ∅))))))) in
        insertedId ← insertOne Members (Obj member);
        mret (PDoc (<["_id" := insertedId]> member))
    end).

Definition updateMember (memberId : value) (updateData : data) : M World payload :=
  o ← destructure updateData;
  let name := field o "name" in
  let email := field o "email" in
  let department := field o "department" in
  let year := field o "year" in
  let interests := field o "interests" in
  by_dbType (
    _ ← connectToMongoDB E (MONGODB_URI E);
    (if truthy email then
       email' ← call_toLowerCase_trim E "email" email;
       id ← new_ObjectId E memberId;
       existingMember ← findOne Members (FAnd (FEq "email" email') (FNe "_id" id));
       match existingMember with
       | Some _ => throw (Error "Email already taken by another member")
       | None => mret tt
       end
     else mret tt);;
    name' ← (if truthy name then call_trim E "name" name else mret VUndefined);
    email' ← (if truthy email then call_toLowerCase_trim E "email" email else mret VUndefined);
    department' ← (if truthy department then call_trim E "department" department
                   else mret VUndefined);
    interests' ← (if truthy interests then call_trim E "interests" interests
                  else mret VUndefined);
    updatedAt ← new_Date E;
    let updateFields : doc :=
      <["updatedAt" := updatedAt]> (
      spread_if interests "interests" interests' (
      spread_if year "year" year (
      spread_if department "department" department' (
      spread_if email "email" email' (
      spread_if name "name" name' ∅))))) in
    id ← new_ObjectId E memberId;
    result ← findOneAndUpdate Members (FEq "_id" id) updateFields;
    match result with
    | None => throw (Error "Member not found")
    | Some d => mret (PDoc d)
    end).

Definition deleteMember (memberId : value) : M World payload :=
  by_dbType (
    _ ← connectToMongoDB E (MONGODB_URI E);
    id ← new_ObjectId E memberId;
    deletedCount ← deleteOne Members (FEq "_id" id);
    if Nat.eqb deletedCount 0 then throw (Error "Member not found")
    else
      (* Also delete related blogs *)
      _ ← deleteMany Blogs (FEq "authorId" memberId);
      mret (PDoc {[ "message" := VStr "Member deleted successfully" ]})).

Definition addEvent (eventData : data) : M World payload :=
  o ← destructure eventData;
  let title := field o "title" in
  let description := field o "description" in
  let eventDate := field o "eventDate" in
  let location := field o "location" in
  if negb (truthy title) || negb (truthy eventDate)
  then throw (Error "Title and event date are required")
  else
    let eventDateObj := Date_of E eventDate in
    now ← Date_now E;
    if date_le eventDateObj (Some now)
    then throw (Error "Event date must be in the future")
    else by_dbType (
      _ ← connectToMongoDB E (MONGODB_URI E);
      title' ← call_trim E "title" title;
      description' ← opt_trim E "description" description;
      location' ← opt_trim E "location" location;
      createdAt ← new_Date E;
      updatedAt ← new_Date E;
      let event : doc :=
        <["title" := title']> (<["description" := or_null description']> (
        <["eventDate" := VDate eventDateObj]> (<["location" := or_null location']> (
        <["createdAt" := createdAt]> (<["updatedAt" := updatedAt]> ∅))))) in
      insertedId ← insertOne Events (Obj event);
      mret (PDoc (<["_id" := insertedId]> event))).

Definition updateEvent (eventId : value) (updateData : data) : M World payload :=
  o ← destructure updateData;
  let title := field o "title" in
  let description := field o "description" in
  let eventDate := field o "eventDate" in
  let location := field o "location" in
  by_dbType (
    _ ← connectToMongoDB E (MONGODB_URI E);
    title' ← (if truthy title then call_trim E "title" title else mret VUndefined);
    description' ← (if truthy description then call_trim E "description" description
                    else mret VUndefined);
    location' ← (if truthy location then call_trim E "location" location
                 else mret VUndefined);
    updatedAt ← new_Date E;
    let updateFields : doc :=
      <["updatedAt" := updatedAt]> (
      spread_if location "location" location' (
      spread_if eventDate "eventDate" (VDate (Date_of E eventDate)) (
      spread_if description "description" description' (
      spread_if title "title" title' ∅)))) in
    id ← new_ObjectId E eventId;
    result ← findOneAndUpdate Events (FEq "_id" id) updateFields;
    match result with
    | None => throw (Error "Event not found")
    | Some d => mret (PDoc d)
    end).

Definition addBlog (blogData : data) : M World payload :=
  o ← destructure blogData;
  let title := field o "title" in
  let content := field o "content" in
  let authorId := field o "authorId" in
  if negb (truthy title) || negb (truthy content) || negb (truthy authorId)
  then throw (Error "Title, content, and author ID are required")
  else by_dbType (
    _ ← connectToMongoDB E (MONGODB_URI E);
    id ← new_ObjectId E authorId;
    found ← findOne Members (FEq "_id" id);
    match found with
    | None => throw (Error "Author not found")
    | Some author =>
        title' ← call_trim E "title" title;
        content' ← call_trim E "content" content;
        createdAt ← new_Date E;
        updatedAt ← new_Date E;
        let blog : doc :=
          prop "title" title' (prop "content" content' (
          prop "authorId" authorId (prop "authorName" (field author "name") (
          prop "authorEmail" (field author "email") (
          prop "authorDepartment" (field author "department") (
          prop "createdAt" createdAt (prop "updatedAt" updatedAt ∅))))))) in
        insertedId ← insertOne Blogs (Obj blog);
        mret (PDoc (<["_id" := insertedId]> blog))
    end).

(** *** The activity feed *)

(** The order MongoDB sorts values of different types in; an absent
    field sorts like [null], an invalid date like time 0. *)
Definition bson_rank (v : value) : Z :=
  match v with
  | VUndefined | VNull => 1
  | VNum _ => 2
  | VStr _ => 3
  | VOther _ => 4
  | VObjectId _ => 7
  | VBool _ => 8
  | VDate _ => 9
  end.

Definition bson_leb (a b : value) : bool :=
  match a, b with
  | VNum x, VNum y => x <=? y
  | VStr x, VStr y => String.leb x y
  | VObjectId x, VObjectId y => (x <=? y)%N
  | VBool x, VBool y => implb x y
  | VDate x, VDate y => default 0 x <=? default 0 y
  | _, _ => bson_rank a <=? bson_rank b
  end.

Fixpoint insert_desc (k : string) (d : doc) (l : list doc) : list doc :=
  match l with
  | [] => [d]
  | x :: r =>
      if bson_leb (field x k) (field d k) then d :: l
      else x :: insert_desc k d r
  end.

(** [.sort({ k: -1 })] *)
Definition sort_desc (k : string) (l : list doc) : list doc :=
  fold_right (insert_desc k) [] l.

(** [find({}).sort({ k: -1 }).limit(n).toArray()] *)
Definition find_sort_limit (c : coll_name) (k : string) (n : nat)
  : M World (list doc) :=
  w ← get; mret (take n (sort_desc k (collection c w))).

(** [Number(v)], as the subtraction converts its operands. *)
Definition ToNumber (v : value) : number :=
  match v with
  | VUndefined => NaN
  | VNull => Int 0
  | VBool b => Int (if b then 1 else 0)
  | VNum n => Int n
  | VDate (Some t) => Int t
  | VDate None => NaN
  | VStr _ | VObjectId _ | VOther _ => Number_parse E (ToString E v)
  end.

Definition minus (a b : value) : number :=
  match ToNumber a, ToNumber b with
  | Int x, Int y => Int (x - y)
  | _, _ => NaN
  end.

(** [Array.prototype.sort(cmp)]: stable, and a comparison that yields
    [NaN] counts as 0. *)
Fixpoint js_insert {A} (cmp : A -> A -> number) (a : A) (l : list A) : list A :=
  match l with
  | [] => [a]
  | x :: r =>
      match cmp a x with
      | Int n => if 0 <? n then x :: js_insert cmp a r else a :: l
      | NaN => a :: l
      end
  end.

Definition js_sort {A} (cmp : A -> A -> number) (l : list A) : list A :=
  fold_right (js_insert cmp) [] l.

(** [l.slice(0, limit)] *)
Definition slice0 {A} (l : list A) (limit : number) : list A :=
  match limit with
  | NaN => []
  | Int n =>
      if n <? 0 then take (length l - Z.to_nat (- n)) l
      else take (Z.to_nat n) l
  end.

Definition activity (type : string) (description : string) (date : value) : doc :=
  prop "activityType" (VStr type) (
  prop "description" (VStr description) (
  prop "activityDate" date ∅)).

Definition member_joined (m : doc) : doc :=
  activity "member_joined" (ToString E (field m "name") +:+ " joined the club")
    (field m "joinedAt").

Definition blog_published (b : doc) : doc :=
  activity "blog_published" ("New blog: " +:+ ToString E (field b "title"))
    (field b "createdAt").

Definition event_created (e : doc) : doc :=
  activity "event_created" ("Event scheduled: " +:+ ToString E (field e "title"))
    (field e "createdAt").

(** [(a, b) => b.activityDate - a.activityDate] *)
Definition by_activityDate (a b : doc) : number :=
  minus (field b "activityDate") (field a "activityDate").

(** [limit] is [None] when the argument is left out. *)
Definition getRecentActivity (limit : option number) : M World payload :=
  let limit := default (Int 10) limit in
  by_dbType (
    _ ← connectToMongoDB E (MONGODB_URI E);
    memberActivities ← find_sort_limit Members "joinedAt" 5;
    blogActivities ← find_sort_limit Blogs "createdAt" 5;
    eventActivities ← find_sort_limit Events "createdAt" 5;
    let activities :=
      map member_joined memberActivities
      ++ map blog_published blogActivities
      ++ map event_created eventActivities in
    mret (PDocs (slice0 (js_sort by_activityDate activities) limit))).

(** *** Reading *)

Context (H : Host).

(** The numbers a cursor takes for [limit] and [skip]. *)
Definition in_range (n : Z) : bool := (0 <=? n) && (n <? 2 ^ 63).

(** [.limit(limit).skip(skip).toArray()] on a sorted cursor: the server
    skips before it limits, whatever the order of the two calls, and a
    limit of 0 is no limit. *)
Definition page (limit skip : number) (sorted : list doc) : outcome (list doc) :=
  match limit, skip with
  | Int l, Int s =>
      if in_range l && in_range s then
        let rest := drop (Z.to_nat s) sorted in
        Return (if l =? 0 then rest else take (Z.to_nat l) rest)
      else off_range H limit skip sorted
  | _, _ => off_range H limit skip sorted
  end.

(** [find({}).sort({ k: -1 }).limit(limit).skip(skip).toArray()] *)
Definition find_page (c : coll_name) (k : string) (limit skip : number)
  : M World (list doc) :=
  w ← get; await (page limit skip (sort_desc k (collection c w))).

(** An argument is [None] when it is left out. *)
Definition getMembers (limit skip : option number) : M World payload :=
  let limit := default (Int 100) limit in
  let skip := default (Int 0) skip in
  by_dbType (
    _ ← connectToMongoDB E (MONGODB_URI E);
    members ← find_page Members "joinedAt" limit skip;
    mret (PDocs members)).

(** [findOne({ _id: new ObjectId(id) })], which resolves to [null] when
    no document matches. *)
Definition find_by_id (c : coll_name) (id : value) : M World payload :=
  id' ← new_ObjectId E id;
  found ← findOne c (FEq "_id" id');
  mret (match found with Some d => PDoc d | None => PNull end).

Definition getMemberById (memberId : value) : M World payload :=
  by_dbType (
    _ ← connectToMongoDB E (MONGODB_URI E);
    find_by_id Members memberId).

(** [{ k: { $gt: t } }], [{ k: { $lte: t } }] and [{ k: { $gte: t } }]
    with a date [t]: only a date is compared with a date, and an invalid
    one is stored as time 0. *)
Inductive date_op : Type := OpGt | OpLte | OpGte.

Definition date_test (op : date_op) (t : Z) (v : value) : bool :=
  match v with
  | VDate x =>
      let s := default 0 x in
      match op with
      | OpGt => t <? s
      | OpLte => s <=? t
      | OpGte => t <=? s
      end
  | _ => false
  end.

Fixpoint insert_asc (k : string) (d : doc) (l : list doc) : list doc :=
  match l with
  | [] => [d]
  | x :: r =>
      if bson_leb (field d k) (field x k) then d :: l
      else x :: insert_asc k d r
  end.

(** [.sort({ k: 1 })] *)
Definition sort_asc (k : string) (l : list doc) : list doc :=
  fold_right (insert_asc k) [] l.

Definition getEvents (upcomingOnly : bool) : M World payload :=
  by_dbType (
    _ ← connectToMongoDB E (MONGODB_URI E);
    filter ← (if upcomingOnly
              then now ← Date_now E;
                   mret (fun d : doc => date_test OpGt now (field d "eventDate"))
              else mret (fun _ : doc => true));
    w ← get;
    mret (PDocs (sort_asc "eventDate" (List.filter filter (collection Events w))))).

Definition getEventById (eventId : value) : M World payload :=
  by_dbType (
    _ ← connectToMongoDB E (MONGODB_URI E);
    find_by_id Events eventId).

Definition getBlogs (limit skip : option number) : M World payload :=
  let limit := default (Int 50) limit in
  let skip := default (Int 0) skip in
  by_dbType (
    _ ← connectToMongoDB E (MONGODB_URI E);
    blogs ← find_page Blogs "createdAt" limit skip;
    mret (PDocs blogs)).

Definition getBlogById (blogId : value) : M World payload :=
  by_dbType (
    _ ← connectToMongoDB E (MONGODB_URI E);
    find_by_id Blogs blogId).

Definition getBlogsByAuthor (authorId : value) : M World payload :=
  by_dbType (
    _ ← connectToMongoDB E (MONGODB_URI E);
    w ← get;
    mret (PDocs (sort_desc "createdAt"
                   (List.filter (sat (FEq "authorId" authorId)) (collection Blogs w))))).

(** *** Deleting and updating events and blogs *)

Definition deleteEvent (eventId : value) : M World payload :=
  by_dbType (
    _ ← connectToMongoDB E (MONGODB_URI E);
    id ← new_ObjectId E eventId;
    deletedCount ← deleteOne Events (FEq "_id" id);
    if Nat.eqb deletedCount 0 then throw (Error "Event not found")
    else mret (PDoc {[ "message" := VStr "Event deleted successfully" ]})).

Definition deleteBlog (blogId : value) : M World payload :=
  by_dbType (
    _ ← connectToMongoDB E (MONGODB_URI E);
    id ← new_ObjectId E blogId;
    deletedCount ← deleteOne Blogs (FEq "_id" id);
    if Nat.eqb deletedCount 0 then throw (Error "Blog not found")
    else mret (PDoc {[ "message" := VStr "Blog deleted successfully" ]})).

Definition updateBlog (blogId : value) (updateData : data) : M World payload :=
  o ← destructure updateData;
  let title := field o "title" in
  let content := field o "content" in
  by_dbType (
    _ ← connectToMongoDB E (MONGODB_URI E);
    title' ← (if truthy title then call_trim E "title" title else mret VUndefined);
    content' ← (if truthy content then call_trim E "content" content
                else mret VUndefined);
    updatedAt ← new_Date E;
    let updateFields : doc :=
      <["updatedAt" := updatedAt]> (
      spread_if content "content" content' (
      spread_if title "title" title' ∅)) in
    id ← new_ObjectId E blogId;
    result ← findOneAndUpdate Blogs (FEq "_id" id) updateFields;
    match result with
    | None => throw (Error "Blog not found")
    | Some d => mret (PDoc d)
    end).

(** *** The dashboard and the statistics *)

(** [countDocuments(f)] *)
Definition countDocuments (c : coll_name) (f : doc -> bool) : M World Z :=
  w ← get; mret (Z.of_nat (length (List.filter f (collection c w)))).

Definition getDashboardStats : M World payload :=
  by_dbType (
    _ ← connectToMongoDB E (MONGODB_URI E);
    now ← Date_now E;
    let todayStart := startOfDay H now in
    totalMembers ← countDocuments Members (fun _ => true);
    upcomingEvents ←
      countDocuments Events (fun d => date_test OpGt now (field d "eventDate"));
    pastEvents ←
      countDocuments Events (fun d => date_test OpLte now (field d "eventDate"));
    totalBlogs ← countDocuments Blogs (fun _ => true);
    newMembersToday ←
      countDocuments Members (fun d => date_test OpGte todayStart (field d "joinedAt"));
    newBlogsToday ←
      countDocuments Blogs (fun d => date_test OpGte todayStart (field d "createdAt"));
    mret (PDoc (
      <["totalMembers" := VNum totalMembers]> (
      <["upcomingEvents" := VNum upcomingEvents]> (
      <["pastEvents" := VNum pastEvents]> (
      <["totalBlogs" := VNum totalBlogs]> (
      <["newMembersToday" := VNum newMembersToday]> (
      <["newBlogsToday" := VNum newBlogsToday]> ∅)))))))).

(** The key [$group] files a document under: an absent field groups with
    [null]. *)
Definition group_key (k : string) (d : doc) : value :=
  if nullish (field d k) then VNull else field d k.

Fixpoint tally (v : value) (groups : list (value * Z)) : list (value * Z) :=
  match groups with
  | [] => [(v, 1)]
  | (u, n) :: r =>
      if bool_decide (u = v) then (u, n + 1) :: r else (u, n) :: tally v r
  end.

(** [{ $group: { _id: "$k", memberCount: { $sum: 1 } } }] followed by
    [{ $project: { k: "$_id", memberCount: 1, _id: 0 } }] *)
Definition group_count (k : string) (l : list doc) : list doc :=
  map (fun g : value * Z => <[k := fst g]> (<["memberCount" := VNum (snd g)]> ∅))
      (fold_left (fun groups d => tally (group_key k d) groups) l []).

Record MemberStats : Type := mkMemberStats {
  departmentStats : list doc;
  yearStats : list doc
}.

(** [None] is [undefined]. *)
Definition getMemberStats : M World (option MemberStats) :=
  if String.eqb (dbType this) "mongodb" then
    _ ← connectToMongoDB E (MONGODB_URI E);
    w ← get;
    let departmentStats := sort_desc "memberCount" (group_count "department" (members w)) in
    let yearStats := group_count "year" (members w) in
    totalMembers ← countDocuments Members (fun _ => true);
    let departmentStatsWithPercentage :=
      map (fun stat : doc =>
             <["percentage" := percentage H (field stat "memberCount") totalMembers]> stat)
          departmentStats in
    mret (Some (mkMemberStats departmentStatsWithPercentage yearStats))
  else if String.eqb (dbType this) "mysql"
  then throw (Error "MySQL implementation not enabled")
  else mret None.

End Methods.
End DatabaseService.

(** ** Requests and responses *)

Record Request : Type := mkRequest {
  method : string;
  origin : option string;     (* [req.headers.origin] *)
  query : doc;
  body : data
}.

Inductive json : Type :=
| JEnd : json                                            (* [res.end()] *)
| JData (data : payload) : json                          (* [{ ok: true, data }] *)
| JError (error : string) (details : option string) : json
| JMessage (message : string) : json                     (* [{ ok: true, message }] *)
| JInserted (id : value) : json.                         (* [{ success: true, id }] *)

Record Response : Type := mkResponse {
  status : Z;
  headers : list (string * string);
  sent : json
}.

(** [typeof body === "string"], then [JSON.parse] under a [try] whose
    [catch] is empty. *)
Definition parse_body (E : Env) (b : data) : data :=
  match b with
  | Prim (VStr s) => match JSON_parse E s with Some d => d | None => b end
  | _ => b
  end.

(** [const { k = d } = query] *)
Definition with_default (v d : value) : value :=
  match v with VUndefined => d | _ => v end.

(** ** The router of the database API *)

Module Api.

(** The methods the router calls on [dbService]. *)
Record t (S : Type) : Type := {
  getMemberById : value -> M S payload;
  getMembers : number -> number -> M S payload;
  registerMember : data -> M S payload;
  updateMember : value -> data -> M S payload;
  deleteMember : value -> M S payload;
  getEventById : value -> M S payload;
  getEvents : bool -> M S payload;
  addEvent : data -> M S payload;
  updateEvent : value -> data -> M S payload;
  deleteEvent : value -> M S payload;
  getBlogById : value -> M S payload;
  getBlogsByAuthor : value -> M S payload;
  getBlogs : number -> number -> M S payload;
  addBlog : data -> M S payload;
  updateBlog : value -> data -> M S payload;
  deleteBlog : value -> M S payload;
  getDashboardStats : M S payload;
  getRecentActivity : number -> M S payload;
  getMemberStats : M S payload
}.

End Api.

Module Database.
Section Handler.
Context (E : Env) {S : Type} (dbService : Api.t S).

Definition cors : list (string * string) := [
  ("Access-Control-Allow-Origin", "*");
  ("Vary", "Origin");
  ("Access-Control-Allow-Methods", "GET, POST, PUT, DELETE, OPTIONS");
  ("Access-Control-Allow-Headers", "Content-Type, Authorization")
]%string.

Definition setHeaders (req : Request) : list (string * string) :=
  ("Access-Control-Allow-Origin", env_or (origin req) "*")%string :: tail cors.

Definition reply (req : Request) (code : Z) (j : json) : M S Response :=
  mret (mkResponse code (setHeaders req) j).

Definition ok (req : Request) (code : Z) (m : M S payload) : M S Response :=
  p ← m; reply req code (JData p).

Definition method_not_allowed (req : Request) : M S Response :=
  reply req 405 (JError "Method not allowed" None).

(** [method === m] *)
Definition on (req : Request) (m : string) : bool := String.eqb (method req) m.

Definition members_endpoint (req : Request) (id : value) (parsedBody : data)
  : M S Response :=
  if on req "GET" then
    if truthy id then ok req 200 (Api.getMemberById S dbService id)
    else
      let limit := with_default (field (query req) "limit") (VNum 100) in
      let skip := with_default (field (query req) "skip") (VNum 0) in
      ok req 200 (Api.getMembers S dbService (parseInt E limit) (parseInt E skip))
  else if on req "POST" then
    ok req 201 (Api.registerMember S dbService parsedBody)
  else if on req "PUT" then
    if truthy id then ok req 200 (Api.updateMember S dbService id parsedBody)
    else throw (Error "Member ID required")
  else if on req "DELETE" then
    if truthy id then ok req 200 (Api.deleteMember S dbService id)
    else throw (Error "Member ID required")
  else method_not_allowed req.

Definition events_endpoint (req : Request) (id : value) (parsedBody : data)
  : M S Response :=
  if on req "GET" then
    if truthy id then ok req 200 (Api.getEventById S dbService id)
    else
      let upcoming := field (query req) "upcoming" in
      ok req 200 (Api.getEvents S dbService (bool_decide (upcoming = VStr "true")))
  else if on req "POST" then
    ok req 201 (Api.addEvent S dbService parsedBody)
  else if on req "PUT" then
    if truthy id then ok req 200 (Api.updateEvent S dbService id parsedBody)
    else throw (Error "Event ID required")
  else if on req "DELETE" then
    if truthy id then ok req 200 (Api.deleteEvent S dbService id)
    else throw (Error "Event ID required")
  else method_not_allowed req.

Definition blogs_endpoint (req : Request) (id : value) (parsedBody : data)
  : M S Response :=
  if on req "GET" then
    if truthy id then ok req 200 (Api.getBlogById S dbService id)
    else if truthy (field (query req) "author") then
      ok req 200 (Api.getBlogsByAuthor S dbService (field (query req) "author"))
    else
      let limit := with_default (field (query req) "limit") (VNum 50) in
      let skip := with_default (field (query req) "skip") (VNum 0) in
      ok req 200 (Api.getBlogs S dbService (parseInt E limit) (parseInt E skip))
  else if on req "POST" then
    ok req 201 (Api.addBlog S dbService parsedBody)
  else if on req "PUT" then
    if truthy id then ok req 200 (Api.updateBlog S dbService id parsedBody)
    else throw (Error "Blog ID required")
  else if on req "DELETE" then
    if truthy id then ok req 200 (Api.deleteBlog S dbService id)
    else throw (Error "Blog ID required")
  else method_not_allowed req.

Definition dashboard_endpoint (req : Request) : M S Response :=
  if on req "GET" then ok req 200 (Api.getDashboardStats S dbService)
  else method_not_allowed req.

Definition activity_endpoint (req : Request) : M S Response :=
  if on req "GET" then
    let limit := with_default (field (query req) "limit") (VNum 10) in
    ok req 200 (Api.getRecentActivity S dbService (parseInt E limit))
  else method_not_allowed req.

Definition stats_endpoint (req : Request) : M S Response :=
  if on req "GET" then ok req 200 (Api.getMemberStats S dbService)
  else method_not_allowed req.

(** [switch (action)] compares with [===]: only a string can select a
    case. *)
Definition switch_action (req : Request) (action id : value) (parsedBody : data)
  : M S Response :=
  match action with
  | VStr a =>
      if String.eqb a "members" then members_endpoint req id parsedBody
      else if String.eqb a "events" then events_endpoint req id parsedBody
      else if String.eqb a "blogs" then blogs_endpoint req id parsedBody
      else if String.eqb a "dashboard" then dashboard_endpoint req
      else if String.eqb a "activity" then activity_endpoint req
      else if String.eqb a "stats" then stats_endpoint req
      else reply req 400 (JError "Invalid action" None)
  | _ => reply req 400 (JError "Invalid action" None)
  end.

Definition server_error (req : Request) (error : exn) : M S Response :=
  reply req 500
    (JError (env_or (Some (message error)) "Internal server error")
       (if bool_decide (NODE_ENV E = Some "development"%string)
        then Some (stack E error) else None)).

Definition handler (req : Request) : M S Response :=
  if on req "OPTIONS" then reply req 200 JEnd
  else
    try_catch
      (let action := field (query req) "action" in
       let id := field (query req) "id" in
       let parsedBody := parse_body E (body req) in
       switch_action req action id parsedBody)
      (server_error req).

End Handler.
End Database.

(** ** The service behind the router *)

(** [String(a)] of an array of [n] plain objects. *)
Fixpoint objects_repr (n : nat) : string :=
  match n with
  | O => ""
  | S O => "[object Object]"
  | S m => "[object Object]," +:+ objects_repr m
  end.

(** The statistics as a response carries them: the two arrays are fields
    of the object. *)
Definition stats_payload (s : option DatabaseService.MemberStats) : payload :=
  match s with
  | None => PUndefined
  | Some s =>
      PDoc (
        <["departmentStats" :=
            VOther (objects_repr (length (DatabaseService.departmentStats s)))]> (
        <["yearStats" :=
            VOther (objects_repr (length (DatabaseService.yearStats s)))]> ∅))
  end.

(** The methods of a [DatabaseService], as the router calls them: every
    argument is passed. *)
Definition service_api (E : Env) (H : Host) (this : Service) : Api.t World := {|
  Api.getMemberById := DatabaseService.getMemberById E this;
  Api.getMembers := fun l s => DatabaseService.getMembers E this H (Some l) (Some s);
  Api.registerMember := DatabaseService.registerMember E this;
  Api.updateMember := DatabaseService.updateMember E this;
  Api.deleteMember := DatabaseService.deleteMember E this;
  Api.getEventById := DatabaseService.getEventById E this;
  Api.getEvents := DatabaseService.getEvents E this;
  Api.addEvent := DatabaseService.addEvent E this;
  Api.updateEvent := DatabaseService.updateEvent E this;
  Api.deleteEvent := DatabaseService.deleteEvent E this;
  Api.getBlogById := DatabaseService.getBlogById E this;
  Api.getBlogsByAuthor := DatabaseService.getBlogsByAuthor E this;
  Api.getBlogs := fun l s => DatabaseService.getBlogs E this H (Some l) (Some s);
  Api.addBlog := DatabaseService.addBlog E this;
  Api.updateBlog := DatabaseService.updateBlog E this;
  Api.deleteBlog := DatabaseService.deleteBlog E this;
  Api.getDashboardStats := DatabaseService.getDashboardStats E this H;
  Api.getRecentActivity := fun l => DatabaseService.getRecentActivity E this (Some l);
  Api.getMemberStats := s ← DatabaseService.getMemberStats E this H; mret (stats_payload s)
|}.

(** [const dbService = new DatabaseService()] *)
Definition dbService (E : Env) (H : Host) : Api.t World :=
  service_api E H (new_DatabaseService E).

(** The database API, as the module exports it. *)
Definition database_api (E : Env) (H : Host) : Request -> M World Response :=
  Database.handler E (dbService E H).

(** ** [api/join.js] *)

Module Join.
Section Handler.
Context (E : Env).

Definition setHeaders (req : Request) : list (string * string) := [
  ("Access-Control-Allow-Origin", env_or (origin req) "*");
  ("Vary", "Origin");
  ("Access-Control-Allow-Methods", "POST, OPTIONS");
  ("Access-Control-Allow-Headers", "Content-Type")
]%string.

Definition reply (req : Request) (code : Z) (j : json) : M World Response :=
  mret (mkResponse code (setHeaders req) j).

(** [body || {}], read as an object. *)
Definition or_empty (b : data) : doc :=
  match b with Obj d => d | Prim _ => ∅ end.

Definition handler (req : Request) : M World Response :=
  if String.eqb (method req) "OPTIONS" then reply req 200 JEnd
  else if negb (String.eqb (method req) "POST")
  then reply req 405 (JError "Method Not Allowed" None)
  else
    let o := or_empty (parse_body E (body req)) in
    let name := field o "name" in
    let email := field o "email" in
    let department := field o "department" in
    let year := field o "year" in
    let interests := field o "interests" in
    if negb (truthy name) || negb (truthy email)
    then reply req 400 (JError "name and email are required" None)
    else if negb (emailRegex_test email)
    then reply req 400 (JError "invalid email" None)
    else
      try_catch
        (_ ← connectToDatabase E (MONGODB_URI E);
         createdAt ← new_Date E;
         _ ← insertOne Members (Obj (
               <["name" := name]> (<["email" := email]> (
               <["department" := or_null department]> (<["year" := or_null year]> (
               <["interests" := or_null interests]> (<["createdAt" := createdAt]> ∅)))))));
         reply req 200 (JMessage "Thanks for joining!"))
        (fun _ => reply req 500 (JError "Server error" None)).

End Handler.
End Join.

(** ** The bare insert handler *)

Module Insert.
Section Handler.
Context (E : Env).

Definition uri : option string := MONGO_URI E.

Definition reply (code : Z) (j : json) : M World Response :=
  mret (mkResponse code [] j).

(** An operation through a client whose server cannot be reached
    rejects. *)
Definition through_client : M World unit :=
  if reachable E uri then mret tt
  else throw (DriverError "MongoServerSelectionError").

Definition handler (req : Request) : M World Response :=
  if negb (String.eqb (method req) "POST")
  then reply 405 (JError "Only POST allowed" None)
  else
    try_catch
      (w ← get;
       match w_client w with
       | Some _ => mret tt
       | None =>
           client ← new_MongoClient E uri [];
           modify (set_client (Some client));;
           _ ← await (client_connect E client uri);
           mret tt
       end;;
       through_client;;
       insertedId ← insertOne Members (body req);
       reply 200 (JInserted insertedId))
      (fun _ => reply 500 (JError "Database error" None)).

End Handler.
End Insert.

(** ** A concrete environment

    One process configuration with the platform functions tabulated on the
    inputs the examples use: a 24-digit hexadecimal string is an
    [ObjectId], two ISO dates parse, the clock starts on 2026-01-01 and
    advances by a millisecond at every reading. *)

Module Sample.

Definition hex_digit (c : ascii) : option N :=
  let n := N_of_ascii c in
  if ((48 <=? n) && (n <=? 57))%N then Some (n - 48)%N
  else if ((97 <=? n) && (n <=? 102))%N then Some (n - 87)%N
  else if ((65 <=? n) && (n <=? 70))%N then Some (n - 55)%N
  else None.

Fixpoint hex_value (s : string) (acc : N) : option N :=
  match s with
  | EmptyString => Some acc
  | String c r =>
      match hex_digit c with
      | Some d => hex_value r (16 * acc + d)%N
      | None => None
      end
  end.

Definition parse_oid (v : value) : option oid :=
  match v with
  | VStr s => if Nat.eqb (String.length s) 24 then hex_value s 0 else None
  | VObjectId o => Some o
  | _ => None
  end.

Definition parse_date (s : string) : option Z :=
  if String.eqb s "2030-01-01T00:00:00.000Z" then Some 1893456000000
  else if String.eqb s "2020-01-01T00:00:00.000Z" then Some 1577836800000
  else None.

Fixpoint digits (s : string) (acc : Z) : number :=
  match s with
  | EmptyString => Int acc
  | String c r =>
      let n := Z.of_N (N_of_ascii c) in
      if (48 <=? n) && (n <=? 57) then digits r (10 * acc + (n - 48)) else Int acc
  end.

Definition parse_int (v : value) : number :=
  match v with
  | VNum n => Int n
  | VStr (String "-" (String c r)) =>
      match digits (String c r) 0 with Int n => Int (- n) | NaN => NaN end
  | VStr (String c r) => digits (String c r) 0
  | _ => NaN
  end.

Definition env : Env := {|
  DB_TYPE := None;
  MONGODB_URI := Some "mongodb://db.example/club"%string;
  MONGO_URI := Some "mongodb://db.example/club"%string;
  MONGODB_DB := None;
  NODE_ENV := None;
  clock := fun n => 1767225600000 + Z.of_nat n;
  Date_parse := parse_date;
  JSON_parse := fun _ => None;
  parseInt := parse_int;
  ObjectId_parse := parse_oid;
  uri_valid := fun u => match u with Some _ => true | None => false end;
  reachable := fun _ => true;
  show := fun _ => "?"%string;
  Number_parse := fun _ => NaN;
  stack := message
|}.

Definition this : Service := new_DatabaseService env.

(** The same process when the server does not answer. *)
Definition offline : Env := {|
  DB_TYPE := None;
  MONGODB_URI := Some "mongodb://db.example/club"%string;
  MONGO_URI := Some "mongodb://db.example/club"%string;
  MONGODB_DB := None;
  NODE_ENV := None;
  clock := fun n => 1767225600000 + Z.of_nat n;
  Date_parse := parse_date;
  JSON_parse := fun _ => None;
  parseInt := parse_int;
  ObjectId_parse := parse_oid;
  uri_valid := fun u => match u with Some _ => true | None => false end;
  reachable := fun _ => false;
  show := fun _ => "?"%string;
  Number_parse := fun _ => NaN;
  stack := message
|}.

(** A host in UTC that refuses what is out of range, with the percentages
    that are whole numbers. *)
Definition host : Host := {|
  startOfDay := fun t => t - t mod 86400000;
  off_range := fun _ _ _ => Throw (DriverError "MongoServerError");
  percentage := fun count total =>
    match count with
    | VNum n => if (n * 100) mod total =? 0 then VNum (n * 100 / total) else VOther "?"
    | _ => VOther "NaN"
    end
|}.

(** Two members, as [registerMember] and the join handler leave them. *)
Definition ada : doc :=
  <["_id" := VObjectId 1]> (<["name" := VStr "Ada"]> (<["email" := VStr "ada@club.org"]> (
  <["department" := VStr "Maths"]> (<["year" := VNum 2]> (<["interests" := VNull]> (
  <["joinedAt" := VDate (Some 1700000000000)]> (<["createdAt" := VDate (Some 1700000000000)]> (
  <["updatedAt" := VDate (Some 1700000000000)]> ∅)))))))).

Definition bob : doc :=
  <["_id" := VObjectId 2]> (<["name" := VStr "Bob"]> (<["email" := VStr "Bob@Club.org"]> (
  <["department" := VNull]> (<["year" := VNull]> (<["interests" := VNull]> (
  <["createdAt" := VDate (Some 1710000000000)]> ∅)))))).

(** An event, as [addEvent] leaves it. *)
Definition talk : doc :=
  <["_id" := VObjectId 1]> (<["title" := VStr "Talk"]> (<["description" := VNull]> (
  <["eventDate" := VDate (Some 1893456000000)]> (<["location" := VStr "Hall"]> (
  <["createdAt" := VDate (Some 1705000000000)]> (
  <["updatedAt" := VDate (Some 1705000000000)]> ∅)))))).

(** An event that has taken place. *)
Definition fair : doc :=
  <["_id" := VObjectId 2]> (<["title" := VStr "Fair"]> (<["description" := VNull]> (
  <["eventDate" := VDate (Some 1577836800000)]> (<["location" := VStr "Yard"]> (
  <["createdAt" := VDate (Some 1570000000000)]> (
  <["updatedAt" := VDate (Some 1570000000000)]> ∅)))))).

(** Two blogs, as [addBlog] leaves them: one by Ada, one by Bob. *)
Definition essay : doc :=
  <["_id" := VObjectId 1]> (<["title" := VStr "On engines"]> (
  <["content" := VStr "Notes"]> (<["authorId" := VStr "000000000000000000000001"]> (
  <["authorName" := VStr "Ada"]> (<["authorEmail" := VStr "ada@club.org"]> (
  <["authorDepartment" := VStr "Maths"]> (<["createdAt" := VDate (Some 1720000000000)]> (
  <["updatedAt" := VDate (Some 1720000000000)]> ∅)))))))).

Definition notes : doc :=
  <["_id" := VObjectId 2]> (<["title" := VStr "Minutes"]> (
  <["content" := VStr "Agenda"]> (<["authorId" := VStr "000000000000000000000002"]> (
  <["authorName" := VStr "Bob"]> (<["authorEmail" := VStr "Bob@Club.org"]> (
  <["authorDepartment" := VNull]> (<["createdAt" := VDate (Some 1730000000000)]> (
  <["updatedAt" := VDate (Some 1730000000000)]> ∅)))))))).

Definition id1 : value := VStr "000000000000000000000001".
Definition id9 : value := VStr "000000000000000000000009".

Definition post (b : doc) : Request := mkRequest "POST" None ∅ (Obj b).

End Sample.

(** ** Observing the router and the connection cache *)

(** The calls the router can make on the service. *)
Inductive call : Type :=
| GetMemberById (id : value)
| GetMembers (limit skip : number)
| RegisterMember (memberData : data)
| UpdateMember (id : value) (updateData : data)
| DeleteMember (id : value)
| GetEventById (id : value)
| GetEvents (upcomingOnly : bool)
| AddEvent (eventData : data)
| UpdateEvent (id : value) (updateData : data)
| DeleteEvent (id : value)
| GetBlogById (id : value)
| GetBlogsByAuthor (authorId : value)
| GetBlogs (limit skip : number)
| AddBlog (blogData : data)
| UpdateBlog (id : value) (updateData : data)
| DeleteBlog (id : value)
| GetDashboardStats
| GetRecentActivity (limit : number)
| GetMemberStats.

(** What a call works on: one collection, or the aggregates over all. *)
Inductive resource : Type :=
| OnCollection (c : coll_name)
| Aggregate.

Definition resource_of (c : call) : resource :=
  match c with
  | GetMemberById _ | GetMembers _ _ | RegisterMember _
  | UpdateMember _ _ | DeleteMember _ => OnCollection Members
  | GetEventById _ | GetEvents _ | AddEvent _
  | UpdateEvent _ _ | DeleteEvent _ => OnCollection Events
  | GetBlogById _ | GetBlogsByAuthor _ | GetBlogs _ _ | AddBlog _
  | UpdateBlog _ _ | DeleteBlog _ => OnCollection Blogs
  | GetDashboardStats | GetRecentActivity _ | GetMemberStats => Aggregate
  end.

(** The resource an [action] names. *)
Definition resource_named (action : string) : option resource :=
  if String.eqb action "members" then Some (OnCollection Members)
  else if String.eqb action "events" then Some (OnCollection Events)
  else if String.eqb action "blogs" then Some (OnCollection Blogs)
  else if String.eqb action "dashboard" then Some Aggregate
  else if String.eqb action "activity" then Some Aggregate
  else if String.eqb action "stats" then Some Aggregate
  else None.

(** The methods an [action] supports. *)
Definition supported (action method : string) : bool :=
  match resource_named action with
  | Some (OnCollection _) =>
      String.eqb method "GET" || String.eqb method "POST"
      || String.eqb method "PUT" || String.eqb method "DELETE"
  | Some Aggregate => String.eqb method "GET"
  | None => false
  end.

(** A service that only records the calls made on it. *)
Definition record_call (c : call) : M (list call) payload :=
  modify (fun log => log ++ [c]);; mret PNull.

Definition recorder : Api.t (list call) := {|
  Api.getMemberById := fun id => record_call (GetMemberById id);
  Api.getMembers := fun l s => record_call (GetMembers l s);
  Api.registerMember := fun d => record_call (RegisterMember d);
  Api.updateMember := fun id d => record_call (UpdateMember id d);
  Api.deleteMember := fun id => record_call (DeleteMember id);
  Api.getEventById := fun id => record_call (GetEventById id);
  Api.getEvents := fun u => record_call (GetEvents u);
  Api.addEvent := fun d => record_call (AddEvent d);
  Api.updateEvent := fun id d => record_call (UpdateEvent id d);
  Api.deleteEvent := fun id => record_call (DeleteEvent id);
  Api.getBlogById := fun id => record_call (GetBlogById id);
  Api.getBlogsByAuthor := fun a => record_call (GetBlogsByAuthor a);
  Api.getBlogs := fun l s => record_call (GetBlogs l s);
  Api.addBlog := fun d => record_call (AddBlog d);
  Api.updateBlog := fun id d => record_call (UpdateBlog id d);
  Api.deleteBlog := fun id => record_call (DeleteBlog id);
  Api.getDashboardStats := record_call GetDashboardStats;
  Api.getRecentActivity := fun l => record_call (GetRecentActivity l);
  Api.getMemberStats := record_call GetMemberStats
|}.

(** The calls a request makes on the service. *)
Definition calls_of (E : Env) (req : Request) : list call :=
  snd (Database.handler E recorder req []).

(** Which of the two connection functions a module calls. *)
Inductive connector : Type := ToMongoDB | ToDatabase.

Definition connect_by (E : Env) (f : connector) (uri : option string) : M World Conn :=
  match f with
  | ToMongoDB => connectToMongoDB E uri
  | ToDatabase => connectToDatabase E uri
  end.

(** Calls made one after the other, each awaited before the next. *)
Fixpoint in_sequence (E : Env) (cs : list (connector * option string)) (w : World)
  : list (outcome Conn) * World :=
  match cs with
  | [] => ([], w)
  | (f, uri) :: rest =>
      let '(r, w1) := connect_by E f uri w in
      let '(rs, w2) := in_sequence E rest w1 in
      (r :: rs, w2)
  end.

(** Whether the service reaches its database from [w], and the state the
    connection leaves. *)
Definition online (E : Env) (w : World) : bool :=
  match fst (connectToMongoDB E (MONGODB_URI E) w) with
  | Return _ => true
  | Throw _ => false
  end.

Definition connected (E : Env) (w : World) : World :=
  snd (connectToMongoDB E (MONGODB_URI E) w).

(** The cache is empty and no client exists, or the cache is in use and
    one client at most exists. *)
Definition cache_inv (w : World) : Prop :=
  (conn (w_mongo w) = None /\ promise (w_mongo w) = None /\ w_clients w = [])
  \/ ((conn (w_mongo w) <> None \/ promise (w_mongo w) <> None)
      /\ (length (w_clients w) <= 1)%nat).

(** The properties of a body, as a destructuring reads them. *)
Definition properties (d : data) : doc :=
  match d with Obj d => d | Prim _ => ∅ end.

(** The fields [updateMember] can set, and whether an update supplies
    one: the field is among them and its value is truthy. *)
Definition member_fields : list string :=
  ["name"; "email"; "department"; "year"; "interests"]%string.

Definition supplied (among : list string) (upd : doc) (k : string) : bool :=
  bool_decide (k ∈ among) && truthy (field upd k).

(** A computation that leaves the state as it is. *)
Definition stateless {S A} (m : M S A) : Prop := forall s, snd (m s) = s.

(** What [updateMember] stores for a supplied field. *)
Definition normalised (k : string) (v : value) : value :=
  match v with
  | VStr s =>
      if String.eqb k "email" then VStr (JsString.trim (JsString.toLowerCase s))
      else if String.eqb k "year" then v
      else VStr (JsString.trim s)
  | _ => v
  end.


(** [null], [undefined] or a string: what [?.trim()] accepts. *)
Definition optional_string (v : value) : Prop :=
  nullish v = true \/ exists s, v = VStr s.

(** A body a destructuring accepts: anything but [undefined] and [null]. *)
Definition destructurable (d : data) : Prop :=
  d <> Prim VUndefined /\ d <> Prim VNull.

(** Insertion sort, with the test that places an element before another;
    the two sorts of the activity feed are instances of it. *)
Fixpoint insert_by {A} (before : A -> A -> bool) (a : A) (l : list A) : list A :=
  match l with
  | [] => [a]
  | x :: r => if before a x then a :: l else x :: insert_by before a r
  end.

Definition sort_by {A} (before : A -> A -> bool) (l : list A) : list A :=
  fold_right (insert_by before) [] l.

(** The test of [.sort({ k: -1 })]: [d] goes before [x] when the key of
    [x] is no greater. *)
Definition key_before (k : string) (d x : doc) : bool :=
  DatabaseService.bson_leb (field x k) (field d k).

(** The test of [Array.prototype.sort(cmp)]: [a] stays before [x] unless
    [cmp a x] is positive. *)
Definition js_before {A} (cmp : A -> A -> number) (a x : A) : bool :=
  match cmp a x with
  | Int n => negb (0 <? n)
  | NaN => true
  end.

(** A document whose field [k] is a valid date, and the time it holds. *)
Definition time_of (k : string) (d : doc) : option Z :=
  match field d k with VDate (Some t) => Some t | _ => None end.

Definition dated (k : string) (d : doc) : Prop := exists t, time_of k d = Some t.

(** Newest first. *)
Definition newer_first (k : string) (a b : doc) : Prop :=
  match time_of k a, time_of k b with
  | Some ta, Some tb => tb <= ta
  | _, _ => False
  end.

(** ** The rest of the service and the three endpoints *)

(** [l] holds its documents by decreasing, or by increasing, [k] in the
    order of MongoDB. *)
Definition sorted_desc (k : string) (l : list doc) : Prop :=
  StronglySorted (fun a b => DatabaseService.bson_leb (field b k) (field a k) = true) l.

Definition sorted_asc (k : string) (l : list doc) : Prop :=
  StronglySorted (fun a b => DatabaseService.bson_leb (field a k) (field b k) = true) l.

(** The test of [.sort({ k: 1 })]: [d] goes before [x] when its key is no
    greater. *)
Definition key_after (k : string) (d x : doc) : bool :=
  DatabaseService.bson_leb (field d k) (field x k).

(** The documents of [l] with the identifier [o]. *)
Definition has_id (o : oid) (d : doc) : bool :=
  bool_decide (field d "_id" = VObjectId o).

(** [pg] is the page of [all] that starts after [s] documents and holds
    [l] of them (all that remain when [l] is 0), by decreasing [k]. *)
Definition is_page (k : string) (l s : Z) (all pg : list doc) : Prop :=
  exists before after,
    Permutation all (before ++ pg ++ after)
    /\ sorted_desc k (before ++ pg ++ after)
    /\ length before = Nat.min (Z.to_nat s) (length all)
    /\ if l =? 0 then after = []
       else length pg = Nat.min (Z.to_nat l) (length all - length before).

(** The lookup by identifier of each collection. *)
Definition get_by_id (E : Env) (this : Service) (c : coll_name)
  : value -> M World payload :=
  match c with
  | Members => DatabaseService.getMemberById E this
  | Events => DatabaseService.getEventById E this
  | Blogs => DatabaseService.getBlogById E this
  end.

(** An event whose [eventDate] is a date later than [now]. *)
Definition upcoming (now : Z) (d : doc) : bool :=
  match field d "eventDate" with
  | VDate (Some t) => now <? t
  | VDate None => now <? 0
  | _ => false
  end.

(** A blog whose [authorId] is [a]. *)
Definition written_by (a : value) (d : doc) : bool :=
  bool_decide (field d "authorId" = a).

(** The fields [updateBlog] can set. *)
Definition blog_fields : list string := ["title"; "content"]%string.

(** A call has stored [d] in [c]: the backend is MongoDB, the connection
    is cached, [d] is the last document of the collection, its identifier
    is new to the collection, and the other collections are as before. *)
Definition stored (this : Service) (c : coll_name) (d : doc) (w w' : World) : Prop :=
  dbType this = "mongodb"%string
  /\ (exists h, conn (w_mongo w') = Some h)
  /\ (forall c', c' <> c -> collection c' w' = collection c' w)
  /\ collection c w' = collection c w ++ [d]
  /\ exists o, field d "_id" = VObjectId o
               /\ forall x, In x (collection c w) -> field x "_id" <> VObjectId o.

(** [{ message }], what a deletion resolves to. *)
Definition deleted (message : string) : payload :=
  PDoc {[ "message"%string := VStr message ]}.

(** The number of documents of [l] that pass [p]. *)
Definition count_where (p : doc -> bool) (l : list doc) : Z :=
  Z.of_nat (length (List.filter p l)).

(** A document whose field [k] holds a date. *)
Definition holds_date (k : string) (d : doc) : bool :=
  match field d k with VDate _ => true | _ => false end.

(** A document that [$group] files under [v] for the field [k]. *)
Definition in_group (k : string) (v : value) (d : doc) : bool :=
  bool_decide (DatabaseService.group_key k d = v).

(** The count a tally holds for [v]. *)
Definition tallied (v : value) (groups : list (value * Z)) : Z :=
  match List.find (fun g => bool_decide (fst g = v)) groups with
  | Some g => snd g
  | None => 0
  end.

(** One statistic per group of the field [k]: the groups are distinct,
    each holds at least one member, and its count is the number of
    documents of [l] in the group; every document is in one of them. *)
Definition grouped (k : string) (l stats : list doc) : Prop :=
  NoDup (map (fun s => field s k) stats)
  /\ (forall s, In s stats ->
        field s "memberCount" = VNum (count_where (in_group k (field s k)) l)
        /\ 1 <= count_where (in_group k (field s k)) l)
  /\ (forall d, In d l ->
        exists s, In s stats /\ field s k = DatabaseService.group_key k d).

(** A call, made on a service. *)
Definition perform {S} (svc : Api.t S) (c : call) : M S payload :=
  match c with
  | GetMemberById id => Api.getMemberById S svc id
  | GetMembers limit skip => Api.getMembers S svc limit skip
  | RegisterMember memberData => Api.registerMember S svc memberData
  | UpdateMember id updateData => Api.updateMember S svc id updateData
  | DeleteMember id => Api.deleteMember S svc id
  | GetEventById id => Api.getEventById S svc id
  | GetEvents upcomingOnly => Api.getEvents S svc upcomingOnly
  | AddEvent eventData => Api.addEvent S svc eventData
  | UpdateEvent id updateData => Api.updateEvent S svc id updateData
  | DeleteEvent id => Api.deleteEvent S svc id
  | GetBlogById id => Api.getBlogById S svc id
  | GetBlogsByAuthor authorId => Api.getBlogsByAuthor S svc authorId
  | GetBlogs limit skip => Api.getBlogs S svc limit skip
  | AddBlog blogData => Api.addBlog S svc blogData
  | UpdateBlog id updateData => Api.updateBlog S svc id updateData
  | DeleteBlog id => Api.deleteBlog S svc id
  | GetDashboardStats => Api.getDashboardStats S svc
  | GetRecentActivity limit => Api.getRecentActivity S svc limit
  | GetMemberStats => Api.getMemberStats S svc
  end.

(** The calls that create a document, and those that only read. *)
Definition creates (c : call) : bool :=
  match c with
  | RegisterMember _ | AddEvent _ | AddBlog _ => true
  | _ => false
  end.

Definition reads (c : call) : bool :=
  match c with
  | GetMemberById _ | GetMembers _ _ | GetEventById _ | GetEvents _
  | GetBlogById _ | GetBlogsByAuthor _ | GetBlogs _ _
  | GetDashboardStats | GetRecentActivity _ | GetMemberStats => true
  | _ => false
  end.

(** What the router answers with the outcome of the call it has made. *)
Definition relayed (E : Env) (req : Request) (c : call) (r : outcome payload)
  : Response :=
  match r with
  | Return p =>
      mkResponse (if creates c then 201 else 200) (Database.setHeaders req) (JData p)
  | Throw e =>
      mkResponse 500 (Database.setHeaders req)
        (JError (env_or (Some (message e)) "Internal server error")
           (if bool_decide (NODE_ENV E = Some "development"%string)
            then Some (stack E e) else None))
  end.

(** What the router answers when it makes no call. *)
Definition unrouted (E : Env) (req : Request) : outcome Response :=
  fst (Database.handler E recorder req []).

(** An exception the code of the service raises itself, with [throw] or
    by calling a method a value does not have, as opposed to one that
    comes out of the driver. *)
Definition raised_by_service (e : exn) : bool :=
  match e with
  | Error _ | TypeError _ => true
  | DriverError _ => false
  end.

(** A computation that leaves the three collections as they are. *)
Definition keeps_store {A} (m : M World A) : Prop :=
  forall w, store (snd (m w)) = store w.

(** The calls that update a document, and those that delete one. *)
Definition updates (c : call) : bool :=
  match c with
  | UpdateMember _ _ | UpdateEvent _ _ | UpdateBlog _ _ => true
  | _ => false
  end.

Definition deletes (c : call) : bool :=
  match c with
  | DeleteMember _ | DeleteEvent _ | DeleteBlog _ => true
  | _ => false
  end.


(** The three handlers a process can serve. *)
Inductive endpoint : Type := JoinApi | InsertApi | DatabaseApi.

Definition serve_one (E : Env) (H : Host) (ep : endpoint)
  : Request -> M World Response :=
  match ep with
  | JoinApi => Join.handler E
  | InsertApi => Insert.handler E
  | DatabaseApi => database_api E H
  end.

(** Requests served one after the other, each answered before the next
    is taken. *)
Fixpoint serve (E : Env) (H : Host) (reqs : list (endpoint * Request)) (w : World)
  : list (outcome Response) * World :=
  match reqs with
  | [] => ([], w)
  | (ep, req) :: rest =>
      let '(r, w1) := serve_one E H ep req w in
      let '(rs, w2) := serve E H rest w1 in
      (r :: rs, w2)
  end.

(** The clients a process may have constructed: one once the shared cache
    is in use, and one once the bare insert handler holds its own. *)
Definition cache_clients (w : World) : nat :=
  match conn (w_mongo w), promise (w_mongo w) with
  | None, None => 0
  | _, _ => 1
  end.

Definition own_clients (w : World) : nat :=
  match w_client w with None => 0 | Some _ => 1 end.

Definition clients_inv (w : World) : Prop :=
  (length (w_clients w) <= cache_clients w + own_clients w)%nat.

(** A step that leaves the client of the bare insert handler alone and
    keeps the count of clients within its bound. *)
Definition connects (w w' : World) : Prop :=
  w_client w' = w_client w /\ (clients_inv w -> clients_inv w').

Definition connecting {A} (m : M World A) : Prop :=
  forall w, connects w (snd (m w)).

(** A step that constructs no client and touches no cache. *)
Definition quiet {A} (m : M World A) : Prop :=
  forall w, w_mongo (snd (m w)) = w_mongo w
            /\ w_clients (snd (m w)) = w_clients w
            /\ w_client (snd (m w)) = w_client w.

(** No two documents of [l] hold the same value in the field [k]. *)
Definition unique_on (k : string) (l : list doc) : Prop :=
  NoDup (map (fun d => field d k) l).

(** The words of a regular expression. *)
Inductive star (L : string -> Prop) : string -> Prop :=
| star_nil : star L ""
| star_app s1 s2 : s1 <> ""%string -> L s1 -> star L s2 -> star L (s1 +:+ s2).

Fixpoint lang (r : Regex.regex) (s : string) : Prop :=
  match r with
  | Regex.Void => False
  | Regex.Eps => s = ""%string
  | Regex.Class p => exists c, s = String c "" /\ p c = true
  | Regex.Cat a b => exists s1 s2, s = s1 +:+ s2 /\ lang a s1 /\ lang b s2
  | Regex.Alt a b => lang a s \/ lang b s
  | Regex.Star a => star (lang a) s
  end.

(** A part of an address: one character or more, none of them white
    space or [@]. *)
Definition address_part (s : string) : Prop :=
  s <> ""%string /\ Forall (fun c => not_space_at c = true) (JsString.chars s).

(** [local@domain.tld] *)
Definition address_shape (s : string) : Prop :=
  exists a b c,
    s = a +:+ "@" +:+ b +:+ "." +:+ c
    /\ address_part a /\ address_part b /\ address_part c.

(** A computation that constructs no client and touches neither the
    cache nor a collection. *)
Definition idle {A} (m : M World A) : Prop :=
  forall w, w_mongo (snd (m w)) = w_mongo w
            /\ w_clients (snd (m w)) = w_clients w
            /\ store (snd (m w)) = store w.


(** No two documents of a collection share an identifier. *)
Definition ids_unique (w : World) : Prop :=
  forall c, unique_on "_id" (collection c w).

(** A computation that keeps a property of the state. *)
Definition preserving (I : World -> Prop) {A} (m : M World A) : Prop :=
  forall w, I w -> I (snd (m w)).

(** * Properties *)

(** ** Strings and the email pattern *)

Example emailRegex_ok : Regex.matches emailRegex "Ada@Club.org" = true.
Proof. reflexivity. Qed.

Example emailRegex_space : Regex.matches emailRegex "a da@club.org" = false.
Proof. reflexivity. Qed.

Example trim_example : JsString.trim "  Ada L " = "Ada L"%string.
Proof. reflexivity. Qed.

Example toLowerCase_example :
  JsString.toLowerCase "Ada@Club.ORG" = "ada@club.org"%string.
Proof. reflexivity. Qed.

Module JsStringFacts.
Import JsString.

Ltac each_char c :=
  destruct c as [[] [] [] [] [] [] [] []]; vm_compute; reflexivity.

Lemma lower_char_idem c : lower_char (lower_char c) = lower_char c.
Proof. each_char c. Qed.

Lemma is_space_lower_char c : is_space (lower_char c) = is_space c.
Proof. each_char c. Qed.

Lemma toLowerCase_idem s : toLowerCase (toLowerCase s) = toLowerCase s.
Proof.
  induction s as [|c s IH]; simpl; [reflexivity|].
  now rewrite lower_char_idem, IH.
Qed.

Lemma trimStart_toLowerCase s :
  trimStart (toLowerCase s) = toLowerCase (trimStart s).
Proof.
  induction s as [|c s IH]; simpl; [reflexivity|].
  rewrite is_space_lower_char. destruct (is_space c); [exact IH|reflexivity].
Qed.

Lemma trimEnd_toLowerCase s :
  trimEnd (toLowerCase s) = toLowerCase (trimEnd s).
Proof.
  induction s as [|c s IH]; simpl; [reflexivity|].
  rewrite IH, is_space_lower_char.
  destruct (trimEnd s); simpl; [destruct (is_space c)|]; reflexivity.
Qed.

Lemma trim_toLowerCase s : trim (toLowerCase s) = toLowerCase (trim s).
Proof. unfold trim. now rewrite trimStart_toLowerCase, trimEnd_toLowerCase. Qed.

(** What [registerMember] stores is a fixed point of [toLowerCase]. *)
Lemma lowercased_trim_toLowerCase s : lowercased (trim (toLowerCase s)).
Proof.
  unfold lowercased. now rewrite <- trim_toLowerCase, toLowerCase_idem.
Qed.

Lemma trimEnd_spaceless s : spaceless s -> trimEnd s = s.
Proof.
  unfold spaceless. induction s as [|c s IH]; simpl; [reflexivity|].
  intros H. apply Forall_cons_1 in H as [Hc Hs].
  rewrite (IH Hs), Hc. destruct s; reflexivity.
Qed.

Lemma trim_spaceless s : spaceless s -> trim s = s.
Proof.
  intros H. unfold trim.
  assert (trimStart s = s) as ->; [|now apply trimEnd_spaceless].
  destruct s as [|c s]; simpl; [reflexivity|].
  apply Forall_cons_1 in H as [-> _]. reflexivity.
Qed.

Lemma spaceless_toLowerCase s : spaceless s -> spaceless (toLowerCase s).
Proof.
  unfold spaceless. induction s as [|c s IH]; simpl; intros H; [constructor|].
  apply Forall_cons_1 in H as [Hc Hs]. constructor; [|auto].
  now rewrite is_space_lower_char.
Qed.

End JsStringFacts.

Module RegexFacts.
Import Regex.

Lemma void_nullable r : void r = true -> nullable r = false.
Proof.
  induction r; simpl; intros H; try discriminate; try reflexivity.
  - apply orb_true_iff in H as [H|H];
      [rewrite (IHr1 H)|rewrite (IHr2 H), andb_false_r]; reflexivity.
  - apply andb_true_iff in H as [H1 H2]. now rewrite IHr1, IHr2.
Qed.

Lemma void_deriv c r : void r = true -> void (deriv c r) = true.
Proof.
  induction r; simpl; intros H; try discriminate; try reflexivity.
  - apply orb_true_iff in H as [H|H].
    + rewrite (IHr1 H), (void_nullable _ H). reflexivity.
    + rewrite H, orb_true_r. simpl. destruct (nullable r1); auto.
  - apply andb_true_iff in H as [H1 H2]. now rewrite IHr1, IHr2.
Qed.

Lemma void_matches s : forall r, void r = true -> matches r s = false.
Proof.
  induction s as [|c s IH]; intros r H; simpl.
  - now apply void_nullable.
  - apply IH. now apply void_deriv.
Qed.

Section Avoiding.
Variable P : ascii -> bool.

Lemma avoids_deriv c r : avoids P r -> avoids P (deriv c r).
Proof.
  induction r; simpl; intros H; auto.
  - destruct (p c); exact I.
  - destruct H as [H1 H2]. repeat split; auto.
    destruct (nullable r1); simpl; auto.
  - destruct H; auto.
Qed.

Lemma avoided_deriv c r :
  avoids P r -> P c = true -> void (deriv c r) = true.
Proof.
  intros H Hc. induction r; simpl in *; auto.
  - now rewrite (H c Hc).
  - destruct H as [H1 H2]. rewrite (IHr1 H1). simpl.
    destruct (nullable r1); auto.
  - destruct H as [H1 H2]. now rewrite IHr1, IHr2.
  - now rewrite IHr.
Qed.

(** A word a pattern accepts holds none of the characters its
    classes reject. *)
Lemma matches_avoids s :
  forall r, avoids P r -> matches r s = true ->
            Forall (fun c => P c = false) (JsString.chars s).
Proof.
  induction s as [|c s IH]; intros r Hr Hm; simpl in *; constructor.
  - destruct (P c) eqn:Hc; [|reflexivity].
    rewrite (void_matches s _ (avoided_deriv c r Hr Hc)) in Hm.
    discriminate.
  - apply (IH (deriv c r)); [now apply avoids_deriv | exact Hm].
Qed.

End Avoiding.

Lemma emailRegex_avoids_space : avoids JsString.is_space emailRegex.
Proof.
  assert (forall c, JsString.is_space c = true -> not_space_at c = false) as Hcls.
  { intros c Hc. unfold not_space_at. now rewrite Hc. }
  assert (forall a c, JsString.is_space a = false ->
                      JsString.is_space c = true -> Ascii.eqb a c = false) as Hlit.
  { intros a c Ha Hc. destruct (Ascii.eqb_spec a c); [congruence|reflexivity]. }
  unfold emailRegex, Plus, Lit. cbn [avoids].
  repeat split; auto; intros c Hc; now apply Hlit.
Qed.

(** An address the pattern accepts holds no white space, so [trim]
    leaves it as it is. *)
Lemma emailRegex_spaceless s :
  matches emailRegex s = true -> JsString.spaceless s.
Proof. apply matches_avoids, emailRegex_avoids_space. Qed.

End RegexFacts.

(** ** The connection cache *)

Ltac monad_unfold :=
  unfold mbind, M_bind, mret, M_ret, get, modify, throw, await, try_catch in *.

Section CacheFacts.
Context (E : Env).

(** A call leaves everything but the cache and the list of clients. *)
Lemma cached_connect_frame options uri w :
  let w' := snd (cached_connect E options uri w) in
  store w' = store w /\ w_ticks w' = w_ticks w /\ w_oids w' = w_oids w
  /\ w_client w' = w_client w.
Proof.
  unfold cached_connect, new_MongoClient, client_connect. monad_unfold.
  destruct (conn (w_mongo w)); [simpl; auto|].
  destruct (promise (w_mongo w)) as [[c|e]|]; simpl; auto.
  destruct (uri_valid E uri); simpl; auto.
  destruct (reachable E uri); simpl; auto.
Qed.

(** Once a handle is cached, a call returns it and touches nothing. *)
Lemma cached_connect_hit options uri w h :
  conn (w_mongo w) = Some h ->
  cached_connect E options uri w = (Return h, w).
Proof.
  intros H. unfold cached_connect. monad_unfold. now rewrite H.
Qed.

(** A call that returns a handle leaves it cached. *)
Lemma cached_connect_caches options uri w h w' :
  cached_connect E options uri w = (Return h, w') ->
  conn (w_mongo w') = Some h.
Proof.
  unfold cached_connect, new_MongoClient, client_connect. monad_unfold.
  destruct (conn (w_mongo w)) eqn:Hc; [intros [= <- <-]; exact Hc|].
  destruct (promise (w_mongo w)) as [[c|e]|]; simpl.
  - intros [= <- <-]. reflexivity.
  - discriminate.
  - destruct (uri_valid E uri); simpl; [|discriminate].
    destruct (reachable E uri); simpl; [|discriminate].
    intros [= <- <-]. reflexivity.
Qed.

Lemma cached_connect_inv options uri w :
  cache_inv w -> cache_inv (snd (cached_connect E options uri w)).
Proof.
  unfold cache_inv, cached_connect, new_MongoClient, client_connect.
  monad_unfold.
  destruct (conn (w_mongo w)) eqn:Hc; [simpl; rewrite Hc; auto|].
  destruct (promise (w_mongo w)) as [[c|e]|] eqn:Hp; simpl.
  - intros [(_ & [=] & _)|[_ Hn]]. right. split; [left; discriminate|exact Hn].
  - rewrite Hc, Hp. auto.
  - intros [(_ & _ & Hn)|[[H|H] _]]; try congruence.
    destruct (uri_valid E uri); simpl; [|rewrite Hc, Hp; auto].
    destruct (reachable E uri); simpl; rewrite Hn; right;
      (split; [|simpl; lia]); [left|right]; discriminate.
Qed.

Lemma connect_by_inv f uri w :
  cache_inv w -> cache_inv (snd (connect_by E f uri w)).
Proof. destruct f; apply cached_connect_inv. Qed.

Lemma in_sequence_inv cs :
  forall w, cache_inv w -> cache_inv (snd (in_sequence E cs w)).
Proof.
  induction cs as [|[f uri] cs IH]; intros w Hw; simpl; [exact Hw|].
  pose proof (connect_by_inv f uri w Hw) as H1.
  destruct (connect_by E f uri w) as [r w1]. simpl in H1.
  specialize (IH w1 H1). destruct (in_sequence E cs w1) as [rs w2].
  exact IH.
Qed.

Lemma cache_inv_clients w : cache_inv w -> (length (w_clients w) <= 1)%nat.
Proof. intros [(_ & _ & ->)|[_ H]]; simpl; lia. Qed.

(** With a handle cached, every call of a sequence returns it, and the
    process stays as it is. *)
Lemma in_sequence_hit cs :
  forall w h, conn (w_mongo w) = Some h ->
              in_sequence E cs w = (map (fun _ => Return h) cs, w).
Proof.
  induction cs as [|[f uri] cs IH]; intros w h Hh; simpl; [reflexivity|].
  assert (connect_by E f uri w = (Return h, w)) as ->
      by (destruct f; now apply cached_connect_hit).
  now rewrite (IH w h Hh).
Qed.

Lemma connect_by_caches f uri w h w' :
  connect_by E f uri w = (Return h, w') -> conn (w_mongo w') = Some h.
Proof. destruct f; apply cached_connect_caches. Qed.

(** A first call constructs its client, and reaches the server when the
    address is good and the server is up. *)
Lemma connect_by_first f uri ms es bs h w' :
  connect_by E f uri (boot ms es bs) = (Return h, w') ->
  h = open_db E 0 /\ length (w_clients w') = 1%nat.
Proof.
  destruct f; unfold connect_by, connectToMongoDB, connectToDatabase,
    cached_connect, new_MongoClient, client_connect; monad_unfold; simpl;
    (destruct (uri_valid E uri); simpl; [|discriminate]);
    (destruct (reachable E uri); simpl; [|discriminate]);
    intros [= <- <-]; auto.
Qed.

Lemma connect_by_first_ok f uri ms es bs :
  uri_valid E uri = true -> reachable E uri = true ->
  fst (connect_by E f uri (boot ms es bs)) = Return (open_db E 0).
Proof.
  intros Hv Hr.
  destruct f; unfold connect_by, connectToMongoDB, connectToDatabase,
    cached_connect, new_MongoClient, client_connect; monad_unfold; simpl;
    rewrite Hv; simpl; rewrite Hr; reflexivity.
Qed.

End CacheFacts.

(** A connection that has failed stays in the cache: a call finds the
    rejected promise, throws its error and touches nothing. *)
Lemma cached_connect_rejected (E : Env) options uri w e :
  conn (w_mongo w) = None -> promise (w_mongo w) = Some (Throw e) ->
  cached_connect E options uri w = (Throw e, w).
Proof.
  intros Hc Hp. unfold cached_connect. monad_unfold. now rewrite Hc, Hp.
Qed.

Lemma in_sequence_rejected (E : Env) cs :
  forall w e, conn (w_mongo w) = None -> promise (w_mongo w) = Some (Throw e) ->
              in_sequence E cs w = (map (fun _ => Throw e) cs, w).
Proof.
  induction cs as [|[f uri] cs IH]; intros w e Hc Hp; [reflexivity|].
  cbn [in_sequence map].
  assert (connect_by E f uri w = (Throw e, w)) as ->
      by (destruct f; now apply cached_connect_rejected).
  now rewrite (IH w e Hc Hp).
Qed.

(** The first call of a process whose server does not answer constructs
    the client and leaves the rejected promise behind. *)
Lemma connect_by_first_unreachable (E : Env) f uri ms es bs :
  uri_valid E uri = true -> reachable E uri = false ->
  exists w1,
    connect_by E f uri (boot ms es bs)
    = (Throw (DriverError "MongoServerSelectionError"), w1)
    /\ conn (w_mongo w1) = None
    /\ promise (w_mongo w1) = Some (Throw (DriverError "MongoServerSelectionError"))
    /\ length (w_clients w1) = 1%nat.
Proof.
  intros Hv Hr.
  destruct f; unfold connect_by, connectToMongoDB, connectToDatabase,
    cached_connect, new_MongoClient, client_connect; monad_unfold; simpl;
    rewrite Hv; simpl; rewrite Hr; simpl; eexists; repeat split.
Qed.

(** C7 (amended). The connection cache. In a process that has just loaded
    its modules, after any sequence of awaited calls to
    [connectToMongoDB] and [connectToDatabase] at most one [MongoClient]
    has been constructed. Once a call of the sequence has returned a
    handle, every later call returns that same handle and leaves the
    process as it is: no further client is constructed. The first call,
    when it returns a handle, has constructed the one client and opened
    the handle on it; it does return one when the address is well formed
    and the server can be reached. When the address is well formed and
    the server cannot be reached, the first call constructs the one
    client and throws, and every later call throws the same error: the
    rejected promise stays in the cache and no handle is ever created. *)
Theorem connection_cache_idempotent (E : Env) (cs : list (connector * option string))
    (ms es bs : list doc) :
  (length (w_clients (snd (in_sequence E cs (boot ms es bs)))) <= 1)%nat
  /\ (forall pre f uri rest h w1,
        cs = pre ++ (f, uri) :: rest ->
        connect_by E f uri (snd (in_sequence E pre (boot ms es bs))) = (Return h, w1) ->
        in_sequence E rest w1 = (map (fun _ => Return h) rest, w1))
  /\ (forall f uri rest h w1,
        cs = (f, uri) :: rest ->
        connect_by E f uri (boot ms es bs) = (Return h, w1) ->
        h = open_db E 0 /\ length (w_clients w1) = 1%nat)
  /\ (forall f uri rest,
        cs = (f, uri) :: rest ->
        uri_valid E uri = true -> reachable E uri = true ->
        fst (connect_by E f uri (boot ms es bs)) = Return (open_db E 0))
  /\ (forall f uri rest,
        cs = (f, uri) :: rest ->
        uri_valid E uri = true -> reachable E uri = false ->
        fst (in_sequence E cs (boot ms es bs))
        = map (fun _ => Throw (DriverError "MongoServerSelectionError")) cs
        /\ length (w_clients (snd (in_sequence E cs (boot ms es bs)))) = 1%nat).
Proof.
  split; [|split; [|split; [|split]]].
  - apply cache_inv_clients, in_sequence_inv. left. auto.
  - intros pre f uri rest h w1 _ H1.
    apply in_sequence_hit. exact (connect_by_caches E f uri _ h w1 H1).
  - intros f uri rest h w1 _ H1. exact (connect_by_first E f uri ms es bs h w1 H1).
  - intros f uri rest _. apply connect_by_first_ok.
  - intros f uri rest -> Hv Hr.
    destruct (connect_by_first_unreachable E f uri ms es bs Hv Hr)
      as (w1 & Hcall & Hc & Hp & Hlen).
    cbn [in_sequence map]. rewrite Hcall.
    rewrite (in_sequence_rejected E rest w1 _ Hc Hp). cbn [fst snd]. auto.
Qed.

(** ** Lists of documents *)

Lemma find_split {A} (p : A -> bool) (l : list A) (m : A) :
  List.find p l = Some m ->
  exists pre post, l = pre ++ m :: post /\ p m = true
                   /\ Forall (fun d => p d = false) pre.
Proof.
  induction l as [|d l IH]; simpl; [discriminate|].
  destruct (p d) eqn:Hd.
  - intros [= <-]. exists [], l. auto.
  - intros H. destruct (IH H) as (pre & post & -> & Hm & Hpre).
    exists (d :: pre), post. auto.
Qed.

Lemma find_absent {A} (p : A -> bool) (l : list A) :
  (forall d, In d l -> p d = false) -> List.find p l = None.
Proof.
  induction l as [|d l IH]; simpl; intros H; [reflexivity|].
  rewrite (H d (or_introl eq_refl)). apply IH. intros; apply H; now right.
Qed.

Lemma find_present {A} (p : A -> bool) (l : list A) (d : A) :
  In d l -> p d = true -> exists m, List.find p l = Some m.
Proof.
  induction l as [|x l IH]; simpl; [tauto|].
  intros [->|Hin] Hd.
  - rewrite Hd. eauto.
  - destruct (p x); eauto.
Qed.

Lemma remove_first_app p (pre post : list doc) (m : doc) :
  Forall (fun d => p d = false) pre -> p m = true ->
  remove_first p (pre ++ m :: post) = pre ++ post.
Proof.
  induction pre as [|d pre IH]; simpl; intros Hpre Hm.
  - now rewrite Hm.
  - apply Forall_cons_1 in Hpre as [-> Hpre]. now rewrite IH.
Qed.

Lemma update_first_app p fields (pre post : list doc) (m : doc) :
  Forall (fun d => p d = false) pre -> p m = true ->
  update_first p fields (pre ++ m :: post) = pre ++ (fields ∪ m) :: post.
Proof.
  induction pre as [|d pre IH]; simpl; intros Hpre Hm.
  - now rewrite Hm.
  - apply Forall_cons_1 in Hpre as [-> Hpre]. now rewrite IH.
Qed.

Lemma sat_FEq k v d : sat (FEq k v) d = true <-> field d k = v.
Proof. simpl. apply bool_decide_eq_true. Qed.

Lemma sat_FEq_false k v d : sat (FEq k v) d = false <-> field d k <> v.
Proof. simpl. apply bool_decide_eq_false. Qed.

(** ** The service on a reachable database *)

Section ServiceFacts.
Context (E : Env) (this : Service).
Hypothesis mongodb : dbType this = "mongodb"%string.

Lemma by_dbType_mongodb (m : M World payload) :
  DatabaseService.by_dbType this m = m.
Proof. unfold DatabaseService.by_dbType. now rewrite mongodb. Qed.

Lemma online_connect w :
  online E w = true ->
  exists c, connectToMongoDB E (MONGODB_URI E) w = (Return c, connected E w).
Proof.
  unfold online, connected.
  destruct (connectToMongoDB E (MONGODB_URI E) w) as [[c|e] w']; simpl;
    [eauto|discriminate].
Qed.

Lemma connected_members w : members (connected E w) = members w.
Proof.
  pose proof (cached_connect_frame E
    [("serverSelectionTimeoutMS", 5000); ("maxPoolSize", 10); ("minPoolSize", 2)]%string
    (MONGODB_URI E) w) as (H & _).
  unfold store in H. now injection H.
Qed.

Lemma connected_events w : events (connected E w) = events w.
Proof.
  pose proof (cached_connect_frame E
    [("serverSelectionTimeoutMS", 5000); ("maxPoolSize", 10); ("minPoolSize", 2)]%string
    (MONGODB_URI E) w) as (H & _).
  unfold store in H. now injection H.
Qed.

Lemma connected_blogs w : blogs (connected E w) = blogs w.
Proof.
  pose proof (cached_connect_frame E
    [("serverSelectionTimeoutMS", 5000); ("maxPoolSize", 10); ("minPoolSize", 2)]%string
    (MONGODB_URI E) w) as (H & _).
  unfold store in H. now injection H.
Qed.

Lemma connected_ticks w : w_ticks (connected E w) = w_ticks w.
Proof.
  exact (proj1 (proj2 (cached_connect_frame E _ (MONGODB_URI E) w))).
Qed.

Lemma connected_store w : store (connected E w) = store w.
Proof.
  unfold store. now rewrite connected_members, connected_events, connected_blogs.
Qed.

(** *** [deleteMember] *)

Lemma deleteMember_malformed memberId w :
  online E w = true -> ObjectId_parse E memberId = None ->
  let (r, w') := DatabaseService.deleteMember E this memberId w in
  r = Throw (DriverError "BSONError") /\ store w' = store w.
Proof.
  intros Hon Hid. destruct (online_connect w Hon) as [c Hc].
  unfold DatabaseService.deleteMember. rewrite by_dbType_mongodb.
  unfold new_ObjectId. monad_unfold. rewrite Hc, Hid.
  split; [reflexivity|apply connected_store].
Qed.

Lemma deleteMember_absent memberId o w :
  online E w = true -> ObjectId_parse E memberId = Some o ->
  (forall m, In m (members w) -> field m "_id" <> VObjectId o) ->
  let (r, w') := DatabaseService.deleteMember E this memberId w in
  r = Throw (Error "Member not found") /\ store w' = store w.
Proof.
  intros Hon Hid Habs. destruct (online_connect w Hon) as [c Hc].
  unfold DatabaseService.deleteMember. rewrite by_dbType_mongodb.
  unfold new_ObjectId, deleteOne. monad_unfold. rewrite Hc, Hid.
  cbn [collection]. rewrite connected_members, find_absent.
  - split; [reflexivity|apply connected_store].
  - intros m Hm. apply sat_FEq_false. auto.
Qed.

Lemma deleteMember_present memberId o w m :
  online E w = true -> ObjectId_parse E memberId = Some o ->
  In m (members w) -> field m "_id" = VObjectId o ->
  let (r, w') := DatabaseService.deleteMember E this memberId w in
  r = Return (PDoc {[ "message"%string := VStr "Member deleted successfully" ]})
  /\ (exists pre m0 post,
        members w = pre ++ m0 :: post /\ field m0 "_id" = VObjectId o
        /\ (forall d, In d pre -> field d "_id" <> VObjectId o)
        /\ members w' = pre ++ post)
  /\ blogs w' = List.filter
                  (fun b => negb (bool_decide (field b "authorId" = memberId)))
                  (blogs w)
  /\ events w' = events w.
Proof.
  intros Hon Hid Hin Hm. destruct (online_connect w Hon) as [c Hc].
  destruct (find_present (sat (FEq "_id" (VObjectId o))) (members w) m Hin)
    as [m0 Hfind]; [now apply sat_FEq|].
  destruct (find_split _ _ _ Hfind) as (pre & post & Hsplit & Hm0 & Hpre).
  unfold DatabaseService.deleteMember. rewrite by_dbType_mongodb.
  unfold new_ObjectId, deleteOne, deleteMany. monad_unfold. rewrite Hc, Hid.
  cbn [collection]. rewrite connected_members, Hfind. simpl.
  rewrite connected_blogs, connected_events.
  split; [reflexivity|]. split; [|split; reflexivity].
  exists pre, m0, post. split; [exact Hsplit|]. split; [now apply sat_FEq|].
  split.
  - intros d Hd. apply sat_FEq_false.
    rewrite Forall_forall in Hpre. apply Hpre. now apply list_elem_of_In.
  - rewrite Hsplit. now apply remove_first_app.
Qed.

End ServiceFacts.

(** ** Reasoning about computations *)

Section Wp.
Context {S : Type}.

Lemma wp_ret {A} (a : A) (Q : outcome A -> S -> Prop) s :
  Q (Return a) s -> wp (mret a) Q s.
Proof. exact id. Qed.

Lemma wp_throw {A} e (Q : outcome A -> S -> Prop) s :
  Q (Throw e) s -> wp (throw e) Q s.
Proof. exact id. Qed.

Lemma wp_bind {A B} (m : M S A) (f : A -> M S B) (Q : outcome B -> S -> Prop) s :
  wp m (fun r s' => match r with
                    | Return a => wp (f a) Q s'
                    | Throw e => Q (Throw e) s'
                    end) s ->
  wp (m ≫= f) Q s.
Proof.
  unfold wp, mbind, M_bind. destruct (m s) as [[a|e] s']; auto.
Qed.

Lemma wp_get (Q : outcome S -> S -> Prop) s : Q (Return s) s -> wp get Q s.
Proof. exact id. Qed.

Lemma wp_modify (f : S -> S) (Q : outcome unit -> S -> Prop) s :
  Q (Return tt) (f s) -> wp (modify f) Q s.
Proof. exact id. Qed.

Lemma wp_try_catch {A} (m : M S A) (h : exn -> M S A) (Q : outcome A -> S -> Prop) s :
  wp m (fun r s' => match r with
                    | Return a => Q (Return a) s'
                    | Throw e => wp (h e) Q s'
                    end) s ->
  wp (try_catch m h) Q s.
Proof.
  unfold wp, try_catch. destruct (m s) as [[a|e] s']; auto.
Qed.

End Wp.

Section PrimitiveSpecs.
Context (E : Env).

Lemma wp_destructure {S} (d : data) (Q : outcome doc -> S -> Prop) s :
  (forall e, Q (Throw e) s) -> Q (Return (properties d)) s ->
  wp (destructure d) Q s.
Proof.
  intros Ht Hr. destruct d as [d|[]]; simpl; unfold wp; simpl; auto.
Qed.

Lemma wp_connectToMongoDB uri (Q : outcome Conn -> World -> Prop) w :
  (forall r w', store w' = store w -> w_ticks w' = w_ticks w ->
                w_oids w' = w_oids w -> Q r w') ->
  wp (connectToMongoDB E uri) Q w.
Proof.
  intros H. unfold wp, connectToMongoDB.
  pose proof (cached_connect_frame E
    [("serverSelectionTimeoutMS", 5000); ("maxPoolSize", 10); ("minPoolSize", 2)]%string
    uri w) as (H1 & H2 & H3 & _).
  destruct (cached_connect E _ uri w) as [r w']. simpl in *. auto.
Qed.

Lemma wp_call_trim {S} x v (Q : outcome value -> S -> Prop) s :
  (forall e, Q (Throw e) s) ->
  (forall str, v = VStr str -> Q (Return (VStr (JsString.trim str))) s) ->
  wp (call_trim E x v) Q s.
Proof. intros Ht Hr. destruct v; unfold wp; simpl; auto. Qed.

Lemma wp_opt_trim {S} x v (Q : outcome value -> S -> Prop) s :
  (forall e, Q (Throw e) s) ->
  (nullish v = true -> Q (Return VUndefined) s) ->
  (forall str, v = VStr str -> Q (Return (VStr (JsString.trim str))) s) ->
  wp (opt_trim E x v) Q s.
Proof. intros Ht Hn Hr. destruct v; unfold wp; simpl; auto. Qed.

Lemma wp_call_toLowerCase_trim {S} x v (Q : outcome value -> S -> Prop) s :
  (forall e, Q (Throw e) s) ->
  (forall str, v = VStr str ->
     Q (Return (VStr (JsString.trim (JsString.toLowerCase str)))) s) ->
  wp (call_toLowerCase_trim E x v) Q s.
Proof. intros Ht Hr. destruct v; unfold wp; simpl; auto. Qed.

Lemma wp_new_ObjectId {S} v (Q : outcome value -> S -> Prop) s :
  (ObjectId_parse E v = None -> Q (Throw (DriverError "BSONError")) s) ->
  (forall o, ObjectId_parse E v = Some o -> Q (Return (VObjectId o)) s) ->
  wp (new_ObjectId E v) Q s.
Proof.
  intros Ht Hr. unfold wp, new_ObjectId.
  destruct (ObjectId_parse E v); simpl; auto.
Qed.

Lemma wp_new_Date (Q : outcome value -> World -> Prop) w :
  Q (Return (VDate (Some (clock E (w_ticks w))))) (tick w) ->
  wp (new_Date E) Q w.
Proof. exact id. Qed.

Lemma wp_Date_now (Q : outcome Z -> World -> Prop) w :
  Q (Return (clock E (w_ticks w))) (tick w) -> wp (Date_now E) Q w.
Proof. exact id. Qed.

Lemma wp_findOne c f (Q : outcome (option doc) -> World -> Prop) w :
  Q (Return (List.find (sat f) (collection c w))) w -> wp (findOne c f) Q w.
Proof. exact id. Qed.

Lemma wp_findOneAndUpdate c f fields (Q : outcome (option doc) -> World -> Prop) w :
  (List.find (sat f) (collection c w) = None -> Q (Return None) w) ->
  (forall d, List.find (sat f) (collection c w) = Some d ->
     Q (Return (Some (fields ∪ d)))
       (set_collection c (update_first (sat f) fields (collection c w)) w)) ->
  wp (findOneAndUpdate c f fields) Q w.
Proof.
  intros Hn Hs. unfold wp, findOneAndUpdate. monad_unfold.
  destruct (List.find (sat f) (collection c w)); simpl; auto.
Qed.

Lemma wp_insertOne c d (Q : outcome value -> World -> Prop) w :
  (forall e, Q (Throw e) w) ->
  (forall o, nullish (field d "_id") = true -> o = fresh_oid c w ->
     Q (Return (VObjectId o))
       (set_collection c (collection c w ++ [<["_id" := VObjectId o]> d])
          (set_oids (N.succ o) w))) ->
  (nullish (field d "_id") = false ->
     Q (Return (field d "_id")) (set_collection c (collection c w ++ [d]) w)) ->
  wp (insertOne c (Obj d)) Q w.
Proof.
  intros Ht Hf Hg. unfold wp, insertOne. monad_unfold.
  destruct (nullish (field d "_id")) eqn:Hn.
  - destruct c; simpl; apply (Hf _ eq_refl eq_refl).
  - destruct (existsb _ _); simpl; auto.
Qed.

End PrimitiveSpecs.

(** Reads a statement about the result and the final state of a
    computation as a [wp]. *)
Ltac wp_goal :=
  lazymatch goal with
  | |- match ?m ?s with pair r s' => @?Q r s' end => change (wp m Q s)
  end.

(** Applies a specification to the first step of a computation. *)
Ltac wp_step lem :=
  apply wp_bind; apply lem; cbn beta iota.

Section Stateless.
Context {S : Type}.

Lemma stateless_ret {A} (a : A) : stateless (mret a : M S A).
Proof. intros s. reflexivity. Qed.

Lemma stateless_throw {A} e : stateless (throw e : M S A).
Proof. intros s. reflexivity. Qed.

Lemma stateless_bind {A B} (m : M S A) (f : A -> M S B) :
  stateless m -> (forall a, stateless (f a)) -> stateless (m ≫= f).
Proof.
  intros Hm Hf s. unfold mbind, M_bind. specialize (Hm s).
  destruct (m s) as [[a|e] s']; simpl in *; subst; [apply Hf|reflexivity].
Qed.

Lemma wp_stateless_bind {A B} (m : M S A) (f : A -> M S B) Q s :
  stateless m ->
  (forall r, match r with
             | Return a => wp (f a) Q s
             | Throw e => Q (Throw e) s
             end) ->
  wp (m ≫= f) Q s.
Proof.
  intros Hm H. apply wp_bind. unfold wp at 1. specialize (Hm s).
  destruct (m s) as [r s']. simpl in Hm. subst. apply H.
Qed.

End Stateless.

(** ** [updateMember] *)

Section UpdateMember.
Context (E : Env) (this : Service).

Lemma stateless_call_toLowerCase_trim {S} x v :
  stateless (call_toLowerCase_trim E x v : M S value).
Proof. destruct v; intros st; reflexivity. Qed.

Lemma stateless_new_ObjectId {S} v : stateless (new_ObjectId E v : M S value).
Proof. intros s. unfold new_ObjectId. destruct (ObjectId_parse E v); reflexivity. Qed.

Lemma stateless_findOne c f : stateless (findOne c f).
Proof. intros s. reflexivity. Qed.

Lemma wp_trim_if {S} c x v (Q : outcome value -> S -> Prop) s :
  (forall e, Q (Throw e) s) ->
  (forall v', (truthy c = true -> exists str, v = VStr str /\ v' = VStr (JsString.trim str)) ->
              Q (Return v') s) ->
  wp (if truthy c then call_trim E x v else mret VUndefined) Q s.
Proof.
  intros Ht Hr. destruct (truthy c).
  - apply wp_call_trim; [exact Ht|]. intros str ->. apply Hr. eauto.
  - apply wp_ret, Hr. discriminate.
Qed.

Lemma wp_toLowerCase_trim_if {S} c x v (Q : outcome value -> S -> Prop) s :
  (forall e, Q (Throw e) s) ->
  (forall v', (truthy c = true ->
               exists str, v = VStr str
                           /\ v' = VStr (JsString.trim (JsString.toLowerCase str))) ->
              Q (Return v') s) ->
  wp (if truthy c then call_toLowerCase_trim E x v else mret VUndefined) Q s.
Proof.
  intros Ht Hr. destruct (truthy c).
  - apply wp_call_toLowerCase_trim; [exact Ht|]. intros str ->. apply Hr. eauto.
  - apply wp_ret, Hr. discriminate.
Qed.

Lemma lookup_prop_ne k k' v (d : doc) : k <> k' -> prop k v d !! k' = d !! k'.
Proof. intros H. destruct v; simpl; auto; now rewrite lookup_insert_ne. Qed.

Lemma lookup_spread_if_ne c k k' v (d : doc) :
  k <> k' -> spread_if c k v d !! k' = d !! k'.
Proof. intros H. unfold spread_if. destruct (truthy c); auto using lookup_prop_ne. Qed.

Lemma lookup_spread_if c k v (d : doc) :
  spread_if c k v d !! k =
  if truthy c then match v with VUndefined => d !! k | _ => Some v end else d !! k.
Proof.
  unfold spread_if. destruct (truthy c); [|reflexivity].
  destruct v; simpl; auto; now rewrite lookup_insert_eq.
Qed.

Lemma supplied_true among upd k :
  k ∈ among -> truthy (field upd k) = true -> supplied among upd k = true.
Proof.
  intros Hk Ht. unfold supplied. now rewrite bool_decide_eq_true_2, Ht.
Qed.

Lemma supplied_falsy among upd k :
  truthy (field upd k) = false -> supplied among upd k = false.
Proof. intros Ht. unfold supplied. now rewrite Ht, andb_false_r. Qed.

Lemma supplied_outside among upd k : k ∉ among -> supplied among upd k = false.
Proof. intros Hk. unfold supplied. now rewrite bool_decide_eq_false_2. Qed.

(** The fields [updateMember] hands to [$set]. *)
Lemma updateFields_lookup (upd : doc) name' email' department' interests' t k :
  (truthy (field upd "name") = true ->
   exists str, field upd "name" = VStr str /\ name' = VStr (JsString.trim str)) ->
  (truthy (field upd "email") = true ->
   exists str, field upd "email" = VStr str
               /\ email' = VStr (JsString.trim (JsString.toLowerCase str))) ->
  (truthy (field upd "department") = true ->
   exists str, field upd "department" = VStr str
               /\ department' = VStr (JsString.trim str)) ->
  (truthy (field upd "interests") = true ->
   exists str, field upd "interests" = VStr str
               /\ interests' = VStr (JsString.trim str)) ->
  k <> "updatedAt"%string ->
  (<["updatedAt" := t]> (
     spread_if (field upd "interests") "interests" interests' (
     spread_if (field upd "year") "year" (field upd "year") (
     spread_if (field upd "department") "department" department' (
     spread_if (field upd "email") "email" email' (
     spread_if (field upd "name") "name" name' ∅))))) : doc) !! k
  = if supplied member_fields upd k
    then Some (normalised k (field upd k)) else None.
Proof.
  intros Hname Hemail Hdep Hint Hk.
  rewrite lookup_insert_ne by congruence.
  assert (forall key, key ∈ member_fields ->
            forall v' (d : doc),
              (truthy (field upd key) = true ->
               v' = normalised key (field upd key) /\ v' <> VUndefined) ->
              spread_if (field upd key) key v' d !! k
              = if decide (k = key)
                then if supplied member_fields upd k
                     then Some (normalised k (field upd k)) else d !! k
                else d !! k) as Hstep.
  { intros key Hin v' d Hv. destruct (decide (k = key)) as [->|Hne].
    - rewrite lookup_spread_if. destruct (truthy (field upd key)) eqn:Ht.
      + rewrite (supplied_true _ _ _ Hin Ht). destruct (Hv eq_refl) as [-> Hu].
        destruct (normalised key (field upd key)); congruence.
      + now rewrite (supplied_falsy _ _ _ Ht).
    - now rewrite lookup_spread_if_ne by congruence. }
  assert (forall v, truthy v = true -> v <> VUndefined) as Hdef
      by (intros [] ?; discriminate).
  rewrite (Hstep "interests"%string), (Hstep "year"%string),
    (Hstep "department"%string), (Hstep "email"%string), (Hstep "name"%string);
    try (apply list_elem_of_In; simpl; tauto).
  - rewrite lookup_empty. destruct (supplied member_fields upd k) eqn:Hs.
    + repeat (case_decide; [reflexivity|]). exfalso.
      rewrite supplied_outside in Hs; [discriminate|].
      rewrite list_elem_of_In. simpl. intuition congruence.
    + repeat case_decide; reflexivity.
  - intros Ht. destruct (Hname Ht) as (str & Hs & ->). rewrite Hs. split; [reflexivity|discriminate].
  - intros Ht. destruct (Hemail Ht) as (str & Hs & ->). rewrite Hs. split; [reflexivity|discriminate].
  - intros Ht. destruct (Hdep Ht) as (str & Hs & ->). rewrite Hs. split; [reflexivity|discriminate].
  - intros Ht. split; [|now apply Hdef]. destruct (field upd "year"); reflexivity.
  - intros Ht. destruct (Hint Ht) as (str & Hs & ->). rewrite Hs. split; [reflexivity|discriminate].
Qed.

(** C8. [updateMember] changes nothing but the member it names, and of
    that member only [updatedAt] and those of [name], [email],
    [department], [year] and [interests] whose value in [updateData] is
    truthy: whatever the call does, the events and the blogs are as before,
    and either the members are as before too, or the first member with the
    identifier is replaced by a document that agrees with it on every
    field other than [updatedAt] that the update does not supply. A
    supplied field holds the supplied value (trimmed, and lowercased for
    [email]); [updatedAt] holds the reading of the clock. *)
Theorem updateMember_changes_only_supplied
    (memberId : value) (updateData : data) (w : World) :
  let upd := properties updateData in
  let (r, w') := DatabaseService.updateMember E this memberId updateData w in
  events w' = events w /\ blogs w' = blogs w
  /\ (members w' = members w
      \/ exists o pre m post m',
           ObjectId_parse E memberId = Some o
           /\ members w = pre ++ m :: post
           /\ field m "_id" = VObjectId o
           /\ (forall d, In d pre -> field d "_id" <> VObjectId o)
           /\ members w' = pre ++ m' :: post
           /\ r = Return (PDoc m')
           /\ (forall k, k <> "updatedAt"%string ->
                         supplied member_fields upd k = false ->
                         m' !! k = m !! k)
           /\ (forall k, supplied member_fields upd k = true ->
                         m' !! k = Some (normalised k (field upd k)))
           /\ m' !! "updatedAt"%string = Some (VDate (Some (clock E (w_ticks w))))).
Proof.
  intros upd. wp_goal.
  set (Q := fun (r : outcome payload) (w' : World) => _).
  assert (Hfail : forall r w2, store w2 = store w -> Q r w2).
  { intros r w2 Hst. unfold store in Hst. injection Hst as H1 H2 H3. unfold Q. auto. }
  unfold DatabaseService.updateMember.
  wp_step @wp_destructure; [intros e; now apply Hfail|]. fold upd.
  unfold DatabaseService.by_dbType.
  destruct (String.eqb (dbType this) "mongodb");
    [|destruct (String.eqb (dbType this) "mysql"); now apply Hfail].
  wp_step wp_connectToMongoDB. intros [c|e] w1 Hst Htk _; [|now apply Hfail].
  apply wp_stateless_bind.
  { destruct (truthy (field upd "email")); [|apply stateless_ret].
    apply stateless_bind; [apply stateless_call_toLowerCase_trim|intros ?].
    apply stateless_bind; [apply stateless_new_ObjectId|intros ?].
    apply stateless_bind; [apply stateless_findOne|intros [?|]];
      [apply stateless_throw|apply stateless_ret]. }
  intros [[]|e]; [|now apply Hfail].
  wp_step @wp_trim_if; [intros e; now apply Hfail|]. intros name' Hname.
  wp_step @wp_toLowerCase_trim_if; [intros e; now apply Hfail|]. intros email' Hemail.
  wp_step @wp_trim_if; [intros e; now apply Hfail|]. intros department' Hdep.
  wp_step @wp_trim_if; [intros e; now apply Hfail|]. intros interests' Hint.
  wp_step wp_new_Date.
  wp_step @wp_new_ObjectId; [intros _; now apply Hfail|]. intros o Ho.
  wp_step wp_findOneAndUpdate; [intros _; now apply Hfail|]. intros m Hfind.
  apply wp_ret. unfold Q. cbn [collection tick members set_collection events blogs] in *.
  unfold store in Hst. injection Hst as Hm He Hb.
  split; [exact He|]. split; [exact Hb|]. right.
  destruct (find_split _ _ _ Hfind) as (pre & post & Hsplit & Hm0 & Hpre).
  exists o, pre, m, post. eexists.
  split; [exact Ho|]. split; [now rewrite <- Hm|].
  split; [now apply sat_FEq|]. split.
  { intros d Hd. apply sat_FEq_false. rewrite Forall_forall in Hpre.
    apply Hpre. now apply list_elem_of_In. }
  split; [rewrite Hsplit; now apply update_first_app|].
  split; [reflexivity|]. split; [|split].
  - intros k Hk Hsup. rewrite lookup_union_r; [reflexivity|].
    rewrite (updateFields_lookup upd) by assumption. now rewrite Hsup.
  - intros k Hsup. apply lookup_union_Some_l.
    assert (k <> "updatedAt"%string) as Hk.
    { intros ->. rewrite supplied_outside in Hsup; [discriminate|].
      rewrite list_elem_of_In. simpl. intuition discriminate. }
    rewrite (updateFields_lookup upd) by assumption. now rewrite Hsup.
  - apply lookup_union_Some_l. now rewrite lookup_insert_eq, Htk.
Qed.
End UpdateMember.

(** Reads the collections of a state off the steps that led to it. *)
Ltac store_simpl E :=
  cbn [collection tick set_oids set_collection members events blogs w_ticks];
  rewrite ?(connected_events E), ?(connected_members E), ?(connected_blogs E),
    ?(connected_ticks E).

(** ** [updateEvent] *)

Section UpdateEvent.
Context (E : Env) (this : Service).
Hypothesis mongodb : dbType this = "mongodb"%string.

Lemma wp_destructure_ok {S} (d : data) (Q : outcome doc -> S -> Prop) s :
  destructurable d -> Q (Return (properties d)) s -> wp (destructure d) Q s.
Proof.
  intros [H1 H2] Hr. destruct d as [d|[]]; simpl; unfold wp; simpl; auto;
    congruence.
Qed.

Lemma wp_online uri (Q : outcome Conn -> World -> Prop) w :
  uri = MONGODB_URI E -> online E w = true ->
  (forall c, Q (Return c) (connected E w)) ->
  wp (connectToMongoDB E uri) Q w.
Proof.
  intros -> Hon H. destruct (online_connect E w Hon) as [c Hc].
  unfold wp. rewrite Hc. apply H.
Qed.



End UpdateEvent.



(** Two awaited calls, one from each module: one client, one handle. *)
Lemma connection_cache_idempotent_witness :
  fst (in_sequence Sample.env
         [(ToMongoDB, MONGODB_URI Sample.env); (ToDatabase, MONGODB_URI Sample.env)]
         (boot [] [] []))
  = [Return (open_db Sample.env 0); Return (open_db Sample.env 0)].
Proof.
  pose proof (connection_cache_idempotent Sample.env
                [(ToMongoDB, MONGODB_URI Sample.env); (ToDatabase, MONGODB_URI Sample.env)]
                [] [] []) as (_ & Hrest & _ & Hfirst & _).
  specialize (Hfirst ToMongoDB (MONGODB_URI Sample.env)
                [(ToDatabase, MONGODB_URI Sample.env)] eq_refl eq_refl eq_refl).
  specialize (Hrest [] ToMongoDB (MONGODB_URI Sample.env)
                [(ToDatabase, MONGODB_URI Sample.env)]).
  cbn [in_sequence snd] in Hrest |- *.
  destruct (connect_by Sample.env ToMongoDB (MONGODB_URI Sample.env) (boot [] [] []))
    as [r w1] eqn:Hcall.
  cbn [fst] in Hfirst. subst r.
  specialize (Hrest (open_db Sample.env 0) w1 eq_refl eq_refl).
  cbn [in_sequence] in Hrest.
  destruct (connect_by Sample.env ToDatabase (MONGODB_URI Sample.env) w1) as [r2 w2].
  injection Hrest as -> _. reflexivity.
Defined.

(** C7, as stated, fails: the server does not answer, the first call
    creates no handle, and no later call returns one; the one client that
    was constructed is never replaced. *)
Lemma connection_cache_counterexample :
  uri_valid Sample.offline (MONGODB_URI Sample.offline) = true
  /\ fst (in_sequence Sample.offline
            [(ToMongoDB, MONGODB_URI Sample.offline);
             (ToDatabase, MONGODB_URI Sample.offline);
             (ToMongoDB, MONGODB_URI Sample.offline)]
            (boot [] [] []))
     = [Throw (DriverError "MongoServerSelectionError");
        Throw (DriverError "MongoServerSelectionError");
        Throw (DriverError "MongoServerSelectionError")]
  /\ length (w_clients (snd (in_sequence Sample.offline
                               [(ToMongoDB, MONGODB_URI Sample.offline);
                                (ToDatabase, MONGODB_URI Sample.offline);
                                (ToMongoDB, MONGODB_URI Sample.offline)]
                               (boot [] [] []))))
     = 1%nat.
Proof. repeat split; vm_compute; reflexivity. Qed.

(** A new name for Ada: the name changes, the address stays. *)
Lemma updateMember_changes_only_supplied_witness :
  exists m',
    fst (DatabaseService.updateMember Sample.env Sample.this Sample.id1
           (Obj (<["name" := VStr " Grace "]> ∅)) (boot [Sample.ada] [] []))
    = Return (PDoc m')
    /\ m' !! "email"%string = Some (VStr "ada@club.org")
    /\ m' !! "name"%string = Some (VStr "Grace").
Proof.
  pose proof (updateMember_changes_only_supplied Sample.env Sample.this Sample.id1
                (Obj (<["name" := VStr " Grace "]> ∅)) (boot [Sample.ada] [] [])) as H.
  cbv zeta in H.
  assert (members (snd (DatabaseService.updateMember Sample.env Sample.this Sample.id1
                          (Obj (<["name" := VStr " Grace "]> ∅))
                          (boot [Sample.ada] [] [])))
          <> members (boot [Sample.ada] [] [])) as Hne.
  { intros Heq. apply (f_equal (fun l => field (nth 0 l ∅) "name")) in Heq.
    vm_compute in Heq. discriminate. }
  destruct (DatabaseService.updateMember Sample.env Sample.this Sample.id1 _ _)
    as [r w'].
  cbn [fst snd] in *.
  destruct H as (_ & _ & [Hsame|H]); [contradiction|].
  destruct H as (o & pre & m & post & m' & _ & Hsplit & _ & _ & _ & Hr & Hkeep & Hset & _).
  assert (m = Sample.ada) as ->.
  { cbn [boot members] in Hsplit. destruct pre as [|d pre].
    - now injection Hsplit.
    - injection Hsplit as _ Hnil. now destruct pre. }
  exists m'. split; [exact Hr|]. split.
  - rewrite Hkeep; [vm_compute; reflexivity|discriminate|vm_compute; reflexivity].
  - rewrite Hset; vm_compute; reflexivity.
Defined.

(** ** [deleteMember] *)

(** C2 (amended). With the MongoDB backend and a reachable database:
    for a well-formed [memberId], when a member with that identifier
    exists [deleteMember] deletes the first such member and no other,
    deletes every blog whose [authorId] equals [memberId] and no other
    blog, and returns the success message; when none exists it throws
    'Member not found' and leaves the three collections as they are. A
    malformed [memberId] makes the [ObjectId] constructor throw, and the
    three collections are left as they are. *)
Theorem deleteMember_cascade (E : Env) (this : Service) (memberId : value) (w : World) :
  dbType this = "mongodb"%string -> online E w = true ->
  let (r, w') := DatabaseService.deleteMember E this memberId w in
  (ObjectId_parse E memberId = None ->
   r = Throw (DriverError "BSONError") /\ store w' = store w)
  /\ (forall o, ObjectId_parse E memberId = Some o ->
        (forall m, In m (members w) -> field m "_id" <> VObjectId o) ->
        r = Throw (Error "Member not found") /\ store w' = store w)
  /\ (forall o m, ObjectId_parse E memberId = Some o ->
        In m (members w) -> field m "_id" = VObjectId o ->
        r = Return (PDoc {[ "message"%string := VStr "Member deleted successfully" ]})
        /\ (exists pre m0 post,
              members w = pre ++ m0 :: post /\ field m0 "_id" = VObjectId o
              /\ (forall d, In d pre -> field d "_id" <> VObjectId o)
              /\ members w' = pre ++ post)
        /\ blogs w' = List.filter
                        (fun b => negb (bool_decide (field b "authorId" = memberId)))
                        (blogs w)
        /\ events w' = events w).
Proof.
  intros Hdb Hon.
  pose proof (deleteMember_malformed E this Hdb memberId w Hon) as H1.
  pose proof (fun o => deleteMember_absent E this Hdb memberId o w Hon) as H2.
  pose proof (fun o m => deleteMember_present E this Hdb memberId o w m Hon) as H3.
  destruct (DatabaseService.deleteMember E this memberId w) as [r w'].
  split; [exact H1|]. split; [exact H2|exact H3].
Qed.

(** Deleting Ada deletes her blog and leaves Bob's. *)
Lemma deleteMember_cascade_witness :
  let res := DatabaseService.deleteMember Sample.env Sample.this Sample.id1
               (boot [Sample.ada; Sample.bob] [] [Sample.essay; Sample.notes]) in
  fst res = Return (PDoc {[ "message"%string := VStr "Member deleted successfully" ]})
  /\ map (fun b => field b "title") (blogs (snd res)) = [VStr "Minutes"].
Proof.
  cbv zeta.
  assert (dbType Sample.this = "mongodb"%string) as Hdb by (vm_compute; reflexivity).
  assert (online Sample.env
            (boot [Sample.ada; Sample.bob] [] [Sample.essay; Sample.notes]) = true)
    as Hon by (vm_compute; reflexivity).
  pose proof (deleteMember_cascade Sample.env Sample.this Sample.id1
                (boot [Sample.ada; Sample.bob] [] [Sample.essay; Sample.notes])
                Hdb Hon) as H.
  destruct (DatabaseService.deleteMember Sample.env Sample.this Sample.id1 _)
    as [r w'].
  destruct H as (_ & _ & H).
  assert (ObjectId_parse Sample.env Sample.id1 = Some 1%N) as Ho
      by (vm_compute; reflexivity).
  assert (field Sample.ada "_id" = VObjectId 1) as Hid by (vm_compute; reflexivity).
  destruct (H 1%N Sample.ada Ho (or_introl eq_refl) Hid) as (Hr & _ & Hb & _).
  split; [exact Hr|]. cbn [snd]. rewrite Hb. vm_compute. reflexivity.
Defined.

(** C2, as stated, fails: no member has the identifier, yet what is
    thrown is the constructor's error and not 'Member not found'. *)
Lemma deleteMember_counterexample :
  (forall m, In m (members (boot [Sample.ada] [] [])) -> field m "_id" <> VStr "nope")
  /\ fst (DatabaseService.deleteMember Sample.env Sample.this (VStr "nope")
            (boot [Sample.ada] [] []))
     = Throw (DriverError "BSONError")
  /\ fst (DatabaseService.deleteMember Sample.env Sample.this (VStr "nope")
            (boot [Sample.ada] [] []))
     <> Throw (Error "Member not found").
Proof.
  split; [|split].
  - intros m [<-|[]]. vm_compute. discriminate.
  - vm_compute. reflexivity.
  - vm_compute. discriminate.
Qed.

(** ** Creation *)

(** Closes a branch in which the call has thrown. *)
Ltac fails H := apply H; [assumption || reflexivity | discriminate | eauto].

Section Creation.
Context (E : Env) (this : Service).

Lemma wp_insertOne_fresh c d (Q : outcome value -> World -> Prop) w :
  nullish (field d "_id") = true ->
  Q (Return (VObjectId (fresh_oid c w)))
    (set_collection c (collection c w ++ [<["_id" := VObjectId (fresh_oid c w)]> d])
       (set_oids (N.succ (fresh_oid c w)) w)) ->
  wp (insertOne c (Obj d)) Q w.
Proof.
  intros Hn H. unfold wp, insertOne. monad_unfold. rewrite Hn.
  destruct c; exact H.
Qed.

Lemma wp_by_dbType (m : M World payload) (Q : outcome payload -> World -> Prop) w :
  (forall r, (forall d, r <> Return (PDoc d)) ->
             (dbType this = "mongodb"%string -> exists err, r = Throw err) -> Q r w) ->
  (dbType this = "mongodb"%string -> wp m Q w) ->
  wp (DatabaseService.by_dbType this m) Q w.
Proof.
  intros Hfail Hm. unfold DatabaseService.by_dbType.
  destruct (String.eqb_spec (dbType this) "mongodb"); [now apply Hm|].
  destruct (String.eqb (dbType this) "mysql"); apply Hfail;
    try discriminate; intros; contradiction.
Qed.

Lemma registerMember_creates memberData w :
  let upd := properties memberData in
  let (r, w') := DatabaseService.registerMember E this memberData w in
  events w' = events w /\ blogs w' = blogs w
  /\ ((members w' = members w /\ (forall d, r <> Return (PDoc d))
       /\ (dbType this = "mongodb"%string -> exists err, r = Throw err))
      \/ exists e d,
           field upd "email" = VStr e
           /\ Regex.matches emailRegex e = true
           /\ (forall m, In m (members w) -> field m "email" <> VStr e)
           /\ r = Return (PDoc d)
           /\ members w' = members w ++ [d]
           /\ d !! "email"%string = Some (VStr (JsString.trim (JsString.toLowerCase e)))
           /\ d !! "joinedAt"%string = Some (VDate (Some (clock E (w_ticks w))))
           /\ d !! "createdAt"%string = Some (VDate (Some (clock E (S (w_ticks w)))))
           /\ d !! "updatedAt"%string = Some (VDate (Some (clock E (S (S (w_ticks w))))))).
Proof.
  intros upd. wp_goal.
  set (Q := fun (r : outcome payload) (w' : World) => _).
  assert (Hfail : forall r w2, store w2 = store w ->
                               (forall d, r <> Return (PDoc d)) ->
                               (dbType this = "mongodb"%string -> exists err, r = Throw err) ->
                               Q r w2).
  { intros r w2 Hst Hr Herr. unfold store in Hst. injection Hst as H1 H2 H3.
    unfold Q. repeat (split; [assumption|]). left. auto. }
  unfold DatabaseService.registerMember.
  wp_step @wp_destructure; [intros e; fails Hfail|]. fold upd.
  destruct (negb (truthy (field upd "name")) || negb (truthy (field upd "email")));
    [fails Hfail|].
  destruct (emailRegex_test (field upd "email")) eqn:Hre; [|fails Hfail].
  cbn [negb]. apply wp_by_dbType; [intros r Hr Herr; now apply Hfail|]. intros _.
  wp_step wp_connectToMongoDB. intros [c|e] w1 Hst Htk _; [|fails Hfail].
  wp_step wp_findOne. destruct (List.find _ _) eqn:Hfind; [fails Hfail|].
  wp_step @wp_call_trim; [intros e; fails Hfail|]. intros name Hname.
  wp_step @wp_call_toLowerCase_trim; [intros e; fails Hfail|]. intros e He.
  wp_step @wp_opt_trim; [intros e0; fails Hfail| |];
    (intros; wp_step @wp_opt_trim; [intros e0; fails Hfail| |]);
    (intros; wp_step wp_new_Date; wp_step wp_new_Date; wp_step wp_new_Date;
     wp_step wp_insertOne_fresh;
     [unfold field; now rewrite !lookup_insert_ne, lookup_empty by discriminate|];
     apply wp_ret; unfold Q; store_simpl E;
     unfold store in Hst; injection Hst as Hm Hev Hb;
     (split; [exact Hev|]); (split; [exact Hb|]); right;
     exists e; eexists;
     (split; [exact He|]);
     (split; [now rewrite He in Hre|]);
     (split; [intros m Hin; apply sat_FEq_false; rewrite He in Hfind;
              cbn [collection] in Hfind; rewrite Hm in Hfind;
              now apply (find_none _ _ Hfind)|]);
     (split; [reflexivity|]);
     (split; [now rewrite Hm|]);
     rewrite Htk;
     repeat split;
     repeat (first [rewrite lookup_insert_eq; reflexivity
                   | rewrite lookup_insert_ne by discriminate])).
Qed.

Lemma addEvent_creates eventData w :
  let upd := properties eventData in
  let (r, w') := DatabaseService.addEvent E this eventData w in
  members w' = members w /\ blogs w' = blogs w
  /\ ((events w' = events w /\ (forall d, r <> Return (PDoc d))
       /\ (dbType this = "mongodb"%string -> exists err, r = Throw err))
      \/ exists ev,
           r = Return (PDoc ev)
           /\ events w' = events w ++ [ev]
           /\ truthy (field upd "title") = true
           /\ truthy (field upd "eventDate") = true
           /\ date_le (Date_of E (field upd "eventDate"))
                      (Some (clock E (w_ticks w))) = false
           /\ ev !! "eventDate"%string = Some (VDate (Date_of E (field upd "eventDate")))
           /\ ev !! "createdAt"%string = Some (VDate (Some (clock E (S (w_ticks w)))))
           /\ ev !! "updatedAt"%string = Some (VDate (Some (clock E (S (S (w_ticks w))))))).
Proof.
  intros upd. wp_goal.
  set (Q := fun (r : outcome payload) (w' : World) => _).
  assert (Hfail : forall r w2, store w2 = store w ->
                               (forall d, r <> Return (PDoc d)) ->
                               (dbType this = "mongodb"%string -> exists err, r = Throw err) ->
                               Q r w2).
  { intros r w2 Hst Hr Herr. unfold store in Hst. injection Hst as H1 H2 H3.
    unfold Q. repeat (split; [assumption|]). left. auto. }
  unfold DatabaseService.addEvent.
  wp_step @wp_destructure; [intros e; fails Hfail|]. fold upd.
  destruct (truthy (field upd "title")) eqn:Htitle; [|fails Hfail].
  destruct (truthy (field upd "eventDate")) eqn:Hdate; [|fails Hfail].
  cbn [negb orb]. wp_step wp_Date_now.
  destruct (date_le _ _) eqn:Hle; [fails Hfail|].
  apply wp_by_dbType; [intros r Hr Herr; now apply Hfail|]. intros _.
  wp_step wp_connectToMongoDB. intros [c|e] w1 Hst Htk _;
    [|apply Hfail; [rewrite Hst; reflexivity|discriminate|eauto]].
  wp_step @wp_call_trim; [intros e; apply Hfail; [rewrite Hst; reflexivity|discriminate|eauto]|].
  intros title Ht.
  wp_step @wp_opt_trim; [intros e0; apply Hfail; [rewrite Hst; reflexivity|discriminate|eauto]| |];
    (intros; wp_step @wp_opt_trim;
     [intros e0; apply Hfail; [rewrite Hst; reflexivity|discriminate|eauto]| |]);
    (intros; wp_step wp_new_Date; wp_step wp_new_Date;
     wp_step wp_insertOne_fresh;
     [unfold field; now rewrite !lookup_insert_ne, lookup_empty by discriminate|];
     apply wp_ret; unfold Q; store_simpl E;
     unfold store in Hst; cbn [tick members events blogs] in Hst;
     injection Hst as Hm Hev Hb; cbn [tick w_ticks] in Htk;
     (split; [exact Hm|]); (split; [exact Hb|]); right;
     eexists;
     (split; [reflexivity|]);
     (split; [now rewrite Hev|]);
     (split; [reflexivity|]); (split; [reflexivity|]);
     (split; [reflexivity|]);
     rewrite Htk;
     repeat split;
     repeat (first [rewrite lookup_insert_eq; reflexivity
                   | rewrite lookup_insert_ne by discriminate])).
Qed.

Lemma field_prop k v (d : doc) : field (prop k v d) k = v \/ (v = VUndefined /\ field (prop k v d) k = field d k).
Proof.
  destruct v; simpl; auto; left; unfold field; now rewrite lookup_insert_eq.
Qed.

Lemma field_prop_ne k k' v (d : doc) : k <> k' -> field (prop k v d) k' = field d k'.
Proof. intros H. unfold field. now rewrite lookup_prop_ne. Qed.

Lemma field_prop_fresh k v (d : doc) : d !! k = None -> field (prop k v d) k = v.
Proof.
  intros H. destruct (field_prop k v d) as [?|[-> ->]]; [assumption|].
  unfold field. now rewrite H.
Qed.

Lemma addBlog_creates blogData w :
  let upd := properties blogData in
  let (r, w') := DatabaseService.addBlog E this blogData w in
  members w' = members w /\ events w' = events w
  /\ ((blogs w' = blogs w /\ (forall d, r <> Return (PDoc d))
       /\ (dbType this = "mongodb"%string -> exists err, r = Throw err))
      \/ exists o author b,
           ObjectId_parse E (field upd "authorId") = Some o
           /\ List.find (sat (FEq "_id" (VObjectId o))) (members w) = Some author
           /\ r = Return (PDoc b)
           /\ blogs w' = blogs w ++ [b]
           /\ field b "authorId" = field upd "authorId"
           /\ field b "authorName" = field author "name"
           /\ field b "authorEmail" = field author "email"
           /\ field b "authorDepartment" = field author "department"
           /\ field b "createdAt" = VDate (Some (clock E (w_ticks w)))
           /\ field b "updatedAt" = VDate (Some (clock E (S (w_ticks w))))).
Proof.
  intros upd. wp_goal.
  set (Q := fun (r : outcome payload) (w' : World) => _).
  assert (Hfail : forall r w2, store w2 = store w ->
                               (forall d, r <> Return (PDoc d)) ->
                               (dbType this = "mongodb"%string -> exists err, r = Throw err) ->
                               Q r w2).
  { intros r w2 Hst Hr Herr. unfold store in Hst. injection Hst as H1 H2 H3.
    unfold Q. repeat (split; [assumption|]). left. auto. }
  unfold DatabaseService.addBlog.
  wp_step @wp_destructure; [intros e; fails Hfail|]. fold upd.
  destruct (negb (truthy (field upd "title")) || negb (truthy (field upd "content"))
            || negb (truthy (field upd "authorId"))); [fails Hfail|].
  apply wp_by_dbType; [intros r Hr Herr; now apply Hfail|]. intros _.
  wp_step wp_connectToMongoDB. intros [c|e] w1 Hst Htk _; [|fails Hfail].
  wp_step @wp_new_ObjectId; [intros _; fails Hfail|]. intros o Ho.
  wp_step wp_findOne. destruct (List.find _ _) as [author|] eqn:Hfind; [|fails Hfail].
  wp_step @wp_call_trim; [intros e; fails Hfail|]. intros title Ht.
  wp_step @wp_call_trim; [intros e; fails Hfail|]. intros content Hc.
  wp_step wp_new_Date. wp_step wp_new_Date.
  wp_step wp_insertOne_fresh.
  { rewrite !field_prop_ne by discriminate. reflexivity. }
  apply wp_ret. unfold Q. store_simpl E.
  unfold store in Hst. injection Hst as Hm Hev Hb.
  split; [exact Hm|]. split; [exact Hev|]. right.
  exists o, author. eexists.
  split; [exact Ho|]. split; [cbn [collection] in Hfind; now rewrite <- Hm|].
  split; [reflexivity|]. split; [now rewrite Hb|].
  rewrite Htk.
  assert (forall k v (d : doc), k <> "_id"%string ->
            field (<["_id" := v]> d) k = field d k) as Hskip.
  { intros k v d Hk. unfold field. now rewrite lookup_insert_ne by congruence. }
  repeat split; rewrite Hskip by discriminate;
    repeat (first [ apply field_prop_fresh;
                    repeat (rewrite lookup_prop_ne by discriminate);
                    apply lookup_empty
                  | rewrite field_prop_ne by discriminate ]).
Qed.

End Creation.

(** ** [addEvent] and [addBlog] *)

Section Adding.
Context (E : Env) (this : Service).
Hypothesis mongodb : dbType this = "mongodb"%string.

Lemma online_tick w : online E (tick w) = online E w.
Proof.
  unfold online, connectToMongoDB, cached_connect, new_MongoClient, client_connect.
  monad_unfold. cbn [tick w_mongo w_clients].
  destruct (conn (w_mongo w)); [reflexivity|].
  destruct (promise (w_mongo w)) as [[c|e]|]; cbn; try reflexivity.
  destruct (uri_valid E (MONGODB_URI E)); cbn; [|reflexivity].
  destruct (reachable E (MONGODB_URI E)); reflexivity.
Qed.

Lemma wp_opt_trim_ok {S} x v (Q : outcome value -> S -> Prop) s :
  optional_string v ->
  (forall v', or_null v' = VNull \/ (exists str, v' = VStr str) -> Q (Return v') s) ->
  wp (opt_trim E x v) Q s.
Proof.
  intros [Hn|[str ->]] H.
  - destruct v; try discriminate; apply H; now left.
  - apply H. right. eauto.
Qed.

Lemma wp_call_trim_str {S} x str (Q : outcome value -> S -> Prop) s :
  Q (Return (VStr (JsString.trim str))) s -> wp (call_trim E x (VStr str)) Q s.
Proof. exact id. Qed.

(** C3, at the input that escapes the guard: a truthy [eventDate] that
    does not parse gives an invalid date, every comparison with it is
    false, so [addEvent] does not throw and stores an event whose
    [eventDate] is the invalid date. *)
Theorem addEvent_stores_invalid_date (eventData : data) (title : string) (w : World) :
  online E w = true -> destructurable eventData ->
  let upd := properties eventData in
  field upd "title" = VStr title -> title <> ""%string ->
  truthy (field upd "eventDate") = true ->
  Date_of E (field upd "eventDate") = None ->
  optional_string (field upd "description") ->
  optional_string (field upd "location") ->
  let (r, w') := DatabaseService.addEvent E this eventData w in
  exists ev,
    r = Return (PDoc ev)
    /\ events w' = events w ++ [ev]
    /\ ev !! "eventDate"%string = Some (VDate None).
Proof.
  intros Hon Hd upd Ht Hne Hdate Hparse Hdesc Hloc. wp_goal.
  unfold DatabaseService.addEvent.
  wp_step @wp_destructure_ok; [exact Hd|]. fold upd.
  rewrite Ht, Hdate, Hparse.
  assert (truthy (VStr title) = true) as ->.
  { simpl. destruct (String.eqb_spec title ""); [contradiction|reflexivity]. }
  cbn [negb orb]. wp_step wp_Date_now. cbn [date_le].
  rewrite (by_dbType_mongodb this mongodb).
  wp_step wp_online; [reflexivity|now rewrite online_tick|]. intros c.
  wp_step @wp_call_trim_str.
  wp_step @wp_opt_trim_ok; [exact Hdesc|]. intros description' _.
  wp_step @wp_opt_trim_ok; [exact Hloc|]. intros location' _.
  wp_step wp_new_Date. wp_step wp_new_Date.
  wp_step wp_insertOne_fresh.
  { unfold field. now rewrite !lookup_insert_ne, lookup_empty by discriminate. }
  apply wp_ret. store_simpl E. eexists.
  split; [reflexivity|]. split; [reflexivity|].
  repeat (first [rewrite lookup_insert_eq; reflexivity
                | rewrite lookup_insert_ne by discriminate]).
Qed.

Lemma wp_call_trim_cases {S} x v (Q : outcome value -> S -> Prop) s :
  ((forall str, v <> VStr str) -> forall e, Q (Throw e) s) ->
  (forall str, v = VStr str -> Q (Return (VStr (JsString.trim str))) s) ->
  wp (call_trim E x v) Q s.
Proof.
  intros Ht Hr. destruct v; unfold wp; simpl; auto; apply Ht; discriminate.
Qed.

Lemma addBlog_lookup (blogData : data) (o : oid) (w : World) :
  online E w = true -> destructurable blogData ->
  let upd := properties blogData in
  truthy (field upd "title") = true -> truthy (field upd "content") = true ->
  truthy (field upd "authorId") = true ->
  ObjectId_parse E (field upd "authorId") = Some o ->
  let (r, w') := DatabaseService.addBlog E this blogData w in
  (List.find (sat (FEq "_id" (VObjectId o))) (members w) = None ->
   r = Throw (Error "Author not found") /\ store w' = store w)
  /\ (forall author,
        List.find (sat (FEq "_id" (VObjectId o))) (members w) = Some author ->
        (exists t, field upd "title" = VStr t) ->
        (exists c, field upd "content" = VStr c) ->
        exists b, r = Return (PDoc b)).
Proof.
  intros Hon Hd upd Ht Hc Ha Ho. wp_goal.
  unfold DatabaseService.addBlog.
  wp_step @wp_destructure_ok; [exact Hd|]. fold upd.
  rewrite Ht, Hc, Ha. cbn [negb orb].
  rewrite (by_dbType_mongodb this mongodb).
  wp_step wp_online; [reflexivity|exact Hon|]. intros c.
  wp_step @wp_new_ObjectId; [congruence|]. intros o' Ho'.
  assert (o' = o) as -> by congruence.
  wp_step wp_findOne. store_simpl E.
  destruct (List.find _ (members w)) as [author|] eqn:Hfind.
  - wp_step @wp_call_trim_cases.
    { intros Hno e. split; [discriminate|].
      intros a _ [t Htitle] _. now destruct (Hno t). }
    intros title Htitle. wp_step @wp_call_trim_cases.
    { intros Hno e. split; [discriminate|].
      intros a _ _ [t Hcontent]. now destruct (Hno t). }
    intros content Hcontent. wp_step wp_new_Date. wp_step wp_new_Date.
    wp_step wp_insertOne_fresh.
    { rewrite !field_prop_ne by discriminate. reflexivity. }
    apply wp_ret. split; [discriminate|]. eauto.
  - apply wp_throw. store_simpl E. split.
    + intros _. split; [reflexivity|apply connected_store].
    + discriminate.
Qed.

(** C6 (amended). With the MongoDB backend and a reachable database, for
    a body whose [title], [content] and [authorId] are truthy and whose
    [authorId] is a well-formed identifier: when no member has that
    identifier [addBlog] throws 'Author not found' and changes nothing;
    when a member has it and [title] and [content] are strings the blog
    is created. Whenever [addBlog] returns a blog, it stores that blog with
    [authorId] as given and with [authorName], [authorEmail] and
    [authorDepartment] equal to [name], [email] and [department] of the
    first member with that identifier in the collection as the call finds
    it. *)
Theorem addBlog_snapshot (blogData : data) (o : oid) (w : World) :
  online E w = true -> destructurable blogData ->
  let upd := properties blogData in
  truthy (field upd "title") = true -> truthy (field upd "content") = true ->
  truthy (field upd "authorId") = true ->
  ObjectId_parse E (field upd "authorId") = Some o ->
  let (r, w') := DatabaseService.addBlog E this blogData w in
  ((forall m, In m (members w) -> field m "_id" <> VObjectId o) ->
   r = Throw (Error "Author not found") /\ store w' = store w)
  /\ (forall m, In m (members w) -> field m "_id" = VObjectId o ->
      (exists t, field upd "title" = VStr t) ->
      (exists c, field upd "content" = VStr c) ->
      exists b, r = Return (PDoc b))
  /\ (forall b, r = Return (PDoc b) ->
      exists author,
        List.find (sat (FEq "_id" (VObjectId o))) (members w) = Some author
        /\ blogs w' = blogs w ++ [b]
        /\ members w' = members w /\ events w' = events w
        /\ field b "authorId" = field upd "authorId"
        /\ field b "authorName" = field author "name"
        /\ field b "authorEmail" = field author "email"
        /\ field b "authorDepartment" = field author "department").
Proof.
  intros Hon Hd upd Ht Hc Ha Ho.
  pose proof (addBlog_creates E this blogData w) as Hcreate.
  pose proof (addBlog_lookup blogData o w Hon Hd Ht Hc Ha Ho) as Hpath.
  cbv zeta in Hcreate, Hpath. fold upd in Hcreate, Hpath.
  destruct (DatabaseService.addBlog E this blogData w) as [r w'].
  destruct Hpath as [Habsent Hpresent]. split; [|split].
  - intros Habs. apply Habsent, find_absent.
    intros m Hm. apply sat_FEq_false. auto.
  - intros m Hin Hm Htitle Hcontent.
    destruct (find_present (sat (FEq "_id" (VObjectId o))) _ m Hin) as [author Hf];
      [now apply sat_FEq|].
    exact (Hpresent author Hf Htitle Hcontent).
  - intros b ->. destruct Hcreate as (Hm & Hev & [(_ & Hno & _)|Hyes]).
    + now destruct (Hno b).
    + destruct Hyes as (o' & author & b' & Ho' & Hf & Hr & Hb & Hid & Hn & Hem & Hdep & _).
      injection Hr as <-. assert (o' = o) as -> by congruence.
      exists author. auto 10.
Qed.

End Adding.

(** An event announced for "TBA" is stored, with an invalid date. *)
Lemma addEvent_stores_invalid_date_witness :
  exists ev,
    fst (DatabaseService.addEvent Sample.env Sample.this
           (Obj (<["title" := VStr "Talk"]> (<["eventDate" := VStr "TBA"]> ∅)))
           (boot [] [] []))
    = Return (PDoc ev)
    /\ ev !! "eventDate"%string = Some (VDate None).
Proof.
  assert (dbType Sample.this = "mongodb"%string) as Hdb by (vm_compute; reflexivity).
  assert (online Sample.env (boot [] [] []) = true) as Hon by (vm_compute; reflexivity).
  assert (destructurable (Obj (<["title" := VStr "Talk"]> (
            <["eventDate" := VStr "TBA"]> ∅)))) as Hd by (split; discriminate).
  pose proof (addEvent_stores_invalid_date Sample.env Sample.this Hdb
                (Obj (<["title" := VStr "Talk"]> (<["eventDate" := VStr "TBA"]> ∅)))
                "Talk" (boot [] [] []) Hon Hd) as H.
  cbv zeta in H.
  assert (field (properties (Obj (<["title" := VStr "Talk"]> (
            <["eventDate" := VStr "TBA"]> ∅)))) "title" = VStr "Talk") as H1
      by (vm_compute; reflexivity).
  assert (truthy (field (properties (Obj (<["title" := VStr "Talk"]> (
            <["eventDate" := VStr "TBA"]> ∅)))) "eventDate") = true) as H2
      by (vm_compute; reflexivity).
  assert (Date_of Sample.env (field (properties (Obj (<["title" := VStr "Talk"]> (
            <["eventDate" := VStr "TBA"]> ∅)))) "eventDate") = None) as H3
      by (vm_compute; reflexivity).
  assert (optional_string (field (properties (Obj (<["title" := VStr "Talk"]> (
            <["eventDate" := VStr "TBA"]> ∅)))) "description")) as H4
      by (left; vm_compute; reflexivity).
  assert (optional_string (field (properties (Obj (<["title" := VStr "Talk"]> (
            <["eventDate" := VStr "TBA"]> ∅)))) "location")) as H5
      by (left; vm_compute; reflexivity).
  assert ("Talk"%string <> ""%string) as H0 by discriminate.
  specialize (H H1 H0 H2 H3 H4 H5).
  destruct (DatabaseService.addEvent Sample.env Sample.this _ _) as [r w'].
  destruct H as (ev & Hr & _ & Hdate). exists ev. split; assumption.
Defined.

(** What the guard of [addEvent] does ensure: an event is stored only with
    a truthy [title] and [eventDate], and an [eventDate] that parses is
    later than the reading of the clock the guard compared it with. *)
Lemma addEvent_guard (E : Env) (this : Service) (eventData : data) (w : World) :
  let upd := properties eventData in
  let (r, w') := DatabaseService.addEvent E this eventData w in
  forall ev, r = Return (PDoc ev) ->
    truthy (field upd "title") = true
    /\ truthy (field upd "eventDate") = true
    /\ ev !! "eventDate"%string = Some (VDate (Date_of E (field upd "eventDate")))
    /\ forall t, Date_of E (field upd "eventDate") = Some t -> clock E (w_ticks w) < t.
Proof.
  intros upd. pose proof (addEvent_creates E this eventData w) as H.
  cbv zeta in H. fold upd in H.
  destruct (DatabaseService.addEvent E this eventData w) as [r w'].
  intros ev Hev. destruct H as (_ & _ & [(_ & Hno & _)|Hyes]); [now destruct (Hno ev)|].
  destruct Hyes as (ev' & Hr & _ & Ht & Hd & Hle & Hdate & _).
  rewrite Hr in Hev. injection Hev as <-.
  repeat (split; [assumption|]). intros t Hparse. rewrite Hparse in Hle.
  cbn [date_le] in Hle. apply Z.leb_gt in Hle. exact Hle.
Qed.

(** The lookup of [registerMember] is made with the address as supplied,
    the document with its lowercased form: an address that differs from a
    stored one by case only is accepted, and stored equal to it. *)
Example registerMember_case :
  map (fun d => field d "email")
      (members (snd (DatabaseService.registerMember Sample.env Sample.this
                       (Obj (<["name" := VStr "Eve"]> (
                             <["email" := VStr "Ada@Club.org"]> ∅)))
                       (boot [Sample.ada] [] []))))
  = [VStr "ada@club.org"; VStr "ada@club.org"].
Proof. vm_compute. reflexivity. Qed.

(** A blog by Ada carries her name and address. *)
Lemma addBlog_snapshot_witness :
  exists b,
    fst (DatabaseService.addBlog Sample.env Sample.this
           (Obj (<["title" := VStr " Hello "]> (<["content" := VStr "World"]> (
                 <["authorId" := Sample.id1]> ∅))))
           (boot [Sample.ada; Sample.bob] [] []))
    = Return (PDoc b)
    /\ field b "authorName" = VStr "Ada"
    /\ field b "authorEmail" = VStr "ada@club.org".
Proof.
  assert (dbType Sample.this = "mongodb"%string) as Hdb by (vm_compute; reflexivity).
  assert (online Sample.env (boot [Sample.ada; Sample.bob] [] []) = true) as Hon
      by (vm_compute; reflexivity).
  assert (destructurable (Obj (<["title" := VStr " Hello "]> (
            <["content" := VStr "World"]> (<["authorId" := Sample.id1]> ∅)))))
    as Hd by (split; discriminate).
  pose proof (addBlog_snapshot Sample.env Sample.this Hdb
                (Obj (<["title" := VStr " Hello "]> (<["content" := VStr "World"]> (
                      <["authorId" := Sample.id1]> ∅))))
                1%N (boot [Sample.ada; Sample.bob] [] []) Hon Hd) as H.
  cbv zeta in H.
  assert (truthy (field (properties (Obj (<["title" := VStr " Hello "]> (
            <["content" := VStr "World"]> (<["authorId" := Sample.id1]> ∅))))) "title")
          = true) as H1 by (vm_compute; reflexivity).
  assert (truthy (field (properties (Obj (<["title" := VStr " Hello "]> (
            <["content" := VStr "World"]> (<["authorId" := Sample.id1]> ∅))))) "content")
          = true) as H2 by (vm_compute; reflexivity).
  assert (truthy (field (properties (Obj (<["title" := VStr " Hello "]> (
            <["content" := VStr "World"]> (<["authorId" := Sample.id1]> ∅))))) "authorId")
          = true) as H3 by (vm_compute; reflexivity).
  assert (ObjectId_parse Sample.env (field (properties (Obj (
            <["title" := VStr " Hello "]> (<["content" := VStr "World"]> (
            <["authorId" := Sample.id1]> ∅))))) "authorId") = Some 1%N) as H4
      by (vm_compute; reflexivity).
  specialize (H H1 H2 H3 H4).
  destruct (DatabaseService.addBlog Sample.env Sample.this _ _) as [r w'].
  destruct H as (_ & Hmade & Hsnap).
  assert (field Sample.ada "_id" = VObjectId 1) as Hid by (vm_compute; reflexivity).
  destruct (Hmade Sample.ada (or_introl eq_refl) Hid) as [b Hb].
  { exists " Hello "%string. vm_compute. reflexivity. }
  { exists "World"%string. vm_compute. reflexivity. }
  destruct (Hsnap b Hb) as (author & Hf & _ & _ & _ & _ & Hn & He & _).
  assert (sat (FEq "_id" (VObjectId 1)) Sample.ada = true) as Hs
      by (vm_compute; reflexivity).
  cbn [boot members List.find] in Hf. rewrite Hs in Hf. injection Hf as <-.
  exists b. split; [exact Hb|]. rewrite Hn, He. split; vm_compute; reflexivity.
Defined.

(** C6, as stated, fails: no member has the identifier, yet what is
    thrown is not 'Author not found': the guard on the required fields
    comes first. Nor is that the error for an identifier the constructor
    rejects. *)
Lemma addBlog_counterexample :
  ObjectId_parse Sample.env Sample.id9 = Some 9%N
  /\ (forall m, In m (members (boot [Sample.ada] [] [])) -> field m "_id" <> VObjectId 9)
  /\ fst (DatabaseService.addBlog Sample.env Sample.this
            (Obj (<["content" := VStr "World"]> (<["authorId" := Sample.id9]> ∅)))
            (boot [Sample.ada] [] []))
     = Throw (Error "Title, content, and author ID are required")
  /\ fst (DatabaseService.addBlog Sample.env Sample.this
            (Obj (<["title" := VStr "Hello"]> (<["content" := VStr "World"]> (
                  <["authorId" := VStr "nope"]> ∅))))
            (boot [Sample.ada] [] []))
     = Throw (DriverError "BSONError").
Proof.
  split; [|split; [|split]].
  - vm_compute. reflexivity.
  - intros m [<-|[]]. vm_compute. discriminate.
  - vm_compute. reflexivity.
  - vm_compute. reflexivity.
Qed.

(** ** The join handler and the bare insert handler *)

Section Handlers.
Context (E : Env).

Lemma wp_connectToDatabase uri (Q : outcome Conn -> World -> Prop) w :
  (forall r w', store w' = store w -> w_ticks w' = w_ticks w ->
                w_oids w' = w_oids w -> Q r w') ->
  wp (connectToDatabase E uri) Q w.
Proof.
  intros H. unfold wp, connectToDatabase.
  pose proof (cached_connect_frame E [("serverSelectionTimeoutMS", 5000)]%string
                uri w) as (H1 & H2 & H3 & _).
  destruct (cached_connect E _ uri w) as [r w']. simpl in *. auto.
Qed.

(** The two connection functions succeed together. *)
Lemma online_connectToDatabase w :
  online E w = true ->
  exists c w1, connectToDatabase E (MONGODB_URI E) w = (Return c, w1)
               /\ store w1 = store w /\ w_ticks w1 = w_ticks w.
Proof.
  unfold online, connectToMongoDB, connectToDatabase, cached_connect,
    new_MongoClient, client_connect. monad_unfold.
  destruct (conn (w_mongo w)); [simpl; eauto|].
  destruct (promise (w_mongo w)) as [[c|e]|]; simpl; eauto; try discriminate.
  destruct (uri_valid E (MONGODB_URI E)); simpl; [|discriminate].
  destruct (reachable E (MONGODB_URI E)); simpl; [eauto|discriminate].
Qed.

Lemma join_creates req w :
  let upd := Join.or_empty (parse_body E (body req)) in
  let (r, w') := Join.handler E req w in
  exists resp,
    r = Return resp /\ events w' = events w /\ blogs w' = blogs w
    /\ ((members w' = members w /\ sent resp <> JMessage "Thanks for joining!")
        \/ exists d,
             status resp = 200 /\ sent resp = JMessage "Thanks for joining!"
             /\ members w' = members w ++ [d]
             /\ field d "email" = field upd "email"
             /\ d !! "createdAt"%string = Some (VDate (Some (clock E (w_ticks w))))
             /\ d !! "updatedAt"%string = None
             /\ d !! "joinedAt"%string = None).
Proof.
  intros upd. wp_goal.
  set (Q := fun (r : outcome Response) (w' : World) => _).
  assert (Hfail : forall code j w2,
            store w2 = store w -> j <> JMessage "Thanks for joining!" ->
            wp (Join.reply req code j) Q w2).
  { intros code j w2 Hst Hj. unfold store in Hst. injection Hst as H1 H2 H3.
    unfold Join.reply. apply wp_ret. unfold Q. eexists. split; [reflexivity|].
    repeat (split; [assumption|]). left. auto. }
  unfold Join.handler.
  destruct (String.eqb (method req) "OPTIONS"); [apply Hfail; [reflexivity|discriminate]|].
  destruct (negb (String.eqb (method req) "POST"));
    [apply Hfail; [reflexivity|discriminate]|].
  fold upd.
  destruct (negb (truthy (field upd "name")) || negb (truthy (field upd "email")));
    [apply Hfail; [reflexivity|discriminate]|].
  destruct (negb (emailRegex_test (field upd "email")));
    [apply Hfail; [reflexivity|discriminate]|].
  apply wp_try_catch.
  wp_step wp_connectToDatabase. intros [c|e] w1 Hst Htk _;
    [|apply Hfail; [exact Hst|discriminate]].
  wp_step wp_new_Date. wp_step wp_insertOne_fresh.
  { unfold field. now rewrite !lookup_insert_ne, lookup_empty by discriminate. }
  unfold Join.reply. apply wp_ret. unfold Q. store_simpl E.
  unfold store in Hst. injection Hst as Hm Hev Hb.
  eexists. split; [reflexivity|]. split; [exact Hev|]. split; [exact Hb|]. right.
  eexists. split; [reflexivity|]. split; [reflexivity|].
  split; [now rewrite Hm|]. rewrite Htk. unfold field at 1.
  repeat split;
    repeat (first [rewrite lookup_insert_eq; reflexivity
                  | rewrite lookup_insert_ne by discriminate
                  | apply lookup_empty]).
Qed.

Lemma join_succeeds req w :
  let upd := Join.or_empty (parse_body E (body req)) in
  online E w = true -> method req = "POST"%string ->
  truthy (field upd "name") = true -> truthy (field upd "email") = true ->
  emailRegex_test (field upd "email") = true ->
  exists resp, fst (Join.handler E req w) = Return resp
               /\ sent resp = JMessage "Thanks for joining!".
Proof.
  intros upd Hon Hpost Hname Hemail Hre.
  destruct (online_connectToDatabase w Hon) as (c & w1 & Hc & _ & _).
  unfold Join.handler. rewrite Hpost. fold upd. rewrite Hname, Hemail, Hre.
  cbn [String.eqb Ascii.eqb Bool.eqb negb orb].
  monad_unfold. rewrite Hc. unfold new_Date, Date_now, insertOne. monad_unfold.
  cbn [tick w_ticks].
  match goal with
  | |- context [nullish ?v] =>
      assert (nullish v = true) as ->
        by (unfold field; now rewrite !lookup_insert_ne, lookup_empty by discriminate)
  end.
  cbn. eauto.
Qed.

Lemma wp_await {A} (p : outcome A) (Q : outcome A -> World -> Prop) w :
  Q p w -> wp (await p) Q w.
Proof. exact id. Qed.

Lemma wp_new_MongoClient uri options (Q : outcome nat -> World -> Prop) w :
  (forall e, Q (Throw e) w) ->
  Q (Return (length (w_clients w))) (add_client (mkClient uri options) w) ->
  wp (new_MongoClient E uri options) Q w.
Proof.
  intros Ht Hr. unfold wp, new_MongoClient. destruct (uri_valid E uri); auto.
Qed.

Lemma insert_creates req w :
  let (r, w') := Insert.handler E req w in
  exists resp,
    r = Return resp /\ events w' = events w /\ blogs w' = blogs w
    /\ ((members w' = members w /\ status resp <> 200)
        \/ exists d d' id,
             body req = Obj d
             /\ status resp = 200 /\ sent resp = JInserted id
             /\ members w' = members w ++ [d']
             /\ field d' "_id" = id
             /\ (forall k, k <> "_id"%string -> d' !! k = d !! k)).
Proof.
  wp_goal.
  set (Q := fun (r : outcome Response) (w' : World) => _).
  assert (Hfail : forall w2, store w2 = store w ->
                    wp (Insert.reply 500 (JError "Database error" None)) Q w2).
  { intros w2 Hst. unfold store in Hst. injection Hst as H1 H2 H3.
    apply wp_ret. unfold Q. eexists. split; [reflexivity|].
    repeat (split; [assumption|]). left. split; [assumption|discriminate]. }
  unfold Insert.handler.
  destruct (negb (String.eqb (method req) "POST")).
  { apply wp_ret. unfold Q. eexists. split; [reflexivity|].
    repeat (split; [reflexivity|]). left. split; [reflexivity|discriminate]. }
  apply wp_try_catch.
  set (Q' := fun (r : outcome Response) (s' : World) => _).
  assert (Hrest : forall w2, store w2 = store w ->
            wp (Insert.through_client E ;;
                insertOne Members (body req) ≫= fun insertedId =>
                Insert.reply 200 (JInserted insertedId)) Q' w2).
  { intros w2 Hst. apply wp_bind. unfold Insert.through_client.
    destruct (reachable E (Insert.uri E)); [apply wp_ret|apply wp_throw; now apply Hfail].
    destruct (body req) as [d|v] eqn:Hbody;
      [|apply wp_bind, wp_throw; now apply Hfail].
    unfold store in Hst. injection Hst as H1 H2 H3.
    wp_step wp_insertOne.
    - intros e. apply Hfail. unfold store. now rewrite H1, H2, H3.
    - intros o Hn Ho. apply wp_ret. unfold Q', Q. store_simpl E.
      eexists. split; [reflexivity|]. repeat (split; [assumption|]). right.
      exists d. eexists. eexists. split; [reflexivity|]. split; [reflexivity|].
      split; [reflexivity|]. split; [now rewrite H1|]. split.
      + unfold field. now rewrite lookup_insert_eq.
      + intros k Hk. now rewrite lookup_insert_ne by congruence.
    - intros Hn. apply wp_ret. unfold Q', Q. store_simpl E.
      eexists. split; [reflexivity|]. repeat (split; [assumption|]). right.
      exists d, d, (field d "_id"). rewrite H1. auto 10. }
  wp_step @wp_get. apply wp_bind.
  destruct (w_client w).
  - apply wp_ret. now apply Hrest.
  - wp_step wp_new_MongoClient; [intros e; now apply Hfail|].
    wp_step @wp_modify. wp_step @wp_await.
    destruct (client_connect E _ _); [|now apply Hfail].
    apply wp_ret. now apply Hrest.
Qed.

Lemma insert_succeeds req d w :
  method req = "POST"%string -> body req = Obj d ->
  nullish (field d "_id") = true ->
  (w_client w = None -> uri_valid E (MONGO_URI E) = true) ->
  reachable E (MONGO_URI E) = true ->
  exists id w', Insert.handler E req w = (Return (mkResponse 200 [] (JInserted id)), w')
                /\ members w' = members w ++ [<["_id" := id]> d].
Proof.
  intros Hpost Hbody Hn Hv Hr.
  unfold Insert.handler, Insert.reply, Insert.through_client, Insert.uri,
    new_MongoClient, client_connect, insertOne.
  rewrite Hpost, Hbody. monad_unfold. cbn [String.eqb Ascii.eqb Bool.eqb negb].
  rewrite Hn. destruct (w_client w).
  - rewrite Hr. cbn. eauto.
  - rewrite (Hv eq_refl). cbn. rewrite Hr. cbn. eauto.
Qed.

End Handlers.

(** ** The email of a new member *)

(** C1 (amended). A member created through [registerMember] stores the
    lowercased form of the supplied address (which [trim] leaves as it is,
    the pattern admitting no white space), and [registerMember] fails with
    an error, storing nothing, when a member whose stored [email] equals
    the supplied address exists. The join handler and the bare insert
    handler store the address exactly as supplied and make no check for an
    existing member: with a reachable database they succeed whatever the
    collection holds. *)
Theorem member_email_by_entry_point (E : Env) (this : Service) (w : World) :
  (forall memberData,
     let upd := properties memberData in
     let (r, w') := DatabaseService.registerMember E this memberData w in
     (forall d, r = Return (PDoc d) ->
        members w' = members w ++ [d]
        /\ exists e,
             field upd "email" = VStr e
             /\ field d "email" = VStr (JsString.toLowerCase e)
             /\ JsString.lowercased (JsString.toLowerCase e)
             /\ (forall m, In m (members w) -> field m "email" <> VStr e))
     /\ (dbType this = "mongodb"%string ->
         (exists m, In m (members w) /\ field m "email" = field upd "email") ->
         (exists err, r = Throw err) /\ members w' = members w))
  /\ (forall req,
        let upd := Join.or_empty (parse_body E (body req)) in
        online E w = true -> method req = "POST"%string ->
        truthy (field upd "name") = true -> truthy (field upd "email") = true ->
        emailRegex_test (field upd "email") = true ->
        let (r, w') := Join.handler E req w in
        exists resp d,
          r = Return resp /\ status resp = 200
          /\ members w' = members w ++ [d]
          /\ field d "email" = field upd "email")
  /\ (forall req d,
        method req = "POST"%string -> body req = Obj d ->
        nullish (field d "_id") = true ->
        (w_client w = None -> uri_valid E (MONGO_URI E) = true) ->
        reachable E (MONGO_URI E) = true ->
        let (r, w') := Insert.handler E req w in
        exists resp d',
          r = Return resp /\ status resp = 200
          /\ members w' = members w ++ [d']
          /\ field d' "email" = field d "email").
Proof.
  split; [|split].
  - intros memberData upd.
    pose proof (registerMember_creates E this memberData w) as H.
    cbv zeta in H. fold upd in H.
    destruct (DatabaseService.registerMember E this memberData w) as [r w'].
    destruct H as (_ & _ & [(Hsame & Hno & Herr)|Hyes]).
    + split; [intros d Hd; now destruct (Hno d)|]. intros Hdb _. auto.
    + destruct Hyes as (e & d & He & Hre & Hnew & Hr & Hm & Hemail & _).
      pose proof (RegexFacts.emailRegex_spaceless e Hre) as Hsp.
      split.
      * intros d' Hd'. rewrite Hr in Hd'. injection Hd' as <-.
        split; [exact Hm|]. exists e. split; [exact He|]. split.
        { unfold field. rewrite Hemail. cbn [default].
          rewrite JsStringFacts.trim_spaceless; [reflexivity|].
          now apply JsStringFacts.spaceless_toLowerCase. }
        split; [apply JsStringFacts.toLowerCase_idem|exact Hnew].
      * intros _ (m & Hin & Hm'). exfalso. apply (Hnew m Hin). congruence.
  - intros req upd Hon Hpost Hname Hemail Hre.
    pose proof (join_creates E req w) as H.
    pose proof (join_succeeds E req w Hon Hpost Hname Hemail Hre) as (resp0 & Hr0 & Hs0).
    cbv zeta in H. fold upd in H.
    destruct (Join.handler E req w) as [r w']. cbn [fst] in Hr0.
    destruct H as (resp & Hr & _ & _ & [(_ & Hno)|Hyes]).
    + exfalso. apply Hno. congruence.
    + destruct Hyes as (d & Hst & _ & Hm & He & _). exists resp, d. auto.
  - intros req d Hpost Hbody Hn Hv Hr.
    destruct (insert_succeeds E req d w Hpost Hbody Hn Hv Hr) as (id & w' & -> & Hm).
    eexists. exists (<["_id" := id]> d). split; [reflexivity|].
    split; [reflexivity|]. split; [exact Hm|].
    unfold field. now rewrite lookup_insert_ne by discriminate.
Qed.

(** Eve registers with capitals in her address; the stored one has none. *)
Lemma member_email_by_entry_point_witness :
  exists d,
    fst (DatabaseService.registerMember Sample.env Sample.this
           (Obj (<["name" := VStr "Eve"]> (<["email" := VStr "Eve@Club.org"]> ∅)))
           (boot [Sample.ada] [] []))
    = Return (PDoc d)
    /\ field d "email" = VStr "eve@club.org".
Proof.
  pose proof (member_email_by_entry_point Sample.env Sample.this
                (boot [Sample.ada] [] [])) as (H & _ & _).
  specialize (H (Obj (<["name" := VStr "Eve"]> (<["email" := VStr "Eve@Club.org"]> ∅)))).
  cbv zeta in H.
  assert (match fst (DatabaseService.registerMember Sample.env Sample.this
                       (Obj (<["name" := VStr "Eve"]> (
                             <["email" := VStr "Eve@Club.org"]> ∅)))
                       (boot [Sample.ada] [] []))
          with Return (PDoc _) => true | _ => false end = true) as Hdoc
      by (vm_compute; reflexivity).
  destruct (DatabaseService.registerMember Sample.env Sample.this _ _) as [r w'].
  cbn [fst] in *. destruct r as [[| |d|]|]; try discriminate.
  destruct H as [H _]. destruct (H d eq_refl) as (_ & e & He & Hd & _).
  vm_compute in He. injection He as <-.
  exists d. split; [reflexivity|]. rewrite Hd. vm_compute. reflexivity.
Defined.

(** C1, as stated, fails: through the join handler Eve's address is stored
    with its capitals, and a second member with Ada's address is
    accepted. *)
Lemma member_email_counterexample :
  map (fun d => field d "email")
      (members (snd (Join.handler Sample.env
                       (Sample.post (<["name" := VStr "Eve"]> (
                                     <["email" := VStr "Eve@Club.org"]> ∅)))
                       (boot [Sample.ada] [] []))))
  = [VStr "ada@club.org"; VStr "Eve@Club.org"]
  /\ JsString.toLowerCase "Eve@Club.org" <> "Eve@Club.org"%string
  /\ status <$> (match fst (Join.handler Sample.env
                             (Sample.post (<["name" := VStr "Eve"]> (
                                           <["email" := VStr "ada@club.org"]> ∅)))
                             (boot [Sample.ada] [] []))
                 with Return resp => Some resp | Throw _ => None end)
     = Some 200
  /\ map (fun d => field d "email")
         (members (snd (Join.handler Sample.env
                          (Sample.post (<["name" := VStr "Eve"]> (
                                        <["email" := VStr "ada@club.org"]> ∅)))
                          (boot [Sample.ada] [] []))))
     = [VStr "ada@club.org"; VStr "ada@club.org"].
Proof.
  repeat split; try (vm_compute; reflexivity). vm_compute. discriminate.
Qed.

(** ** The timestamps of a new document *)

(** C4 (amended). A document created by [registerMember], [addEvent] or
    [addBlog] carries [createdAt] and [updatedAt] read from the server's
    clock during the call, whatever the body supplies. A document created
    by the join handler carries a [createdAt] read from the clock and no
    [updatedAt]. A document created by the bare insert handler carries the
    fields of the body and the identifier, nothing else: timestamps are
    there only if the client sent them. *)
Theorem creation_timestamps (E : Env) (this : Service) (w : World) :
  (forall memberData,
     let (r, w') := DatabaseService.registerMember E this memberData w in
     forall d, r = Return (PDoc d) ->
       members w' = members w ++ [d]
       /\ d !! "createdAt"%string = Some (VDate (Some (clock E (S (w_ticks w)))))
       /\ d !! "updatedAt"%string = Some (VDate (Some (clock E (S (S (w_ticks w)))))))
  /\ (forall eventData,
        let (r, w') := DatabaseService.addEvent E this eventData w in
        forall d, r = Return (PDoc d) ->
          events w' = events w ++ [d]
          /\ d !! "createdAt"%string = Some (VDate (Some (clock E (S (w_ticks w)))))
          /\ d !! "updatedAt"%string = Some (VDate (Some (clock E (S (S (w_ticks w)))))))
  /\ (forall blogData,
        let (r, w') := DatabaseService.addBlog E this blogData w in
        forall d, r = Return (PDoc d) ->
          blogs w' = blogs w ++ [d]
          /\ field d "createdAt" = VDate (Some (clock E (w_ticks w)))
          /\ field d "updatedAt" = VDate (Some (clock E (S (w_ticks w)))))
  /\ (forall req,
        let (r, w') := Join.handler E req w in
        forall resp, r = Return resp -> sent resp = JMessage "Thanks for joining!" ->
          exists d,
            members w' = members w ++ [d]
            /\ d !! "createdAt"%string = Some (VDate (Some (clock E (w_ticks w))))
            /\ d !! "updatedAt"%string = None)
  /\ (forall req,
        let (r, w') := Insert.handler E req w in
        forall resp, r = Return resp -> status resp = 200 ->
          exists d d',
            body req = Obj d
            /\ members w' = members w ++ [d']
            /\ (forall k, k <> "_id"%string -> d' !! k = d !! k)).
Proof.
  split; [|split; [|split; [|split]]].
  - intros memberData.
    pose proof (registerMember_creates E this memberData w) as H. cbv zeta in H.
    destruct (DatabaseService.registerMember E this memberData w) as [r w'].
    intros d Hd. destruct H as (_ & _ & [(_ & Hno & _)|Hyes]);
      [now destruct (Hno d)|].
    destruct Hyes as (e & d' & _ & _ & _ & Hr & Hm & _ & _ & Hc & Hu).
    rewrite Hr in Hd. injection Hd as <-. auto.
  - intros eventData.
    pose proof (addEvent_creates E this eventData w) as H. cbv zeta in H.
    destruct (DatabaseService.addEvent E this eventData w) as [r w'].
    intros d Hd. destruct H as (_ & _ & [(_ & Hno & _)|Hyes]);
      [now destruct (Hno d)|].
    destruct Hyes as (d' & Hr & Hev & _ & _ & _ & _ & Hc & Hu).
    rewrite Hr in Hd. injection Hd as <-. auto.
  - intros blogData.
    pose proof (addBlog_creates E this blogData w) as H. cbv zeta in H.
    destruct (DatabaseService.addBlog E this blogData w) as [r w'].
    intros d Hd. destruct H as (_ & _ & [(_ & Hno & _)|Hyes]);
      [now destruct (Hno d)|].
    destruct Hyes as (o & author & d' & _ & _ & Hr & Hb & _ & _ & _ & _ & Hc & Hu).
    rewrite Hr in Hd. injection Hd as <-. auto.
  - intros req.
    pose proof (join_creates E req w) as H. cbv zeta in H.
    destruct (Join.handler E req w) as [r w'].
    intros resp Hresp Hsent. destruct H as (resp' & Hr & _ & _ & H).
    assert (resp' = resp) as -> by congruence.
    destruct H as [(_ & Hno)|Hyes]; [contradiction|].
    destruct Hyes as (d & _ & _ & Hm & _ & Hc & Hu & _). eauto.
  - intros req.
    pose proof (insert_creates E req w) as H.
    destruct (Insert.handler E req w) as [r w'].
    intros resp Hresp Hst. destruct H as (resp' & Hr & _ & _ & H).
    assert (resp' = resp) as -> by congruence.
    destruct H as [(_ & Hno)|Hyes]; [contradiction|].
    destruct Hyes as (d & d' & id & Hb & _ & _ & Hm & _ & Hk). eauto.
Qed.

(** A member who supplies timestamps of her own gets the server's. *)
Lemma creation_timestamps_witness :
  exists d,
    fst (DatabaseService.registerMember Sample.env Sample.this
           (Obj (<["name" := VStr "Eve"]> (<["email" := VStr "eve@club.org"]> (
                 <["createdAt" := VStr "1999-01-01"]> ∅))))
           (boot [] [] []))
    = Return (PDoc d)
    /\ d !! "createdAt"%string = Some (VDate (Some 1767225600001))
    /\ d !! "updatedAt"%string = Some (VDate (Some 1767225600002)).
Proof.
  pose proof (creation_timestamps Sample.env Sample.this (boot [] [] [])) as (H & _).
  specialize (H (Obj (<["name" := VStr "Eve"]> (<["email" := VStr "eve@club.org"]> (
                      <["createdAt" := VStr "1999-01-01"]> ∅))))).
  assert (match fst (DatabaseService.registerMember Sample.env Sample.this
                       (Obj (<["name" := VStr "Eve"]> (
                             <["email" := VStr "eve@club.org"]> (
                             <["createdAt" := VStr "1999-01-01"]> ∅))))
                       (boot [] [] []))
          with Return (PDoc _) => true | _ => false end = true) as Hdoc
      by (vm_compute; reflexivity).
  destruct (DatabaseService.registerMember Sample.env Sample.this _ _) as [r w'].
  cbn [fst] in *. destruct r as [[| |d|]|]; try discriminate.
  destruct (H d eq_refl) as (_ & Hc & Hu).
  exists d. split; [reflexivity|]. split; [exact Hc|exact Hu].
Defined.

(** C4, as stated, fails: the member the join handler stores has no
    [updatedAt], and the one the bare insert handler stores has neither
    timestamp. *)
Lemma creation_timestamps_counterexample :
  map (fun d => (d !! "createdAt"%string, d !! "updatedAt"%string))
      (members (snd (Join.handler Sample.env
                       (Sample.post (<["name" := VStr "Eve"]> (
                                     <["email" := VStr "eve@club.org"]> ∅)))
                       (boot [] [] []))))
  = [(Some (VDate (Some 1767225600000)), None)]
  /\ map (fun d => (d !! "createdAt"%string, d !! "updatedAt"%string))
         (members (snd (Insert.handler Sample.env
                          (Sample.post (<["name" := VStr "Eve"]> (
                                        <["email" := VStr "eve@club.org"]> ∅)))
                          (boot [] [] []))))
     = [(None, None)].
Proof. split; vm_compute; reflexivity. Qed.

(** ** The router *)

Lemma resource_named_Some a res :
  resource_named a = Some res ->
  (a = "members" /\ res = OnCollection Members)%string
  \/ (a = "events" /\ res = OnCollection Events)%string
  \/ (a = "blogs" /\ res = OnCollection Blogs)%string
  \/ (a = "dashboard" /\ res = Aggregate)%string
  \/ (a = "activity" /\ res = Aggregate)%string
  \/ (a = "stats" /\ res = Aggregate)%string.
Proof.
  unfold resource_named.
  repeat (match goal with
          | |- context [String.eqb a ?b] =>
              destruct (String.eqb_spec a b);
              [intros [= <-]; subst a; tauto|]
          end).
  discriminate.
Qed.

Lemma resource_named_None a :
  resource_named a = None ->
  String.eqb a "members" = false /\ String.eqb a "events" = false
  /\ String.eqb a "blogs" = false /\ String.eqb a "dashboard" = false
  /\ String.eqb a "activity" = false /\ String.eqb a "stats" = false.
Proof.
  unfold resource_named.
  repeat (match goal with
          | |- context [if String.eqb a ?b then _ else _] =>
              destruct (String.eqb a b); [discriminate|]
          end).
  tauto.
Qed.

Ltac router_unfold :=
  unfold calls_of, Database.handler, Database.switch_action,
    Database.members_endpoint, Database.events_endpoint, Database.blogs_endpoint,
    Database.dashboard_endpoint, Database.activity_endpoint, Database.stats_endpoint,
    Database.method_not_allowed, Database.server_error, Database.ok,
    Database.reply, Database.on.

(** C5 (amended). A preflight request ([OPTIONS]) is answered 200 before
    the action is looked at. For every other request: an action outside
    members, events, blogs, dashboard, activity and stats is answered 400
    'Invalid action'; a supported action with an unsupported method is
    answered 405 'Method not allowed'; in both cases no service method is
    called. A supported action with a supported method calls exactly one
    service method, on the collection the action names (or a dashboard
    aggregate), except that PUT and DELETE without an [id] call none and
    are answered 500. *)
Theorem router_dispatch (E : Env) (req : Request) :
  (method req = "OPTIONS"%string ->
   forall S (svc : Api.t S) s,
     Database.handler E svc req s
     = (Return (mkResponse 200 (Database.setHeaders req) JEnd), s))
  /\ (method req <> "OPTIONS"%string ->
      let action := field (query req) "action" in
      ((forall a, action = VStr a -> resource_named a = None) ->
       forall S (svc : Api.t S) s,
         Database.handler E svc req s
         = (Return (mkResponse 400 (Database.setHeaders req)
                      (JError "Invalid action" None)), s))
      /\ (forall a res, action = VStr a -> resource_named a = Some res ->
            supported a (method req) = false ->
            forall S (svc : Api.t S) s,
              Database.handler E svc req s
              = (Return (mkResponse 405 (Database.setHeaders req)
                           (JError "Method not allowed" None)), s))
      /\ (forall a res, action = VStr a -> resource_named a = Some res ->
            supported a (method req) = true ->
            (exists c, calls_of E req = [c] /\ resource_of c = res)
            \/ (calls_of E req = []
                /\ (method req = "PUT"%string \/ method req = "DELETE"%string)
                /\ truthy (field (query req) "id") = false
                /\ forall S (svc : Api.t S) s,
                     exists resp, Database.handler E svc req s = (Return resp, s)
                                  /\ status resp = 500))).
Proof.
  split.
  - intros Hm S svc s. unfold Database.handler, Database.on, Database.reply.
    rewrite Hm. reflexivity.
  - intros Hm action.
    assert (String.eqb (method req) "OPTIONS" = false) as Hopt
        by now apply String.eqb_neq.
    split; [|split].
    + intros Hbad S svc s. router_unfold. rewrite Hopt. fold action.
      destruct action as [| | | |a| | |]; try reflexivity.
      destruct (resource_named_None a (Hbad a eq_refl))
        as (H1 & H2 & H3 & H4 & H5 & H6).
      unfold try_catch. now rewrite H1, H2, H3, H4, H5, H6.
    + intros a res Ha Hres Hsup S svc s. router_unfold. rewrite Hopt.
      fold action. rewrite Ha. clear Ha. unfold supported in Hsup. rewrite Hres in Hsup.
      destruct (resource_named_Some a res Hres)
        as [[-> ->]|[[-> ->]|[[-> ->]|[[-> ->]|[[-> ->]|[-> ->]]]]]];
        cbn [String.eqb Ascii.eqb Bool.eqb] in *;
        repeat (apply orb_false_elim in Hsup as [Hsup ?]);
        repeat match goal with H : String.eqb _ _ = false |- _ => rewrite H; clear H end;
        reflexivity.
    + intros a res Ha Hres Hsup. unfold supported in Hsup. rewrite Hres in Hsup.
      assert (method req = "GET" \/ method req = "POST"
              \/ method req = "PUT" \/ method req = "DELETE")%string as Hmeth.
      { destruct res; rewrite ?orb_true_iff, ?String.eqb_eq in Hsup; tauto. }
      assert (res = Aggregate -> method req = "GET"%string) as Hagg.
      { intros ->. now apply String.eqb_eq. }
      router_unfold. rewrite Hopt. fold action. rewrite Ha. clear Ha Hsup.
      destruct (resource_named_Some a res Hres)
        as [[-> ->]|[[-> ->]|[[-> ->]|[[-> ->]|[[-> ->]|[-> ->]]]]]];
        try (rewrite (Hagg eq_refl) in *; clear Hmeth Hagg Hopt Hm;
             cbn [String.eqb Ascii.eqb Bool.eqb];
             left; eexists; split; reflexivity);
        clear Hagg;
        destruct Hmeth as [Hmeth|[Hmeth|[Hmeth|Hmeth]]];
        rewrite Hmeth in *; clear Hopt Hm;
        cbn [String.eqb Ascii.eqb Bool.eqb];
        repeat match goal with
               | |- context [truthy ?v] => destruct (truthy v) eqn:?
               end;
        first [ left; eexists; split; reflexivity
              | right; (split; [reflexivity|]); (split; [tauto|]);
                (split; [reflexivity|]); intros; eexists; split; reflexivity ].
Qed.

(** A POST on members calls [registerMember], and nothing else. *)
Lemma router_dispatch_witness :
  exists c,
    calls_of Sample.env
      (mkRequest "POST" None {[ "action"%string := VStr "members" ]} (Obj ∅)) = [c]
    /\ resource_of c = OnCollection Members.
Proof.
  pose proof (router_dispatch Sample.env
                (mkRequest "POST" None {[ "action"%string := VStr "members" ]} (Obj ∅)))
    as [_ H].
  assert (method (mkRequest "POST" None {[ "action"%string := VStr "members" ]} (Obj ∅))
          <> "OPTIONS"%string) as Hm by discriminate.
  destruct (H Hm) as (_ & _ & Hcall).
  assert (field (query (mkRequest "POST" None {[ "action"%string := VStr "members" ]}
                          (Obj ∅))) "action" = VStr "members") as Ha
      by (vm_compute; reflexivity).
  assert (resource_named "members" = Some (OnCollection Members)) as Hres
      by (vm_compute; reflexivity).
  assert (supported "members"
            (method (mkRequest "POST" None {[ "action"%string := VStr "members" ]}
                       (Obj ∅))) = true) as Hsup by (vm_compute; reflexivity).
  destruct (Hcall "members"%string (OnCollection Members) Ha Hres Hsup)
    as [Hone|(_ & [Hput|Hdel] & _)]; [exact Hone|discriminate|discriminate].
Defined.

(** C5, as stated, fails: a preflight request is answered 200 whatever
    its action, be it outside the six or one that does not support
    [OPTIONS]. *)
Lemma router_counterexample :
  resource_named "nope" = None
  /\ fst (Database.handler Sample.env recorder
            (mkRequest "OPTIONS" None {[ "action"%string := VStr "nope" ]}
               (Prim VUndefined)) [])
     = Return (mkResponse 200
                 (Database.setHeaders
                    (mkRequest "OPTIONS" None {[ "action"%string := VStr "nope" ]}
                       (Prim VUndefined)))
                 JEnd)
  /\ resource_named "stats" = Some Aggregate
  /\ supported "stats" "OPTIONS" = false
  /\ fst (Database.handler Sample.env recorder
            (mkRequest "OPTIONS" None {[ "action"%string := VStr "stats" ]}
               (Prim VUndefined)) [])
     = Return (mkResponse 200
                 (Database.setHeaders
                    (mkRequest "OPTIONS" None {[ "action"%string := VStr "stats" ]}
                       (Prim VUndefined)))
                 JEnd).
Proof. repeat split; vm_compute; reflexivity. Qed.

(** ** Sorting *)

Section InsertionSort.
Context {A : Type} (before : A -> A -> bool) (P : A -> Prop).
Hypothesis before_total :
  forall a b, P a -> P b -> before a b = false -> before b a = true.
Hypothesis before_trans :
  forall a b c, P a -> P b -> P c ->
                before a b = true -> before b c = true -> before a c = true.

Lemma insert_by_perm a l : Permutation (insert_by before a l) (a :: l).
Proof.
  induction l as [|x l IH]; simpl; [reflexivity|].
  destruct (before a x); [reflexivity|].
  rewrite IH. apply perm_swap.
Qed.

Lemma sort_by_perm l : Permutation (sort_by before l) l.
Proof.
  induction l as [|a l IH]; simpl; [reflexivity|].
  rewrite insert_by_perm. now constructor.
Qed.

Lemma sort_by_length l : length (sort_by before l) = length l.
Proof. apply Permutation_length, sort_by_perm. Qed.

Lemma insert_by_sorted a l :
  P a -> Forall P l ->
  StronglySorted (fun x y => before x y = true) l ->
  StronglySorted (fun x y => before x y = true) (insert_by before a l).
Proof.
  intros Ha HP Hs. induction Hs as [|x l Hs IH Hx]; simpl.
  - repeat constructor.
  - apply Forall_cons_1 in HP as [Px Pl]. destruct (before a x) eqn:Hax.
    + constructor; [now constructor|]. constructor; [exact Hax|].
      rewrite Forall_forall in Hx, Pl. apply Forall_forall. intros y Hy.
      apply (before_trans a x y); auto.
    + constructor; [now apply IH|].
      apply Forall_forall. intros y Hy.
      apply list_elem_of_In in Hy.
      apply (Permutation_in _ (insert_by_perm a l)) in Hy. destruct Hy as [<-|Hy].
      * now apply before_total.
      * rewrite Forall_forall in Hx. apply Hx. now apply list_elem_of_In.
Qed.

Lemma sort_by_sorted l :
  Forall P l -> StronglySorted (fun x y => before x y = true) (sort_by before l).
Proof.
  induction l as [|a l IH]; simpl; intros HP; [constructor|].
  apply Forall_cons_1 in HP as [Pa Pl].
  apply insert_by_sorted; auto.
  apply Forall_forall. intros x Hx. rewrite Forall_forall in Pl. apply Pl.
  apply list_elem_of_In. apply (Permutation_in _ (sort_by_perm l)).
  now apply list_elem_of_In.
Qed.

End InsertionSort.

Lemma StronglySorted_app_inv {A} (R : A -> A -> Prop) (l1 l2 : list A) :
  StronglySorted R (l1 ++ l2) ->
  StronglySorted R l1 /\ forall a b, In a l1 -> In b l2 -> R a b.
Proof.
  induction l1 as [|x l1 IH]; simpl; intros H.
  - split; [constructor|]. intros a b [].
  - apply StronglySorted_inv in H as [Hs Hx]. destruct (IH Hs) as [H1 H2].
    split.
    + constructor; [exact H1|]. apply Forall_forall. intros y Hy.
      rewrite Forall_forall in Hx. apply Hx. apply list_elem_of_In.
      apply in_or_app. left. now apply list_elem_of_In.
    + intros a b [<-|Ha] Hb; [|now apply H2].
      rewrite Forall_forall in Hx. apply Hx. apply list_elem_of_In.
      apply in_or_app. now right.
Qed.

(** *** The order of MongoDB *)

Lemma String_leb_trans (a b c : string) :
  String.leb a b = true -> String.leb b c = true -> String.leb a c = true.
Proof.
  unfold String.leb. revert b c.
  induction a as [|x a IH]; intros [|y b] [|z c]; simpl; try discriminate; auto.
  unfold Ascii.compare.
  destruct (N.compare_spec (N_of_ascii x) (N_of_ascii y)) as [Hxy|Hxy|Hxy];
    destruct (N.compare_spec (N_of_ascii y) (N_of_ascii z)) as [Hyz|Hyz|Hyz];
    destruct (N.compare_spec (N_of_ascii x) (N_of_ascii z)) as [Hxz|Hxz|Hxz];
    try discriminate; try lia; auto.
  apply IH.
Qed.

Lemma bson_leb_total a b :
  DatabaseService.bson_leb a b = false -> DatabaseService.bson_leb b a = true.
Proof.
  destruct a as [| |x|x|x|x|x|x], b as [| |y|y|y|y|y|y]; simpl;
    try discriminate; try reflexivity; intros H.
  - destruct x, y; simpl in *; auto.
  - apply Z.leb_gt in H. apply Z.leb_le. lia.
  - destruct (String.leb_total x y) as [H'|H']; [congruence|exact H'].
  - apply Z.leb_gt in H. apply Z.leb_le. lia.
  - apply N.leb_gt in H. apply N.leb_le. lia.
Qed.

Lemma bson_leb_trans a b c :
  DatabaseService.bson_leb a b = true -> DatabaseService.bson_leb b c = true ->
  DatabaseService.bson_leb a c = true.
Proof.
  destruct a as [| |x|x|x|x|x|x], b as [| |y|y|y|y|y|y], c as [| |z|z|z|z|z|z];
    simpl; try discriminate; try reflexivity; intros H1 H2.
  - destruct x, y, z; simpl in *; auto.
  - apply Z.leb_le in H1, H2. apply Z.leb_le. lia.
  - now apply (String_leb_trans x y z).
  - apply Z.leb_le in H1, H2. apply Z.leb_le. lia.
  - apply N.leb_le in H1, H2. apply N.leb_le. lia.
Qed.

Lemma insert_desc_by k d l :
  DatabaseService.insert_desc k d l = insert_by (key_before k) d l.
Proof. induction l as [|x l IH]; simpl; [reflexivity|]. now rewrite IH. Qed.

Lemma sort_desc_by k l : DatabaseService.sort_desc k l = sort_by (key_before k) l.
Proof.
  unfold DatabaseService.sort_desc, sort_by.
  induction l as [|d l IH]; simpl; [reflexivity|].
  now rewrite IH, insert_desc_by.
Qed.

(** [find().sort({ k: -1 }).limit(n)] takes the [n] documents with the
    greatest [k]: what it leaves out sorts no higher than what it takes. *)
Lemma top_desc k n l :
  let top := take n (DatabaseService.sort_desc k l) in
  (length top <= n)%nat
  /\ exists rest,
       Permutation l (top ++ rest)
       /\ forall d d', In d top -> In d' rest ->
                       DatabaseService.bson_leb (field d' k) (field d k) = true.
Proof.
  cbv zeta. rewrite sort_desc_by. split; [rewrite length_take; lia|].
  exists (drop n (sort_by (key_before k) l)). rewrite take_drop. split.
  - symmetry. apply sort_by_perm.
  - pose proof (sort_by_sorted (key_before k) (fun _ => True)) as Hs.
    specialize (Hs (fun a b _ _ => bson_leb_total _ _)).
    specialize (Hs (fun a b c _ _ _ Hab Hbc => bson_leb_trans _ _ _ Hbc Hab)).
    specialize (Hs l (Forall_true _ _ (fun _ => I))).
    rewrite <- (take_drop n (sort_by (key_before k) l)) in Hs.
    apply StronglySorted_app_inv in Hs as [_ Hs]. exact Hs.
Qed.

(** *** The sort of the activities *)

Lemma js_insert_by {A} (cmp : A -> A -> number) a l :
  DatabaseService.js_insert cmp a l = insert_by (js_before cmp) a l.
Proof.
  induction l as [|x l IH]; simpl; [reflexivity|]. unfold js_before.
  destruct (cmp a x) as [n|]; [|reflexivity].
  destruct (0 <? n); simpl; [now rewrite IH|reflexivity].
Qed.

Lemma js_sort_by {A} (cmp : A -> A -> number) l :
  DatabaseService.js_sort cmp l = sort_by (js_before cmp) l.
Proof.
  unfold DatabaseService.js_sort, sort_by.
  induction l as [|a l IH]; simpl; [reflexivity|].
  now rewrite IH, js_insert_by.
Qed.

Lemma StronglySorted_weaken {A} (P : A -> Prop) (R R' : A -> A -> Prop) l :
  (forall a b, P a -> P b -> R a b -> R' a b) ->
  Forall P l -> StronglySorted R l -> StronglySorted R' l.
Proof.
  intros Himp HP Hs. induction Hs as [|x l Hs IH Hx]; [constructor|].
  apply Forall_cons_1 in HP as [Px Pl]. constructor; [now apply IH|].
  rewrite Forall_forall in *. intros y Hy. apply Himp; auto.
Qed.

Lemma StronglySorted_take {A} (R : A -> A -> Prop) n l :
  StronglySorted R l -> StronglySorted R (take n l).
Proof.
  intros H. rewrite <- (take_drop n l) in H.
  now apply StronglySorted_app_inv in H as [H _].
Qed.

Section Activity.
Context (E : Env).

Lemma by_activityDate_dated a b ta tb :
  time_of "activityDate" a = Some ta -> time_of "activityDate" b = Some tb ->
  DatabaseService.by_activityDate E a b = Int (tb - ta).
Proof.
  unfold time_of, DatabaseService.by_activityDate, DatabaseService.minus.
  destruct (field a "activityDate") as [| | | | |[t|]| |]; try discriminate.
  destruct (field b "activityDate") as [| | | | |[t'|]| |]; try discriminate.
  intros [= ->] [= ->]. reflexivity.
Qed.

(** On activities that all hold a valid date, the comparison function is
    consistent and the result is sorted, newest first. *)
Lemma js_sort_newer_first l :
  Forall (dated "activityDate") l ->
  StronglySorted (newer_first "activityDate")
    (DatabaseService.js_sort (DatabaseService.by_activityDate E) l).
Proof.
  intros Hd. rewrite js_sort_by.
  apply (StronglySorted_weaken (dated "activityDate")
           (fun x y => js_before (DatabaseService.by_activityDate E) x y = true)).
  - intros a b [ta Ha] [tb Hb]. unfold js_before, newer_first.
    rewrite (by_activityDate_dated a b ta tb Ha Hb), Ha, Hb.
    intros H. apply negb_true_iff, Z.ltb_ge in H. lia.
  - apply Forall_forall. intros x Hx. rewrite Forall_forall in Hd. apply Hd.
    now rewrite sort_by_perm in Hx.
  - apply (sort_by_sorted _ (dated "activityDate")); [| |exact Hd].
    + intros a b [ta Ha] [tb Hb]. unfold js_before.
      rewrite (by_activityDate_dated a b ta tb Ha Hb),
        (by_activityDate_dated b a tb ta Hb Ha).
      intros H. apply negb_false_iff, Z.ltb_lt in H.
      apply negb_true_iff, Z.ltb_ge. lia.
    + intros a b c [ta Ha] [tb Hb] [tc Hc]. unfold js_before.
      rewrite (by_activityDate_dated a b ta tb Ha Hb),
        (by_activityDate_dated b c tb tc Hb Hc),
        (by_activityDate_dated a c ta tc Ha Hc).
      intros H1 H2. apply negb_true_iff, Z.ltb_ge in H1, H2.
      apply negb_true_iff, Z.ltb_ge. lia.
Qed.

Lemma slice0_In {A} (l : list A) limit a :
  In a (DatabaseService.slice0 l limit) -> In a l.
Proof.
  unfold DatabaseService.slice0. destruct limit as [n|]; [|intros []].
  destruct (n <? 0); intros H; apply list_elem_of_In in H;
    apply list_elem_of_In; revert H; apply subseteq_take.
Qed.

Lemma slice0_length {A} (l : list A) n :
  0 <= n ->
  Z.of_nat (length (DatabaseService.slice0 l (Int n)))
  <= Z.min n (Z.of_nat (length l)).
Proof.
  intros Hn. unfold DatabaseService.slice0.
  destruct (Z.ltb_spec n 0); [lia|]. rewrite length_take. lia.
Qed.

Lemma slice0_sorted {A} (R : A -> A -> Prop) (l : list A) limit :
  StronglySorted R l -> StronglySorted R (DatabaseService.slice0 l limit).
Proof.
  intros H. unfold DatabaseService.slice0. destruct limit as [n|]; [|constructor].
  destruct (n <? 0); now apply StronglySorted_take.
Qed.

Lemma activity_date type description date :
  field (DatabaseService.activity type description date) "activityDate" = date.
Proof.
  unfold DatabaseService.activity.
  rewrite !field_prop_ne by discriminate. apply field_prop_fresh, lookup_empty.
Qed.

End Activity.

Lemma wp_find_sort_limit c k n (Q : outcome (list doc) -> World -> Prop) w :
  Q (Return (take n (DatabaseService.sort_desc k (collection c w)))) w ->
  wp (DatabaseService.find_sort_limit c k n) Q w.
Proof. exact id. Qed.

(** C10 (amended). [getRecentActivity] changes nothing, and what it
    returns is drawn from the (at most) five members with the greatest
    [joinedAt] and the five blogs and five events with the greatest
    [createdAt]: a document outside the top five of its kind gives no
    entry, whatever the limit. For a limit that is a non-negative integer
    (10 when it is left out) at most [min(limit, 15)] entries are returned.
    When every member holds a valid [joinedAt] date and every blog and
    event a valid [createdAt] date, the entries are sorted by
    [activityDate], newest first. *)
Theorem getRecentActivity_bounds (E : Env) (this : Service) (limit : option number)
    (w : World) :
  let (r, w') := DatabaseService.getRecentActivity E this limit w in
  store w' = store w
  /\ forall acts, r = Return (PDocs acts) ->
       exists ms bs es rm rb re,
         (length ms <= 5 /\ length bs <= 5 /\ length es <= 5)%nat
         /\ (Permutation (members w) (ms ++ rm)
             /\ forall d d', In d ms -> In d' rm ->
                  DatabaseService.bson_leb (field d' "joinedAt") (field d "joinedAt")
                  = true)
         /\ (Permutation (blogs w) (bs ++ rb)
             /\ forall d d', In d bs -> In d' rb ->
                  DatabaseService.bson_leb (field d' "createdAt") (field d "createdAt")
                  = true)
         /\ (Permutation (events w) (es ++ re)
             /\ forall d d', In d es -> In d' re ->
                  DatabaseService.bson_leb (field d' "createdAt") (field d "createdAt")
                  = true)
         /\ (forall a, In a acts ->
               In a (map (DatabaseService.member_joined E) ms
                     ++ map (DatabaseService.blog_published E) bs
                     ++ map (DatabaseService.event_created E) es))
         /\ (forall n, default (Int 10) limit = Int n -> 0 <= n ->
               Z.of_nat (length acts) <= Z.min n 15)
         /\ (Forall (dated "joinedAt") (members w) ->
             Forall (dated "createdAt") (blogs w) ->
             Forall (dated "createdAt") (events w) ->
             StronglySorted (newer_first "activityDate") acts).
Proof.
  wp_goal. unfold DatabaseService.getRecentActivity, DatabaseService.by_dbType.
  destruct (String.eqb (dbType this) "mongodb");
    [|destruct (String.eqb (dbType this) "mysql");
      (split; [reflexivity|intros acts; discriminate])].
  wp_step wp_connectToMongoDB. intros [c|e] w1 Hst _ _;
    [|split; [exact Hst|intros acts; discriminate]].
  wp_step wp_find_sort_limit. wp_step wp_find_sort_limit.
  wp_step wp_find_sort_limit. apply wp_ret.
  split; [exact Hst|]. intros acts [= <-].
  unfold store in Hst. injection Hst as Hm Hev Hb. cbn [collection].
  rewrite Hm, Hev, Hb.
  destruct (top_desc "joinedAt" 5 (members w)) as (Lm & rm & Pm & Tm).
  destruct (top_desc "createdAt" 5 (blogs w)) as (Lb & rb & Pb & Tb).
  destruct (top_desc "createdAt" 5 (events w)) as (Le & re & Pe & Te).
  set (ms := take 5 (DatabaseService.sort_desc "joinedAt" (members w))) in *.
  set (bs := take 5 (DatabaseService.sort_desc "createdAt" (blogs w))) in *.
  set (es := take 5 (DatabaseService.sort_desc "createdAt" (events w))) in *.
  exists ms, bs, es, rm, rb, re.
  split; [auto|]. split; [auto|]. split; [auto|]. split; [auto|]. split; [|split].
  - intros a Ha. apply slice0_In in Ha.
    apply (Permutation_in _ (Permutation_sym (Permutation_sym
             (eq_ind_r (fun l => Permutation l _) (sort_by_perm _ _)
                (js_sort_by (DatabaseService.by_activityDate E) _))))) in Ha.
    exact Ha.
  - intros n -> Hn.
    pose proof (slice0_length
                  (DatabaseService.js_sort (DatabaseService.by_activityDate E)
                     (map (DatabaseService.member_joined E) ms
                      ++ map (DatabaseService.blog_published E) bs
                      ++ map (DatabaseService.event_created E) es)) n Hn) as H.
    assert (forall l : list doc,
              length (DatabaseService.js_sort (DatabaseService.by_activityDate E) l)
              = length l) as Hlen
        by (intros l; rewrite js_sort_by; apply sort_by_length).
    rewrite Hlen, !length_app, !length_map in H. lia.
  - intros Dm Db De. apply slice0_sorted, js_sort_newer_first.
    assert (forall k (l top rest : list doc) (f : doc -> doc),
              Permutation l (top ++ rest) -> Forall (dated k) l ->
              (forall d, dated k d -> dated "activityDate" (f d)) ->
              Forall (dated "activityDate") (map f top)) as Hdated.
    { intros k l top rest f Hp Hl Hf. apply Forall_forall. intros a Ha.
      apply list_elem_of_In, in_map_iff in Ha as (d & <- & Hd).
      apply Hf. rewrite Forall_forall in Hl. apply Hl.
      rewrite Hp. apply list_elem_of_In, in_or_app. now left. }
    assert (forall k type description (d : doc),
              dated k d ->
              dated "activityDate" (DatabaseService.activity type description (field d k)))
      as Hact.
    { intros k type description d [t Ht]. exists t.
      unfold time_of in *. now rewrite activity_date. }
    repeat apply Forall_app_2.
    + apply (Hdated "joinedAt"%string (members w) ms rm); auto.
      intros d Hd. now apply Hact.
    + apply (Hdated "createdAt"%string (blogs w) bs rb); auto.
      intros d Hd. now apply Hact.
    + apply (Hdated "createdAt"%string (events w) es re); auto.
      intros d Hd. now apply Hact.
Qed.

(** With a limit of two, two entries come back, newest first. *)
Lemma getRecentActivity_bounds_witness :
  exists acts,
    fst (DatabaseService.getRecentActivity Sample.env Sample.this (Some (Int 2))
           (boot [Sample.ada] [Sample.talk] [Sample.essay; Sample.notes]))
    = Return (PDocs acts)
    /\ Z.of_nat (length acts) <= 2
    /\ StronglySorted (newer_first "activityDate") acts.
Proof.
  pose proof (getRecentActivity_bounds Sample.env Sample.this (Some (Int 2))
                (boot [Sample.ada] [Sample.talk] [Sample.essay; Sample.notes])) as H.
  assert (match fst (DatabaseService.getRecentActivity Sample.env Sample.this
                       (Some (Int 2))
                       (boot [Sample.ada] [Sample.talk] [Sample.essay; Sample.notes]))
          with Return (PDocs _) => true | _ => false end = true) as Hdocs
      by (vm_compute; reflexivity).
  destruct (DatabaseService.getRecentActivity Sample.env Sample.this _ _) as [r w'].
  cbn [fst] in *. destruct r as [[| | |acts]|]; try discriminate.
  destruct H as [_ H].
  destruct (H acts eq_refl)
    as (ms & bs & es & rm & rb & re & _ & _ & _ & _ & _ & Hlen & Hsorted).
  exists acts. split; [reflexivity|]. split.
  - specialize (Hlen 2 eq_refl ltac:(lia)). lia.
  - apply Hsorted; cbn [boot members blogs events];
      repeat constructor; eexists; vm_compute; reflexivity.
Defined.

(** C10, as stated, fails twice. A negative limit does not bound the
    result by [min(limit, 15)]: with -1, one entry of two comes back. And
    a member without [joinedAt] (one the join handler created) yields a
    comparison that is [NaN]: the result is not sorted, Ada's entry of
    2023 coming before the blog of 2024. *)
Lemma getRecentActivity_counterexample :
  match fst (DatabaseService.getRecentActivity Sample.env Sample.this
               (Some (Int (-1))) (boot [Sample.ada] [] [Sample.essay]))
  with
  | Return (PDocs acts) => Some (Z.of_nat (length acts))
  | _ => None
  end = Some 1
  /\ ~ (1 <= Z.min (-1) 15)
  /\ match fst (DatabaseService.getRecentActivity Sample.env Sample.this None
                  (boot [Sample.ada; Sample.bob] [] [Sample.essay]))
     with
     | Return (PDocs acts) => Some (map (fun a => field a "activityDate") acts)
     | _ => None
     end = Some [VDate (Some 1700000000000); VUndefined; VDate (Some 1720000000000)]
  /\ 1700000000000 < 1720000000000.
Proof.
  split; [vm_compute; reflexivity|]. split; [lia|].
  split; [vm_compute; reflexivity|lia].
Qed.

(** ** Reading the collections *)

Lemma insert_asc_by k d l :
  DatabaseService.insert_asc k d l = insert_by (key_after k) d l.
Proof. induction l as [|x l IH]; simpl; [reflexivity|]. now rewrite IH. Qed.

Lemma sort_asc_by k l : DatabaseService.sort_asc k l = sort_by (key_after k) l.
Proof.
  unfold DatabaseService.sort_asc, sort_by.
  induction l as [|d l IH]; simpl; [reflexivity|].
  now rewrite IH, insert_asc_by.
Qed.

Lemma sort_desc_perm k l : Permutation (DatabaseService.sort_desc k l) l.
Proof. rewrite sort_desc_by. apply sort_by_perm. Qed.

Lemma sort_asc_perm k l : Permutation (DatabaseService.sort_asc k l) l.
Proof. rewrite sort_asc_by. apply sort_by_perm. Qed.

Lemma sort_desc_sorted k l : sorted_desc k (DatabaseService.sort_desc k l).
Proof.
  rewrite sort_desc_by.
  apply (sort_by_sorted (key_before k) (fun _ => True)).
  - intros a b _ _. apply bson_leb_total.
  - intros a b c _ _ _ Hab Hbc. exact (bson_leb_trans _ _ _ Hbc Hab).
  - apply Forall_true. exact (fun _ => I).
Qed.

Lemma sort_asc_sorted k l : sorted_asc k (DatabaseService.sort_asc k l).
Proof.
  rewrite sort_asc_by.
  apply (sort_by_sorted (key_after k) (fun _ => True)).
  - intros a b _ _. apply bson_leb_total.
  - intros a b c _ _ _ Hab Hbc. exact (bson_leb_trans _ _ _ Hab Hbc).
  - apply Forall_true. exact (fun _ => I).
Qed.


Section Reading.
Context (E : Env) (H : Host) (this : Service).
Hypothesis mongodb : dbType this = "mongodb"%string.

Lemma page_is_page k l s all :
  DatabaseService.in_range l = true -> DatabaseService.in_range s = true ->
  exists pg,
    DatabaseService.page H (Int l) (Int s) (DatabaseService.sort_desc k all) = Return pg
    /\ is_page k l s all pg.
Proof.
  intros Hl Hs. unfold DatabaseService.page. rewrite Hl, Hs. cbn [andb].
  set (srt := DatabaseService.sort_desc k all).
  assert (length srt = length all) as Hlen
      by apply Permutation_length, sort_desc_perm.
  eexists. split; [reflexivity|].
  exists (take (Z.to_nat s) srt).
  exists (if l =? 0 then [] else drop (Z.to_nat l) (drop (Z.to_nat s) srt)).
  assert (take (Z.to_nat s) srt
            ++ (if l =? 0 then drop (Z.to_nat s) srt
                else take (Z.to_nat l) (drop (Z.to_nat s) srt))
            ++ (if l =? 0 then [] else drop (Z.to_nat l) (drop (Z.to_nat s) srt))
          = srt) as Heq.
  { destruct (l =? 0); [now rewrite app_nil_r, take_drop|].
    now rewrite !take_drop. }
  rewrite Heq. split; [symmetry; apply sort_desc_perm|].
  split; [apply sort_desc_sorted|].
  split; [rewrite length_take; lia|].
  destruct (l =? 0); [reflexivity|].
  rewrite length_take, length_drop, length_take. lia.
Qed.

Lemma find_page_online c k l s w :
  DatabaseService.in_range l = true -> DatabaseService.in_range s = true ->
  exists pg,
    DatabaseService.find_page H c k (Int l) (Int s) w = (Return pg, w)
    /\ is_page k l s (collection c w) pg.
Proof.
  intros Hl Hs. destruct (page_is_page k l s (collection c w) Hl Hs) as (pg & Hp & Hpg).
  exists pg. split; [|exact Hpg].
  unfold DatabaseService.find_page. monad_unfold. now rewrite Hp.
Qed.

(** X1. [getMembers] pages through the members by decreasing [joinedAt]:
    with the MongoDB backend, a reachable database and a limit and a skip
    that are whole numbers from 0 (100 and 0 when left out), it changes no
    collection and returns the members that follow the first [skip] in
    that order, [limit] of them at most, and all of them when the limit is
    0. *)
Theorem getMembers_page (limit skip : option number) (l s : Z) (w : World) :
  online E w = true ->
  default (Int 100) limit = Int l -> default (Int 0) skip = Int s ->
  DatabaseService.in_range l = true -> DatabaseService.in_range s = true ->
  let (r, w') := DatabaseService.getMembers E this H limit skip w in
  store w' = store w
  /\ exists pg, r = Return (PDocs pg) /\ is_page "joinedAt" l s (members w) pg.
Proof.
  intros Hon Hlimit Hskip Hl Hs. destruct (online_connect E w Hon) as [c Hc].
  destruct (find_page_online Members "joinedAt" l s (connected E w) Hl Hs)
    as (pg & Hpg & Hpage).
  unfold DatabaseService.getMembers. rewrite Hlimit, Hskip.
  rewrite (by_dbType_mongodb this mongodb). monad_unfold. rewrite Hc, Hpg.
  split; [apply connected_store|]. exists pg. split; [reflexivity|].
  cbn [collection] in Hpage. now rewrite connected_members in Hpage.
Qed.

(** X2. [getBlogs] pages through the blogs by decreasing [createdAt], 50 at a
    time when no limit is given. *)
Theorem getBlogs_page (limit skip : option number) (l s : Z) (w : World) :
  online E w = true ->
  default (Int 50) limit = Int l -> default (Int 0) skip = Int s ->
  DatabaseService.in_range l = true -> DatabaseService.in_range s = true ->
  let (r, w') := DatabaseService.getBlogs E this H limit skip w in
  store w' = store w
  /\ exists pg, r = Return (PDocs pg) /\ is_page "createdAt" l s (blogs w) pg.
Proof.
  intros Hon Hlimit Hskip Hl Hs. destruct (online_connect E w Hon) as [c Hc].
  destruct (find_page_online Blogs "createdAt" l s (connected E w) Hl Hs)
    as (pg & Hpg & Hpage).
  unfold DatabaseService.getBlogs. rewrite Hlimit, Hskip.
  rewrite (by_dbType_mongodb this mongodb). monad_unfold. rewrite Hc, Hpg.
  split; [apply connected_store|]. exists pg. split; [reflexivity|].
  cbn [collection] in Hpage. now rewrite connected_blogs in Hpage.
Qed.

End Reading.


Section Lookups.
Context (E : Env) (H : Host) (this : Service).
Hypothesis mongodb : dbType this = "mongodb"%string.

Lemma find_by_id_found c id o w :
  ObjectId_parse E id = Some o ->
  DatabaseService.find_by_id E c id w
  = (Return (match List.find (has_id o) (collection c w) with
             | Some d => PDoc d
             | None => PNull
             end), w).
Proof.
  intros Ho. unfold DatabaseService.find_by_id, new_ObjectId, findOne.
  monad_unfold. rewrite Ho. reflexivity.
Qed.

Lemma get_by_id_unfold c id w :
  online E w = true ->
  get_by_id E this c id w = DatabaseService.find_by_id E c id (connected E w).
Proof.
  intros Hon. destruct (online_connect E w Hon) as [h Hh].
  destruct c; unfold get_by_id, DatabaseService.getMemberById,
    DatabaseService.getEventById, DatabaseService.getBlogById;
    rewrite (by_dbType_mongodb this mongodb); monad_unfold; now rewrite Hh.
Qed.

Lemma connected_collection c w : collection c (connected E w) = collection c w.
Proof.
  destruct c; cbn [collection];
    auto using connected_members, connected_events, connected_blogs.
Qed.

(** X3. [getMemberById], [getEventById] and [getBlogById] never report a
    missing document as an error. With the MongoDB backend and a
    reachable database they change no collection; an identifier the
    [ObjectId] constructor rejects makes them throw its error; for one it
    accepts they resolve to [null] when the collection holds no document
    with it, and otherwise to the first document that has it. *)
Theorem get_by_id_lookup (c : coll_name) (id : value) (w : World) :
  online E w = true ->
  let (r, w') := get_by_id E this c id w in
  store w' = store w
  /\ (ObjectId_parse E id = None -> r = Throw (DriverError "BSONError"))
  /\ forall o, ObjectId_parse E id = Some o ->
       ((forall d, In d (collection c w) -> field d "_id" <> VObjectId o) ->
        r = Return PNull)
       /\ ((exists d, In d (collection c w) /\ field d "_id" = VObjectId o) ->
           exists pre d post,
             collection c w = pre ++ d :: post
             /\ field d "_id" = VObjectId o
             /\ (forall d', In d' pre -> field d' "_id" <> VObjectId o)
             /\ r = Return (PDoc d)).
Proof.
  intros Hon. rewrite (get_by_id_unfold c id w Hon).
  destruct (ObjectId_parse E id) as [o|] eqn:Ho.
  - rewrite (find_by_id_found c id o _ Ho), connected_collection.
    split; [apply connected_store|]. split; [discriminate|].
    intros o' [= <-]. split.
    + intros Habs. rewrite find_absent; [reflexivity|].
      intros d Hd. apply bool_decide_eq_false. auto.
    + intros (d & Hin & Hd).
      destruct (find_present (has_id o) _ d Hin) as [d0 Hfind];
        [now apply bool_decide_eq_true|].
      destruct (find_split _ _ _ Hfind) as (pre & post & Hsplit & Hd0 & Hpre).
      exists pre, d0, post. rewrite Hfind.
      split; [exact Hsplit|]. split; [now apply bool_decide_eq_true in Hd0|].
      split; [|reflexivity].
      intros d' Hd'. rewrite Forall_forall in Hpre.
      apply list_elem_of_In, Hpre in Hd'. unfold has_id in Hd'.
      now apply bool_decide_eq_false in Hd'.
  - unfold DatabaseService.find_by_id, new_ObjectId. monad_unfold. rewrite Ho.
    split; [apply connected_store|]. split; [reflexivity|]. discriminate.
Qed.

Lemma upcoming_date_test now d :
  DatabaseService.date_test DatabaseService.OpGt now (field d "eventDate")
  = upcoming now d.
Proof.
  unfold upcoming. destruct (field d "eventDate") as [| | | | |[t|]| |]; reflexivity.
Qed.

(** X4. [getEvents] lists the events by increasing [eventDate] and changes no
    collection. With [upcomingOnly] it reads the clock once and keeps the
    events whose [eventDate] is a date later than that reading, each as
    often as the collection holds it; without, it keeps them all and
    leaves the clock alone. *)
Theorem getEvents_upcoming (upcomingOnly : bool) (w : World) :
  online E w = true ->
  let (r, w') := DatabaseService.getEvents E this upcomingOnly w in
  store w' = store w
  /\ exists evs,
       r = Return (PDocs evs)
       /\ sorted_asc "eventDate" evs
       /\ if upcomingOnly
          then Permutation evs (List.filter (upcoming (clock E (w_ticks w))) (events w))
               /\ w_ticks w' = S (w_ticks w)
          else Permutation evs (events w) /\ w_ticks w' = w_ticks w.
Proof.
  intros Hon. destruct (online_connect E w Hon) as [h Hh].
  unfold DatabaseService.getEvents. rewrite (by_dbType_mongodb this mongodb).
  unfold Date_now. monad_unfold. rewrite Hh.
  destruct upcomingOnly; cbn [collection tick events w_ticks];
    rewrite ?connected_events, ?connected_ticks.
  - split; [unfold store; cbn [tick members events blogs]; apply connected_store|].
    eexists. split; [reflexivity|]. split; [apply sort_asc_sorted|].
    split; [|reflexivity]. rewrite sort_asc_perm.
    erewrite filter_ext; [reflexivity|]. intros d. apply upcoming_date_test.
  - split; [apply connected_store|].
    eexists. split; [reflexivity|]. split; [apply sort_asc_sorted|].
    split; [|reflexivity]. rewrite sort_asc_perm.
    clear. induction (events w) as [|d l IH]; simpl; [reflexivity|]. now rewrite IH.
Qed.

(** X5. [getBlogsByAuthor], given an author that is neither [null] nor
    [undefined], returns the blogs whose [authorId] equals it, each as
    often as the collection holds it, by decreasing [createdAt], and
    changes no collection. *)
Theorem getBlogsByAuthor_exact (authorId : value) (w : World) :
  online E w = true -> nullish authorId = false ->
  let (r, w') := DatabaseService.getBlogsByAuthor E this authorId w in
  store w' = store w
  /\ exists bs,
       r = Return (PDocs bs)
       /\ sorted_desc "createdAt" bs
       /\ Permutation bs (List.filter (written_by authorId) (blogs w)).
Proof.
  intros Hon _. destruct (online_connect E w Hon) as [h Hh].
  unfold DatabaseService.getBlogsByAuthor. rewrite (by_dbType_mongodb this mongodb).
  monad_unfold. rewrite Hh. cbn [collection]. rewrite connected_blogs.
  split; [apply connected_store|].
  eexists. split; [reflexivity|]. split; [apply sort_desc_sorted|].
  apply sort_desc_perm.
Qed.

End Lookups.


(** ** Identifiers *)

Lemma max_oid_ge l d o :
  In d l -> field d "_id" = VObjectId o -> (o <= max_oid l)%N.
Proof.
  induction l as [|x l IH]; [intros []|]. intros [->|Hin] Ho; simpl.
  - rewrite Ho. lia.
  - specialize (IH Hin Ho). destruct (field x "_id"); lia.
Qed.

(** The identifier the driver makes is held by no document of the
    collection. *)
Lemma fresh_oid_new c w d :
  In d (collection c w) -> field d "_id" <> VObjectId (fresh_oid c w).
Proof.
  intros Hin Ho. pose proof (max_oid_ge _ _ _ Hin Ho). unfold fresh_oid in *. lia.
Qed.

Lemma find_app_new {A} (p : A -> bool) l d :
  (forall x, In x l -> p x = false) -> p d = true ->
  List.find p (l ++ [d]) = Some d.
Proof.
  intros Hl Hd. induction l as [|x l IH]; simpl; [now rewrite Hd|].
  rewrite (Hl x) by now left. apply IH. intros y Hy. apply Hl. now right.
Qed.

Lemma remove_first_app_new (p : doc -> bool) l d :
  (forall x, In x l -> p x = false) -> p d = true ->
  remove_first p (l ++ [d]) = l.
Proof.
  intros Hl Hd. induction l as [|x l IH]; simpl; [now rewrite Hd|].
  rewrite (Hl x) by now left. f_equal. apply IH. intros y Hy. apply Hl. now right.
Qed.

Section Connected.
Context (E : Env).

(** With a handle cached, the service is connected already. *)
Lemma connect_cached w h :
  conn (w_mongo w) = Some h ->
  connectToMongoDB E (MONGODB_URI E) w = (Return h, w).
Proof. apply cached_connect_hit. Qed.

Lemma wp_connect uri (Q : outcome Conn -> World -> Prop) w :
  (forall e w', store w' = store w -> w_ticks w' = w_ticks w -> Q (Throw e) w') ->
  (forall h w', store w' = store w -> w_ticks w' = w_ticks w ->
                conn (w_mongo w') = Some h -> Q (Return h) w') ->
  wp (connectToMongoDB E uri) Q w.
Proof.
  intros Ht Hr. unfold wp, connectToMongoDB.
  pose proof (cached_connect_frame E
    [("serverSelectionTimeoutMS", 5000); ("maxPoolSize", 10); ("minPoolSize", 2)]%string
    uri w) as (H1 & H2 & _).
  pose proof (cached_connect_caches E
    [("serverSelectionTimeoutMS", 5000); ("maxPoolSize", 10); ("minPoolSize", 2)]%string
    uri w) as H3.
  destruct (cached_connect E _ uri w) as [[h|e] w']; simpl in *; auto.
Qed.

End Connected.

(** ** Deleting events and blogs *)

Section Deleting.
Context (E : Env) (this : Service).
Hypothesis mongodb : dbType this = "mongodb"%string.

(** The shape [deleteEvent] and [deleteBlog] share. *)
Lemma delete_one_by_id c id notfound done w :
  online E w = true ->
  let (r, w') :=
    (_ ← connectToMongoDB E (MONGODB_URI E);
     id' ← new_ObjectId E id;
     deletedCount ← deleteOne c (FEq "_id" id');
     if Nat.eqb deletedCount 0 then throw (Error notfound)
     else mret (PDoc {[ "message"%string := VStr done ]})) w in
  (forall c', c' <> c -> collection c' w' = collection c' w)
  /\ (ObjectId_parse E id = None ->
      r = Throw (DriverError "BSONError") /\ collection c w' = collection c w)
  /\ forall o, ObjectId_parse E id = Some o ->
       ((forall d, In d (collection c w) -> field d "_id" <> VObjectId o) ->
        r = Throw (Error notfound) /\ collection c w' = collection c w)
       /\ ((exists d, In d (collection c w) /\ field d "_id" = VObjectId o) ->
           exists pre d post,
             collection c w = pre ++ d :: post
             /\ field d "_id" = VObjectId o
             /\ (forall d', In d' pre -> field d' "_id" <> VObjectId o)
             /\ collection c w' = pre ++ post
             /\ r = Return (PDoc {[ "message"%string := VStr done ]})).
Proof.
  intros Hon. destruct (online_connect E w Hon) as [h Hh].
  unfold new_ObjectId, deleteOne. monad_unfold. rewrite Hh.
  assert (forall c', collection c' (connected E w) = collection c' w) as Hcoll.
  { intros []; cbn [collection];
      auto using connected_members, connected_events, connected_blogs. }
  destruct (ObjectId_parse E id) as [o|] eqn:Ho.
  - rewrite Hcoll.
    destruct (List.find (sat (FEq "_id" (VObjectId o))) (collection c w))
      as [d0|] eqn:Hfind; cbn [Nat.eqb].
    + split.
      { intros c' Hc'. rewrite <- (Hcoll c').
        destruct c, c'; try contradiction; reflexivity. }
      split; [discriminate|]. intros o' [= <-]. split.
      * intros Habs. exfalso. apply find_some in Hfind as [Hin Hd].
        apply (Habs d0 Hin). now apply sat_FEq.
      * intros _. destruct (find_split _ _ _ Hfind) as (pre & post & Hsplit & Hd0 & Hpre).
        exists pre, d0, post. split; [exact Hsplit|].
        split; [now apply sat_FEq|]. split.
        { intros d' Hd'. apply sat_FEq_false. rewrite Forall_forall in Hpre.
          apply Hpre. now apply list_elem_of_In. }
        split; [|reflexivity].
        rewrite <- (remove_first_app _ pre post d0 Hpre Hd0), <- Hsplit.
        destruct c; reflexivity.
    + split; [intros c' _; apply Hcoll|]. split; [discriminate|].
      intros o' [= <-]. split; [intros _; split; [reflexivity|apply Hcoll]|].
      intros (d & Hin & Hd). exfalso.
      apply (find_none _ _ Hfind) in Hin. apply sat_FEq_false in Hin. contradiction.
  - split; [intros c' _; apply Hcoll|]. split; [|discriminate].
    intros _. split; [reflexivity|apply Hcoll].
Qed.

(** X6. [deleteEvent] removes one event and nothing else. With the MongoDB
    backend and a reachable database, the members and the blogs are as
    before whatever happens; an identifier the [ObjectId] constructor
    rejects makes it throw the constructor's error, and one that no event
    has makes it throw 'Event not found', the events staying as they are;
    otherwise the first event with the identifier is removed, the others
    keep their order, and the success message is returned. *)
Theorem deleteEvent_removes (eventId : value) (w : World) :
  online E w = true ->
  let (r, w') := DatabaseService.deleteEvent E this eventId w in
  members w' = members w /\ blogs w' = blogs w
  /\ (ObjectId_parse E eventId = None ->
      r = Throw (DriverError "BSONError") /\ events w' = events w)
  /\ forall o, ObjectId_parse E eventId = Some o ->
       ((forall d, In d (events w) -> field d "_id" <> VObjectId o) ->
        r = Throw (Error "Event not found") /\ events w' = events w)
       /\ ((exists d, In d (events w) /\ field d "_id" = VObjectId o) ->
           exists pre d post,
             events w = pre ++ d :: post
             /\ field d "_id" = VObjectId o
             /\ (forall d', In d' pre -> field d' "_id" <> VObjectId o)
             /\ events w' = pre ++ post
             /\ r = Return (PDoc {[ "message"%string := VStr "Event deleted successfully" ]})).
Proof.
  intros Hon.
  pose proof (delete_one_by_id Events eventId "Event not found"
                "Event deleted successfully" w Hon) as Hd.
  revert Hd. unfold DatabaseService.deleteEvent. rewrite (by_dbType_mongodb this mongodb).
  match goal with |- (let (_, _) := ?m in _) -> _ => destruct m as [r w'] end.
  intros (Hother & Hbad & Hgood).
  split; [exact (Hother Members ltac:(discriminate))|].
  split; [exact (Hother Blogs ltac:(discriminate))|].
  split; [exact Hbad|exact Hgood].
Qed.

(** X7. [deleteBlog] removes one blog and nothing else: the members and the
    events are as before, a malformed identifier gives the constructor's
    error, an unknown one 'Blog not found', and otherwise the first blog
    with the identifier is removed. *)
Theorem deleteBlog_removes (blogId : value) (w : World) :
  online E w = true ->
  let (r, w') := DatabaseService.deleteBlog E this blogId w in
  members w' = members w /\ events w' = events w
  /\ (ObjectId_parse E blogId = None ->
      r = Throw (DriverError "BSONError") /\ blogs w' = blogs w)
  /\ forall o, ObjectId_parse E blogId = Some o ->
       ((forall d, In d (blogs w) -> field d "_id" <> VObjectId o) ->
        r = Throw (Error "Blog not found") /\ blogs w' = blogs w)
       /\ ((exists d, In d (blogs w) /\ field d "_id" = VObjectId o) ->
           exists pre d post,
             blogs w = pre ++ d :: post
             /\ field d "_id" = VObjectId o
             /\ (forall d', In d' pre -> field d' "_id" <> VObjectId o)
             /\ blogs w' = pre ++ post
             /\ r = Return (PDoc {[ "message"%string := VStr "Blog deleted successfully" ]})).
Proof.
  intros Hon.
  pose proof (delete_one_by_id Blogs blogId "Blog not found"
                "Blog deleted successfully" w Hon) as Hd.
  revert Hd. unfold DatabaseService.deleteBlog. rewrite (by_dbType_mongodb this mongodb).
  match goal with |- (let (_, _) := ?m in _) -> _ => destruct m as [r w'] end.
  intros (Hother & Hbad & Hgood).
  split; [exact (Hother Members ltac:(discriminate))|].
  split; [exact (Hother Events ltac:(discriminate))|].
  split; [exact Hbad|exact Hgood].
Qed.

End Deleting.


(** ** [updateBlog] *)

Section UpdateBlog.
Context (E : Env) (this : Service).

Lemma spread_if_supplied among (upd : doc) key k v' (d : doc) :
  key ∈ among ->
  (truthy (field upd key) = true ->
   v' = normalised key (field upd key) /\ v' <> VUndefined) ->
  spread_if (field upd key) key v' d !! k
  = if decide (k = key)
    then if supplied among upd k
         then Some (normalised k (field upd k)) else d !! k
    else d !! k.
Proof.
  intros Hin Hv. destruct (decide (k = key)) as [->|Hne].
  - rewrite lookup_spread_if. destruct (truthy (field upd key)) eqn:Ht.
    + rewrite (supplied_true _ _ _ Hin Ht). destruct (Hv eq_refl) as [-> Hu].
      destruct (normalised key (field upd key)); congruence.
    + now rewrite (supplied_falsy _ _ _ Ht).
  - now rewrite lookup_spread_if_ne by congruence.
Qed.

(** The fields [updateBlog] hands to [$set]. *)
Lemma blog_updateFields_lookup (upd : doc) title' content' t k :
  (truthy (field upd "title") = true ->
   exists str, field upd "title" = VStr str /\ title' = VStr (JsString.trim str)) ->
  (truthy (field upd "content") = true ->
   exists str, field upd "content" = VStr str /\ content' = VStr (JsString.trim str)) ->
  k <> "updatedAt"%string ->
  (<["updatedAt" := t]> (
     spread_if (field upd "content") "content" content' (
     spread_if (field upd "title") "title" title' ∅)) : doc) !! k
  = if supplied blog_fields upd k
    then Some (normalised k (field upd k)) else None.
Proof.
  intros Htitle Hcontent Hk.
  rewrite lookup_insert_ne by congruence.
  rewrite (spread_if_supplied blog_fields upd "content"),
    (spread_if_supplied blog_fields upd "title");
    try (apply list_elem_of_In; simpl; tauto).
  - rewrite lookup_empty. destruct (supplied blog_fields upd k) eqn:Hs.
    + repeat (case_decide; [reflexivity|]). exfalso.
      rewrite supplied_outside in Hs; [discriminate|].
      rewrite list_elem_of_In. simpl. intuition congruence.
    + repeat case_decide; reflexivity.
  - intros Ht. destruct (Htitle Ht) as (str & Hs & ->). rewrite Hs.
    split; [reflexivity|discriminate].
  - intros Ht. destruct (Hcontent Ht) as (str & Hs & ->). rewrite Hs.
    split; [reflexivity|discriminate].
Qed.

(** X8. [updateBlog] changes nothing but the blog it names, and of that blog
    only [updatedAt] and those of [title] and [content] whose value in
    [updateData] is truthy: whatever the call does, the members and the
    events are as before, and either the blogs are as before too, or the
    first blog with the identifier is replaced by a document that agrees
    with it on every other field, the author snapshot and [createdAt]
    among them. A supplied field holds the supplied string, trimmed;
    [updatedAt] holds the reading of the clock. *)
Theorem updateBlog_changes_only_supplied
    (blogId : value) (updateData : data) (w : World) :
  let upd := properties updateData in
  let (r, w') := DatabaseService.updateBlog E this blogId updateData w in
  members w' = members w /\ events w' = events w
  /\ ((blogs w' = blogs w /\ forall d, r <> Return (PDoc d))
      \/ exists o pre b post b',
           ObjectId_parse E blogId = Some o
           /\ blogs w = pre ++ b :: post
           /\ field b "_id" = VObjectId o
           /\ (forall d, In d pre -> field d "_id" <> VObjectId o)
           /\ blogs w' = pre ++ b' :: post
           /\ r = Return (PDoc b')
           /\ (forall k, k <> "updatedAt"%string ->
                         supplied blog_fields upd k = false ->
                         b' !! k = b !! k)
           /\ (forall k, supplied blog_fields upd k = true ->
                         b' !! k = Some (normalised k (field upd k)))
           /\ b' !! "updatedAt"%string = Some (VDate (Some (clock E (w_ticks w))))).
Proof.
  intros upd. wp_goal.
  set (Q := fun (r : outcome payload) (w' : World) => _).
  assert (Hfail : forall r w2, store w2 = store w ->
                               (forall d, r <> Return (PDoc d)) -> Q r w2).
  { intros r w2 Hst Hr. unfold store in Hst. injection Hst as H1 H2 H3.
    unfold Q. auto. }
  unfold DatabaseService.updateBlog.
  wp_step @wp_destructure; [intros e; now apply Hfail|]. fold upd.
  unfold DatabaseService.by_dbType.
  destruct (String.eqb (dbType this) "mongodb");
    [|destruct (String.eqb (dbType this) "mysql"); now apply Hfail].
  wp_step wp_connectToMongoDB. intros [c|e] w1 Hst Htk _; [|now apply Hfail].
  wp_step @wp_trim_if; [intros e; now apply Hfail|]. intros title' Htitle.
  wp_step @wp_trim_if; [intros e; now apply Hfail|]. intros content' Hcontent.
  wp_step wp_new_Date.
  wp_step @wp_new_ObjectId; [intros _; now apply Hfail|]. intros o Ho.
  wp_step wp_findOneAndUpdate; [intros _; now apply Hfail|]. intros b Hfind.
  apply wp_ret. unfold Q. cbn [collection tick members set_collection events blogs] in *.
  unfold store in Hst. injection Hst as Hm He Hb.
  split; [exact Hm|]. split; [exact He|]. right.
  destruct (find_split _ _ _ Hfind) as (pre & post & Hsplit & Hm0 & Hpre).
  exists o, pre, b, post. eexists.
  split; [exact Ho|]. split; [now rewrite <- Hb|].
  split; [now apply sat_FEq|]. split.
  { intros d Hd. apply sat_FEq_false. rewrite Forall_forall in Hpre.
    apply Hpre. now apply list_elem_of_In. }
  split; [rewrite Hsplit; now apply update_first_app|].
  split; [reflexivity|]. split; [|split].
  - intros k Hk Hsup. rewrite lookup_union_r; [reflexivity|].
    rewrite (blog_updateFields_lookup upd) by assumption. now rewrite Hsup.
  - intros k Hsup. apply lookup_union_Some_l.
    assert (k <> "updatedAt"%string) as Hk.
    { intros ->. rewrite supplied_outside in Hsup; [discriminate|].
      rewrite list_elem_of_In. simpl. intuition discriminate. }
    rewrite (blog_updateFields_lookup upd) by assumption. now rewrite Hsup.
  - apply lookup_union_Some_l. now rewrite lookup_insert_eq, Htk.
Qed.

End UpdateBlog.


(** ** What a creation leaves behind *)

Section Created.
Context (E : Env) (this : Service).

Lemma stored_intro c d0 (w w0 w1 : World) h :
  dbType this = "mongodb"%string ->
  store w0 = store w -> conn (w_mongo w1) = Some h ->
  nullish (field d0 "_id") = true ->
  (forall c', collection c' w1 = collection c' w0) ->
  stored this c (<["_id" := VObjectId (fresh_oid c w1)]> d0) w
    (set_collection c (collection c w1 ++ [<["_id" := VObjectId (fresh_oid c w1)]> d0])
       (set_oids (N.succ (fresh_oid c w1)) w1)).
Proof.
  intros Hdb Hst Hconn Hn Hsame.
  assert (forall c', collection c' w1 = collection c' w) as Hcoll.
  { intros c'. rewrite Hsame. unfold store in Hst. injection Hst as H1 H2 H3.
    destruct c'; assumption. }
  split; [exact Hdb|]. split; [exists h; destruct c; exact Hconn|].
  split; [intros c' Hc'; rewrite <- Hcoll; destruct c, c'; try contradiction; reflexivity|].
  split; [rewrite <- Hcoll; destruct c; reflexivity|].
  exists (fresh_oid c w1). split; [unfold field; now rewrite lookup_insert_eq|].
  intros x Hx. apply fresh_oid_new. now rewrite Hcoll.
Qed.

Lemma wp_service (m : M World payload) (Q : outcome payload -> World -> Prop) w :
  (forall r, (forall d, r <> Return (PDoc d)) -> Q r w) ->
  (dbType this = "mongodb"%string -> wp m Q w) ->
  wp (DatabaseService.by_dbType this m) Q w.
Proof.
  intros Hfail Hm. unfold DatabaseService.by_dbType.
  destruct (String.eqb_spec (dbType this) "mongodb"); [now apply Hm|].
  destruct (String.eqb (dbType this) "mysql"); apply Hfail; discriminate.
Qed.

Lemma registerMember_stored memberData w :
  let (r, w') := DatabaseService.registerMember E this memberData w in
  forall d, r = Return (PDoc d) -> stored this Members d w w'.
Proof.
  wp_goal. set (Q := fun (r : outcome payload) (w' : World) => _).
  assert (Hfail : forall r w2, (forall d, r <> Return (PDoc d)) -> Q r w2).
  { intros r w2 Hr d Hd. now destruct (Hr d). }
  unfold DatabaseService.registerMember.
  wp_step @wp_destructure; [intros e; now apply Hfail|].
  destruct (negb _ || negb _); [now apply Hfail|].
  destruct (emailRegex_test _); [|now apply Hfail].
  cbn [negb]. apply wp_service; [intros r Hr; now apply Hfail|]. intros Hdb.
  wp_step wp_connect; [intros e w1 _ _; now apply Hfail|]. intros h w1 Hst _ Hconn.
  wp_step wp_findOne. destruct (List.find _ _); [now apply Hfail|].
  wp_step @wp_call_trim; [intros e; now apply Hfail|]. intros name Hname.
  wp_step @wp_call_toLowerCase_trim; [intros e; now apply Hfail|]. intros e He.
  wp_step @wp_opt_trim; [intros e0; now apply Hfail| |];
    (intros; wp_step @wp_opt_trim; [intros e0; now apply Hfail| |]);
    (intros; wp_step wp_new_Date; wp_step wp_new_Date; wp_step wp_new_Date;
     wp_step wp_insertOne_fresh;
     [unfold field; now rewrite !lookup_insert_ne, lookup_empty by discriminate|];
     apply wp_ret; intros d [= <-];
     apply (stored_intro Members _ w w1 _ h Hdb Hst);
     [exact Hconn
     |unfold field; now rewrite !lookup_insert_ne, lookup_empty by discriminate
     |intros []; reflexivity]).
Qed.

Lemma addEvent_stored eventData w :
  let (r, w') := DatabaseService.addEvent E this eventData w in
  forall d, r = Return (PDoc d) -> stored this Events d w w'.
Proof.
  wp_goal. set (Q := fun (r : outcome payload) (w' : World) => _).
  assert (Hfail : forall r w2, (forall d, r <> Return (PDoc d)) -> Q r w2).
  { intros r w2 Hr d Hd. now destruct (Hr d). }
  unfold DatabaseService.addEvent.
  wp_step @wp_destructure; [intros e; now apply Hfail|].
  destruct (negb _ || negb _); [now apply Hfail|].
  wp_step wp_Date_now.
  destruct (date_le _ _); [now apply Hfail|].
  apply wp_service; [intros r Hr; now apply Hfail|]. intros Hdb.
  wp_step wp_connect; [intros e w1 _ _; now apply Hfail|]. intros h w1 Hst _ Hconn.
  wp_step @wp_call_trim; [intros e; now apply Hfail|]. intros title Ht.
  wp_step @wp_opt_trim; [intros e0; now apply Hfail| |];
    (intros; wp_step @wp_opt_trim; [intros e0; now apply Hfail| |]);
    (intros; wp_step wp_new_Date; wp_step wp_new_Date;
     wp_step wp_insertOne_fresh;
     [unfold field; now rewrite !lookup_insert_ne, lookup_empty by discriminate|];
     apply wp_ret; intros d [= <-];
     apply (stored_intro Events _ w w1 _ h Hdb Hst);
     [exact Hconn
     |unfold field; now rewrite !lookup_insert_ne, lookup_empty by discriminate
     |intros []; reflexivity]).
Qed.

Lemma addBlog_stored blogData w :
  let (r, w') := DatabaseService.addBlog E this blogData w in
  forall d, r = Return (PDoc d) -> stored this Blogs d w w'.
Proof.
  wp_goal. set (Q := fun (r : outcome payload) (w' : World) => _).
  assert (Hfail : forall r w2, (forall d, r <> Return (PDoc d)) -> Q r w2).
  { intros r w2 Hr d Hd. now destruct (Hr d). }
  unfold DatabaseService.addBlog.
  wp_step @wp_destructure; [intros e; now apply Hfail|].
  destruct (negb _ || negb _ || negb _); [now apply Hfail|].
  apply wp_service; [intros r Hr; now apply Hfail|]. intros Hdb.
  wp_step wp_connect; [intros e w1 _ _; now apply Hfail|]. intros h w1 Hst _ Hconn.
  wp_step @wp_new_ObjectId; [intros _; now apply Hfail|]. intros o Ho.
  wp_step wp_findOne. destruct (List.find _ _) as [author|]; [|now apply Hfail].
  wp_step @wp_call_trim; [intros e; now apply Hfail|]. intros title Ht.
  wp_step @wp_call_trim; [intros e; now apply Hfail|]. intros content Hc.
  wp_step wp_new_Date. wp_step wp_new_Date.
  wp_step wp_insertOne_fresh.
  { rewrite !field_prop_ne by discriminate. reflexivity. }
  apply wp_ret. intros d [= <-].
  apply (stored_intro Blogs _ w w1 _ h Hdb Hst);
    [exact Hconn| |intros []; reflexivity].
  unfold field.
  repeat (first [rewrite lookup_insert_ne by discriminate
                |rewrite lookup_prop_ne by discriminate]).
  now rewrite lookup_empty.
Qed.

End Created.


(** ** From creation to deletion *)

Section Lifecycle.
Context (E : Env) (this : Service).

Lemma online_cached w h :
  conn (w_mongo w) = Some h -> online E w = true /\ connected E w = w.
Proof.
  intros Hc. unfold online, connected. now rewrite (connect_cached E w h Hc).
Qed.

Lemma stored_found c d w w1 o :
  stored this c d w w1 -> field d "_id" = VObjectId o ->
  List.find (has_id o) (collection c w1) = Some d
  /\ List.find (has_id o) (collection c w) = None.
Proof.
  intros (_ & _ & _ & Hc & o' & Ho' & Hnew) Ho.
  assert (o' = o) as -> by congruence.
  assert (forall x, In x (collection c w) -> has_id o x = false) as Hno.
  { intros x Hx. apply bool_decide_eq_false. auto. }
  split; [|now apply find_absent].
  rewrite Hc. apply find_app_new; [exact Hno|now apply bool_decide_eq_true].
Qed.

(** The document a creation returns is the one its identifier finds. *)
Lemma stored_get c d w w1 id o :
  stored this c d w w1 -> field d "_id" = VObjectId o ->
  ObjectId_parse E id = Some o ->
  get_by_id E this c id w1 = (Return (PDoc d), w1).
Proof.
  intros Hs Ho Hid. destruct (stored_found c d w w1 o Hs Ho) as [Hfind _].
  destruct Hs as (Hdb & [h Hh] & _).
  destruct (online_cached w1 h Hh) as [Hon Hw1].
  rewrite (get_by_id_unfold E this Hdb c id w1 Hon), Hw1.
  now rewrite (find_by_id_found E c id o w1 Hid), Hfind.
Qed.

(** Deleting it restores the collection. *)
Lemma stored_delete c d w w1 id o notfound done :
  stored this c d w w1 -> field d "_id" = VObjectId o ->
  ObjectId_parse E id = Some o ->
  (_ ← connectToMongoDB E (MONGODB_URI E);
   id' ← new_ObjectId E id;
   deletedCount ← deleteOne c (FEq "_id" id');
   if Nat.eqb deletedCount 0 then throw (Error notfound)
   else mret (deleted done)) w1
  = (Return (deleted done), set_collection c (collection c w) w1).
Proof.
  intros Hs Ho Hid. destruct (stored_found c d w w1 o Hs Ho) as [Hfind _].
  destruct Hs as (Hdb & [h Hh] & _ & Hc & o' & Ho' & Hnew).
  assert (o' = o) as -> by congruence.
  unfold new_ObjectId, deleteOne. monad_unfold.
  rewrite (connect_cached E w1 h Hh), Hid.
  change (sat (FEq "_id" (VObjectId o))) with (has_id o). rewrite Hfind.
  cbn [Nat.eqb]. rewrite Hc, remove_first_app_new; [reflexivity| |].
  - intros x Hx. apply bool_decide_eq_false. auto.
  - now apply bool_decide_eq_true.
Qed.

Lemma restored c d w w1 :
  stored this c d w w1 -> store (set_collection c (collection c w) w1) = store w.
Proof.
  intros (_ & _ & Hother & _). unfold store.
  pose proof (Hother Members) as Hm. pose proof (Hother Events) as He.
  pose proof (Hother Blogs) as Hb. cbn [collection] in Hm, He, Hb.
  destruct c; cbn [set_collection members events blogs collection];
    rewrite ?Hm, ?He, ?Hb by discriminate; reflexivity.
Qed.

(** After the deletion the identifier finds nothing. *)
Lemma stored_gone c d w w1 id o :
  stored this c d w w1 -> field d "_id" = VObjectId o ->
  ObjectId_parse E id = Some o ->
  fst (get_by_id E this c id (set_collection c (collection c w) w1)) = Return PNull.
Proof.
  intros Hs Ho Hid. destruct (stored_found c d w w1 o Hs Ho) as [_ Hnone].
  destruct Hs as (Hdb & [h Hh] & _).
  set (w2 := set_collection c (collection c w) w1).
  assert (conn (w_mongo w2) = Some h) as Hh2 by (destruct c; exact Hh).
  destruct (online_cached w2 h Hh2) as [Hon Hw2].
  rewrite (get_by_id_unfold E this Hdb c id w2 Hon), Hw2.
  rewrite (find_by_id_found E c id o w2 Hid).
  replace (collection c w2) with (collection c w) by (destruct c; reflexivity).
  now rewrite Hnone.
Qed.

(** X9. An event from [addEvent] to [deleteEvent]. The event [addEvent]
    returns carries an identifier; with any value the [ObjectId]
    constructor reads as that identifier, [getEventById] returns the
    event as it was returned when its [eventDate] is a valid date (the
    server keeps no invalid date, so nothing is said of an event whose
    date did not parse), [deleteEvent] succeeds and leaves the three
    collections as they were before the event was added, and
    [getEventById] then resolves to [null]. *)
Theorem event_lifecycle (eventData : data) (w : World) :
  let (r, w1) := DatabaseService.addEvent E this eventData w in
  forall ev, r = Return (PDoc ev) ->
    exists o,
      field ev "_id" = VObjectId o
      /\ forall id, ObjectId_parse E id = Some o ->
           (dated "eventDate" ev ->
            DatabaseService.getEventById E this id w1 = (Return (PDoc ev), w1))
           /\ exists w2,
                DatabaseService.deleteEvent E this id w1
                = (Return (deleted "Event deleted successfully"), w2)
                /\ store w2 = store w
                /\ fst (DatabaseService.getEventById E this id w2) = Return PNull.
Proof.
  pose proof (addEvent_stored E this eventData w) as Hs.
  destruct (DatabaseService.addEvent E this eventData w) as [r w1].
  intros ev Hr. specialize (Hs ev Hr).
  destruct Hs as (Hdb & Hh & Hother & Hc & o & Ho & Hnew).
  assert (stored this Events ev w w1) as Hs by (repeat split; eauto).
  exists o. split; [exact Ho|]. intros id Hid.
  split; [intros _; exact (stored_get Events ev w w1 id o Hs Ho Hid)|].
  exists (set_collection Events (collection Events w) w1).
  split; [|split].
  - unfold DatabaseService.deleteEvent. rewrite (by_dbType_mongodb this Hdb).
    exact (stored_delete Events ev w w1 id o _ _ Hs Ho Hid).
  - exact (restored Events ev w w1 Hs).
  - exact (stored_gone Events ev w w1 id o Hs Ho Hid).
Qed.

Lemma filter_none {A} (p : A -> bool) l :
  List.filter p (List.filter (fun x => negb (p x)) l) = [].
Proof.
  induction l as [|x l IH]; simpl; [reflexivity|].
  destruct (p x) eqn:Hx; simpl; [exact IH|]. now rewrite Hx.
Qed.

(** X10. A blog from [addBlog] to [deleteBlog]. The blog [addBlog] returns
    carries an identifier and is among the blogs [getBlogsByAuthor]
    returns for its [authorId]; with any value the [ObjectId] constructor
    reads as that identifier, [getBlogById] returns the blog as it was
    returned, [deleteBlog] succeeds and leaves the three collections as
    they were before the blog was added, and [getBlogById] then resolves
    to [null]. *)
Theorem blog_lifecycle (blogData : data) (w : World) :
  let (r, w1) := DatabaseService.addBlog E this blogData w in
  forall b, r = Return (PDoc b) ->
    exists o,
      field b "_id" = VObjectId o
      /\ (exists bs,
            DatabaseService.getBlogsByAuthor E this (field b "authorId") w1
            = (Return (PDocs bs), w1)
            /\ In b bs)
      /\ forall id, ObjectId_parse E id = Some o ->
           DatabaseService.getBlogById E this id w1 = (Return (PDoc b), w1)
           /\ exists w2,
                DatabaseService.deleteBlog E this id w1
                = (Return (deleted "Blog deleted successfully"), w2)
                /\ store w2 = store w
                /\ fst (DatabaseService.getBlogById E this id w2) = Return PNull.
Proof.
  pose proof (addBlog_stored E this blogData w) as Hs.
  destruct (DatabaseService.addBlog E this blogData w) as [r w1].
  intros b Hr. specialize (Hs b Hr).
  destruct Hs as (Hdb & [h Hh] & Hother & Hc & o & Ho & Hnew).
  assert (stored this Blogs b w w1) as Hs by (repeat split; eauto).
  exists o. split; [exact Ho|]. split.
  - eexists. split.
    + unfold DatabaseService.getBlogsByAuthor. rewrite (by_dbType_mongodb this Hdb).
      monad_unfold. rewrite (connect_cached E w1 h Hh). reflexivity.
    + apply (Permutation_in _ (Permutation_sym (sort_desc_perm _ _))).
      apply filter_In. split; [|now apply sat_FEq].
      rewrite Hc. apply in_or_app. right. now left.
  - intros id Hid.
    split; [exact (stored_get Blogs b w w1 id o Hs Ho Hid)|].
    exists (set_collection Blogs (collection Blogs w) w1).
    split; [|split].
    + unfold DatabaseService.deleteBlog. rewrite (by_dbType_mongodb this Hdb).
      exact (stored_delete Blogs b w w1 id o _ _ Hs Ho Hid).
    + exact (restored Blogs b w w1 Hs).
    + exact (stored_gone Blogs b w w1 id o Hs Ho Hid).
Qed.

(** X11. A member from [registerMember] to [deleteMember]. The member
    [registerMember] returns carries an identifier; with any value,
    other than [null] and [undefined], that the [ObjectId] constructor
    reads as that identifier, [getMemberById]
    returns the member as it was returned, and [deleteMember] succeeds:
    the members and the events are then as they were before the
    registration, the blogs whose [authorId] equals the value are gone and
    the other blogs are kept, [getMemberById] resolves to [null] and
    [getBlogsByAuthor] to no blog. *)
Theorem member_lifecycle (memberData : data) (w : World) :
  let (r, w1) := DatabaseService.registerMember E this memberData w in
  forall m, r = Return (PDoc m) ->
    exists o,
      field m "_id" = VObjectId o
      /\ forall id, nullish id = false -> ObjectId_parse E id = Some o ->
           DatabaseService.getMemberById E this id w1 = (Return (PDoc m), w1)
           /\ exists w2,
                DatabaseService.deleteMember E this id w1
                = (Return (deleted "Member deleted successfully"), w2)
                /\ members w2 = members w /\ events w2 = events w
                /\ blogs w2 = List.filter (fun b => negb (written_by id b)) (blogs w)
                /\ fst (DatabaseService.getMemberById E this id w2) = Return PNull
                /\ fst (DatabaseService.getBlogsByAuthor E this id w2)
                   = Return (PDocs []).
Proof.
  pose proof (registerMember_stored E this memberData w) as Hs.
  destruct (DatabaseService.registerMember E this memberData w) as [r w1].
  intros m Hr. specialize (Hs m Hr).
  destruct Hs as (Hdb & [h Hh] & Hother & Hc & o & Ho & Hnew).
  assert (stored this Members m w w1) as Hs by (repeat split; eauto).
  exists o. split; [exact Ho|]. intros id _ Hid.
  split; [exact (stored_get Members m w w1 id o Hs Ho Hid)|].
  destruct (stored_found Members m w w1 o Hs Ho) as [Hfind Hnone].
  pose proof (Hother Events ltac:(discriminate)) as Hev.
  pose proof (Hother Blogs ltac:(discriminate)) as Hbl.
  cbn [collection] in Hc, Hev, Hbl, Hfind, Hnone.
  set (w2 := set_collection Blogs
               (List.filter (fun b => negb (sat (FEq "authorId" id) b)) (blogs w))
               (set_collection Members (members w) w1)).
  assert (conn (w_mongo w2) = Some h) as Hh2 by exact Hh.
  destruct (online_cached w2 h Hh2) as [Hon Hw2].
  exists w2. split; [|split; [reflexivity|split; [exact Hev|split; [reflexivity|split]]]].
  - unfold DatabaseService.deleteMember. rewrite (by_dbType_mongodb this Hdb).
    unfold new_ObjectId, deleteOne, deleteMany. monad_unfold.
    rewrite (connect_cached E w1 h Hh), Hid. cbn [collection].
    change (sat (FEq "_id" (VObjectId o))) with (has_id o). rewrite Hfind.
    cbn [Nat.eqb]. rewrite Hc, remove_first_app_new.
    + cbn [set_collection blogs collection]. rewrite Hbl. reflexivity.
    + intros x Hx. apply bool_decide_eq_false. auto.
    + now apply bool_decide_eq_true.
  - change (DatabaseService.getMemberById E this) with (get_by_id E this Members).
    rewrite (get_by_id_unfold E this Hdb Members id w2 Hon), Hw2.
    rewrite (find_by_id_found E Members id o w2 Hid).
    cbn [collection w2 set_collection members]. now rewrite Hnone.
  - unfold DatabaseService.getBlogsByAuthor. rewrite (by_dbType_mongodb this Hdb).
    monad_unfold. rewrite (connect_cached E w2 h Hh2).
    cbn [fst collection w2 set_collection blogs]. now rewrite filter_none.
Qed.

End Lifecycle.


(** ** The dashboard and the statistics *)

Section Aggregates.
Context (E : Env) (H : Host) (this : Service).
Hypothesis mongodb : dbType this = "mongodb"%string.

Lemma count_where_bounds p l : 0 <= count_where p l <= Z.of_nat (length l).
Proof.
  unfold count_where. pose proof (filter_length_le p l). lia.
Qed.

Lemma count_where_le p q l :
  (forall d, p d = true -> q d = true) -> count_where p l <= count_where q l.
Proof.
  intros Hpq. unfold count_where. induction l as [|d l IH]; simpl; [lia|].
  destruct (p d) eqn:Hp; [rewrite (Hpq d Hp)|destruct (q d)]; simpl length; lia.
Qed.

(** A date is after a time or not after it, and nothing else is either. *)
Lemma count_where_split now k l :
  count_where (fun d => DatabaseService.date_test DatabaseService.OpGt now (field d k)) l
  + count_where (fun d => DatabaseService.date_test DatabaseService.OpLte now (field d k)) l
  = count_where (holds_date k) l.
Proof.
  unfold count_where, holds_date. induction l as [|d l IH]; simpl; [reflexivity|].
  destruct (field d k) as [| | | | |t| |]; simpl; try exact IH.
  destruct (Z.ltb_spec now (default 0 t)), (Z.leb_spec (default 0 t) now);
    simpl length; lia.
Qed.

Lemma countDocuments_online c f w :
  DatabaseService.countDocuments c f w = (Return (count_where f (collection c w)), w).
Proof. reflexivity. Qed.

(** X12. [getDashboardStats] counts without changing a collection. With the
    MongoDB backend and a reachable database it reads the clock once and
    returns six counts: [totalMembers] and [totalBlogs] are the sizes of
    the two collections; [upcomingEvents] and [pastEvents] split the
    events whose [eventDate] is a date, each being counted in exactly one
    of the two, and an event whose [eventDate] is no date in neither;
    [newMembersToday] counts only members whose [joinedAt] is a date and
    [newBlogsToday] only blogs whose [createdAt] is one. *)
Theorem getDashboardStats_counts (w : World) :
  online E w = true ->
  let (r, w') := DatabaseService.getDashboardStats E this H w in
  store w' = store w /\ w_ticks w' = S (w_ticks w)
  /\ exists stats upcomingEvents pastEvents newMembersToday newBlogsToday,
       r = Return (PDoc stats)
       /\ field stats "totalMembers" = VNum (Z.of_nat (length (members w)))
       /\ field stats "totalBlogs" = VNum (Z.of_nat (length (blogs w)))
       /\ field stats "upcomingEvents" = VNum upcomingEvents
       /\ field stats "pastEvents" = VNum pastEvents
       /\ field stats "newMembersToday" = VNum newMembersToday
       /\ field stats "newBlogsToday" = VNum newBlogsToday
       /\ upcomingEvents = count_where (upcoming (clock E (w_ticks w))) (events w)
       /\ upcomingEvents + pastEvents = count_where (holds_date "eventDate") (events w)
       /\ 0 <= newMembersToday <= count_where (holds_date "joinedAt") (members w)
       /\ 0 <= newBlogsToday <= count_where (holds_date "createdAt") (blogs w).
Proof.
  intros Hon. destruct (online_connect E w Hon) as [h Hh].
  unfold DatabaseService.getDashboardStats. rewrite (by_dbType_mongodb this mongodb).
  unfold Date_now. monad_unfold. rewrite Hh. rewrite !countDocuments_online.
  cbn [collection tick members events blogs w_ticks].
  rewrite connected_members, connected_events, connected_blogs, connected_ticks.
  split; [unfold store; cbn [tick members events blogs]; apply connected_store|].
  split; [reflexivity|].
  do 5 eexists. split; [reflexivity|].
  assert (forall l : list doc, count_where (fun _ => true) l = Z.of_nat (length l)) as Hall.
  { intros l. unfold count_where. f_equal. f_equal.
    induction l as [|d l IH]; simpl; [reflexivity|]. now rewrite IH. }
  unfold field. repeat (rewrite ?lookup_insert_eq, ?lookup_insert_ne by discriminate).
  cbn [default]. rewrite !Hall.
  repeat (split; [reflexivity|]).
  split; [unfold count_where; erewrite filter_ext;
          [reflexivity|intros d; apply upcoming_date_test]|].
  split; [apply count_where_split|].
  assert (forall t k d, DatabaseService.date_test DatabaseService.OpGte t (field d k) = true
                        -> holds_date k d = true) as Hdate.
  { intros t k d. unfold holds_date. now destruct (field d k). }
  split; (split; [apply count_where_bounds|apply count_where_le, Hdate]).
Qed.

(** *** Groups *)

Lemma tallied_tally u v groups :
  tallied u (DatabaseService.tally v groups)
  = tallied u groups + (if bool_decide (v = u) then 1 else 0).
Proof.
  unfold tallied. induction groups as [|[x n] r IH]; simpl.
  - destruct (bool_decide (v = u)); simpl; lia.
  - destruct (bool_decide_reflect (x = v)) as [->|Hxv]; simpl.
    + destruct (bool_decide (v = u)); simpl; lia.
    + destruct (bool_decide_reflect (x = u)) as [->|Hxu]; simpl; [|exact IH].
      rewrite bool_decide_eq_false_2 by congruence. lia.
Qed.

Lemma tally_keys v groups :
  (In v (map fst groups)
   /\ map fst (DatabaseService.tally v groups) = map fst groups)
  \/ (~ In v (map fst groups)
      /\ map fst (DatabaseService.tally v groups) = map fst groups ++ [v]).
Proof.
  induction groups as [|[x n] r IH]; simpl.
  - right. split; [tauto|reflexivity].
  - destruct (bool_decide_reflect (x = v)) as [->|Hxv]; simpl.
    + left. split; [now left|reflexivity].
    + destruct IH as [[Hin ->]|[Hin ->]]; [left|right]; split;
        try reflexivity; tauto.
Qed.

Lemma tally_NoDup v groups :
  NoDup (map fst groups) -> NoDup (map fst (DatabaseService.tally v groups)).
Proof.
  intros Hnd. destruct (tally_keys v groups) as [[Hin ->]|[Hin ->]]; [exact Hnd|].
  apply NoDup_app. split; [exact Hnd|]. split; [|apply NoDup_singleton].
  intros x Hx Hv. apply list_elem_of_In in Hx.
  apply list_elem_of_singleton in Hv. congruence.
Qed.

Lemma tally_In v groups : In v (map fst (DatabaseService.tally v groups)).
Proof.
  destruct (tally_keys v groups) as [[Hin ->]|[Hin ->]]; [exact Hin|].
  apply in_or_app. right. now left.
Qed.

Lemma tally_keeps u v groups :
  In u (map fst groups) -> In u (map fst (DatabaseService.tally v groups)).
Proof.
  intros Hu. destruct (tally_keys v groups) as [[Hin ->]|[Hin ->]]; [exact Hu|].
  apply in_or_app. now left.
Qed.

Lemma tally_positive v groups :
  Forall (fun g => 1 <= snd g) groups ->
  Forall (fun g => 1 <= snd g) (DatabaseService.tally v groups).
Proof.
  intros Hpos. induction groups as [|[x n] r IH]; simpl;
    [constructor; [simpl; lia|constructor]|].
  apply Forall_cons_1 in Hpos as [Hx Hr]. simpl in Hx.
  destruct (bool_decide (x = v)); constructor; simpl; auto; lia.
Qed.

Lemma tallied_In u n groups :
  NoDup (map fst groups) -> In (u, n) groups -> tallied u groups = n.
Proof.
  unfold tallied. induction groups as [|[x m] r IH]; simpl; [intros _ []|].
  intros Hnd [[= -> ->]|Hin].
  - now rewrite bool_decide_eq_true_2.
  - apply NoDup_cons in Hnd as [Hx Hnd].
    rewrite bool_decide_eq_false_2; [now apply IH|].
    intros ->. apply Hx, list_elem_of_In. now apply (in_map fst _ (u, n)).
Qed.

Section Grouping.
Context (k : string).

Lemma fold_tally l :
  forall acc,
    NoDup (map fst acc) -> Forall (fun g => 1 <= snd g) acc ->
    let groups :=
      fold_left (fun groups d =>
                   DatabaseService.tally (DatabaseService.group_key k d) groups)
        l acc in
    NoDup (map fst groups)
    /\ Forall (fun g => 1 <= snd g) groups
    /\ (forall u, tallied u groups = tallied u acc + count_where (in_group k u) l)
    /\ (forall u, In u (map fst acc) -> In u (map fst groups))
    /\ (forall d, In d l -> In (DatabaseService.group_key k d) (map fst groups)).
Proof.
  induction l as [|d l IH]; intros acc Hnd Hpos; simpl.
  - repeat split; auto; [|intros d []].
    intros u. unfold count_where. simpl. lia.
  - destruct (IH (DatabaseService.tally (DatabaseService.group_key k d) acc)
                (tally_NoDup _ _ Hnd) (tally_positive _ _ Hpos))
      as (H1 & H2 & H3 & H4 & H5).
    repeat split; auto.
    + intros u. rewrite H3, tallied_tally.
      unfold count_where, in_group. simpl.
      destruct (bool_decide (DatabaseService.group_key k d = u)); simpl length; lia.
    + intros u Hu. apply H4, tally_keeps, Hu.
    + intros d' [<-|Hd']; [apply H4, tally_In|now apply H5].
Qed.

Lemma group_count_grouped l :
  k <> "memberCount"%string -> grouped k l (DatabaseService.group_count k l).
Proof.
  intros Hk. unfold DatabaseService.group_count.
  destruct (fold_tally l [] (NoDup_nil_2) (Forall_nil_2 _)) as (Hnd & Hpos & Hcount & _ & Hall).
  set (groups := fold_left _ l []) in *.
  assert (forall g : value * Z,
            field (<[k := fst g]> (<["memberCount" := VNum (snd g)]> ∅) : doc) k = fst g)
    as Hkey by (intros g; unfold field; now rewrite lookup_insert_eq).
  assert (forall g : value * Z,
            field (<[k := fst g]> (<["memberCount" := VNum (snd g)]> ∅) : doc) "memberCount"
            = VNum (snd g)) as Hn.
  { intros g. unfold field. now rewrite lookup_insert_ne, lookup_insert_eq. }
  split; [|split].
  - rewrite map_map. erewrite map_ext; [exact Hnd|]. intros g. apply Hkey.
  - intros s Hs. apply in_map_iff in Hs as ([u n] & <- & Hg).
    rewrite Hkey, Hn. cbn [fst snd].
    pose proof (tallied_In u n groups Hnd Hg) as Ht. rewrite Hcount in Ht.
    unfold tallied in Ht. simpl in Ht. rewrite Z.add_0_l in Ht. rewrite Ht.
    split; [reflexivity|]. rewrite Forall_forall in Hpos.
    apply list_elem_of_In, Hpos in Hg. exact Hg.
  - intros d Hd. apply Hall, in_map_iff in Hd as (g & Hg & Hin).
    eexists. split; [apply in_map, Hin|]. now rewrite Hkey.
Qed.

(** The statistics stay those of the groups when they are put in another
    order and given fields other than the key and the count. *)
Lemma grouped_map l stats stats' (f : doc -> doc) :
  grouped k l stats -> Permutation stats' stats ->
  (forall s, field (f s) k = field s k) ->
  (forall s, field (f s) "memberCount" = field s "memberCount") ->
  grouped k l (map f stats').
Proof.
  intros (Hnd & Hcount & Hall) Hperm Hk Hn. split; [|split].
  - rewrite map_map. erewrite map_ext; [|intros s; apply Hk].
    now rewrite Hperm.
  - intros s Hs. apply in_map_iff in Hs as (s0 & <- & Hs0).
    rewrite Hk, Hn. apply Hcount. now apply (Permutation_in _ Hperm).
  - intros d Hd. destruct (Hall d Hd) as (s & Hs & Hkey).
    exists (f s). split; [|now rewrite Hk].
    apply in_map. now apply (Permutation_in _ (Permutation_sym Hperm)).
Qed.

End Grouping.

Lemma sorted_desc_map k (f : doc -> doc) l :
  (forall s, field (f s) k = field s k) ->
  sorted_desc k l -> sorted_desc k (map f l).
Proof.
  intros Hk Hs. unfold sorted_desc in *. induction Hs as [|x l Hs IH Hx]; simpl.
  - constructor.
  - constructor; [exact IH|]. rewrite Forall_forall in *. intros y Hy.
    apply list_elem_of_In, in_map_iff in Hy as (y0 & <- & Hy0).
    rewrite !Hk. apply Hx. now apply list_elem_of_In.
Qed.

(** X13. [getMemberStats] counts every member once per statistic. With the
    MongoDB backend and a reachable database it changes no collection and
    returns one entry per department and one per year, a member without
    the field counting under [null]: the entries of a statistic are for
    distinct values, each holds the number of members with its value,
    which is at least one, and every member is in one of them. The
    departments come by decreasing count, each with the percentage of its
    count in the number of members. *)
Theorem getMemberStats_grouped (w : World) :
  online E w = true ->
  let (r, w') := DatabaseService.getMemberStats E this H w in
  store w' = store w
  /\ exists stats,
       r = Return (Some stats)
       /\ grouped "department" (members w) (DatabaseService.departmentStats stats)
       /\ sorted_desc "memberCount" (DatabaseService.departmentStats stats)
       /\ (forall s, In s (DatabaseService.departmentStats stats) ->
             field s "percentage"
             = percentage H (field s "memberCount") (Z.of_nat (length (members w))))
       /\ grouped "year" (members w) (DatabaseService.yearStats stats).
Proof.
  intros Hon. destruct (online_connect E w Hon) as [h Hh].
  unfold DatabaseService.getMemberStats. rewrite mongodb. cbn [String.eqb Ascii.eqb Bool.eqb].
  monad_unfold. rewrite Hh, countDocuments_online. cbn [collection].
  rewrite connected_members.
  split; [apply connected_store|].
  eexists. split; [reflexivity|]. cbn [DatabaseService.departmentStats DatabaseService.yearStats].
  assert (forall (v : value) (s : doc) key, key <> "percentage"%string ->
            field (<["percentage" := v]> s) key = field s key) as Hskip.
  { intros v s key Hkey. unfold field. now rewrite lookup_insert_ne by congruence. }
  assert (count_where (fun _ => true) (members w) = Z.of_nat (length (members w))) as Hall.
  { unfold count_where. f_equal. f_equal.
    induction (members w) as [|d l IH]; simpl; [reflexivity|]. now rewrite IH. }
  rewrite Hall.
  split; [|split; [|split]].
  - apply (grouped_map "department" _ (DatabaseService.group_count "department" (members w))).
    + apply group_count_grouped. discriminate.
    + apply sort_desc_perm.
    + intros s. apply Hskip. discriminate.
    + intros s. apply Hskip. discriminate.
  - apply sorted_desc_map; [intros s; apply Hskip; discriminate|].
    apply sort_desc_sorted.
  - intros s Hs. apply in_map_iff in Hs as (s0 & <- & _).
    unfold field at 1. rewrite lookup_insert_eq. cbn [default].
    now rewrite Hskip by discriminate.
  - apply group_count_grouped. discriminate.
Qed.

End Aggregates.


(** ** The router and the service *)

Section Routing.
Context (E : Env).

(** The router makes one call at most and relays its outcome; when it
    makes none, its answer does not depend on the service and the state
    is left alone. *)
Lemma handler_cases {S} (svc : Api.t S) (req : Request) (s : S) :
  (calls_of E req = []
   /\ Database.handler E svc req s = (unrouted E req, s)
   /\ exists resp, unrouted E req = Return resp
                   /\ headers resp = Database.setHeaders req
                   /\ (status resp = 200 /\ sent resp = JEnd
                                         /\ method req = "OPTIONS"%string
                       \/ status resp = 400 \/ status resp = 405
                       \/ status resp = 500))
  \/ exists c,
       calls_of E req = [c]
       /\ Database.handler E svc req s
          = (let (r, s') := perform svc c s in (Return (relayed E req c r), s')).
Proof.
  unfold unrouted. router_unfold. unfold record_call. monad_unfold.
  destruct (String.eqb_spec (method req) "OPTIONS") as [Hopt|Hopt].
  { left. split; [reflexivity|]. split; [reflexivity|]. eexists.
    split; [reflexivity|]. split; [reflexivity|]. left. auto. }
  assert (forall code j,
            exists resp : Response,
              Return (mkResponse code (Database.setHeaders req) j) = Return resp
              /\ headers resp = Database.setHeaders req
              /\ (status resp = 200 /\ sent resp = JEnd /\ method req = "OPTIONS"%string
                  \/ code = status resp)) as Hresp.
  { intros code j. eexists. split; [reflexivity|]. split; [reflexivity|]. now right. }
  destruct (field (query req) "action") as [| | | |a| | |];
    try (left; split; [reflexivity|]; split; [reflexivity|];
         destruct (Hresp 400 (JError "Invalid action" None)) as (resp & Hr & Hh & Hs);
         exists resp; split; [exact Hr|]; split; [exact Hh|];
         destruct Hs as [Hs|Hs]; [now left|right; left; now rewrite <- Hs]).
  repeat match goal with
         | |- context [if String.eqb ?x ?y then _ else _] =>
             destruct (String.eqb x y)
         | |- context [if truthy ?v then _ else _] => destruct (truthy v)
         end;
    first
      [ right; eexists; split; [reflexivity|]; cbn [perform];
        match goal with
        | |- context [match ?m s with _ => _ end] => destruct (m s) as [[p|e] s']
        end; reflexivity
      | left; split; [reflexivity|]; split; [reflexivity|];
        eexists; split; [reflexivity|]; split; [reflexivity|]; cbn [status]; tauto ].
Qed.

End Routing.


(** ** What a call leaves alone *)

Section Keeping.
Context (E : Env) (H : Host) (this : Service).

Lemma keeps_ret {A} (a : A) : keeps_store (mret a).
Proof. intros w. reflexivity. Qed.

Lemma keeps_throw {A} e : keeps_store (throw e : M World A).
Proof. intros w. reflexivity. Qed.

Lemma keeps_get : keeps_store get.
Proof. intros w. reflexivity. Qed.

Lemma keeps_await {A} (p : outcome A) : keeps_store (await p).
Proof. intros w. reflexivity. Qed.

Lemma keeps_bind {A B} (m : M World A) (f : A -> M World B) :
  keeps_store m -> (forall a, keeps_store (f a)) -> keeps_store (m ≫= f).
Proof.
  intros Hm Hf w. unfold mbind, M_bind. specialize (Hm w).
  destruct (m w) as [[a|e] w1]; simpl in *; [|exact Hm].
  now rewrite Hf.
Qed.

Lemma keeps_stateless {A} (m : M World A) : stateless m -> keeps_store m.
Proof. intros Hm w. now rewrite Hm. Qed.

Lemma keeps_connect uri : keeps_store (connectToMongoDB E uri).
Proof. intros w. apply (cached_connect_frame E _ uri w). Qed.

Lemma keeps_Date_now : keeps_store (Date_now E).
Proof. intros w. reflexivity. Qed.

Lemma keeps_by_dbType m :
  keeps_store m -> keeps_store (DatabaseService.by_dbType this m).
Proof.
  intros Hm. unfold DatabaseService.by_dbType.
  destruct (String.eqb (dbType this) "mongodb"); [exact Hm|].
  destruct (String.eqb (dbType this) "mysql"); [apply keeps_throw|apply keeps_ret].
Qed.

Lemma keeps_find_by_id c id : keeps_store (DatabaseService.find_by_id E c id).
Proof.
  apply keeps_stateless. unfold DatabaseService.find_by_id.
  apply stateless_bind; [apply stateless_new_ObjectId|intros o].
  apply stateless_bind; [apply stateless_findOne|intros d]. apply stateless_ret.
Qed.

Lemma keeps_find_page c k limit skip :
  keeps_store (DatabaseService.find_page H c k limit skip).
Proof. intros w. reflexivity. Qed.

Lemma keeps_find_sort_limit c k n :
  keeps_store (DatabaseService.find_sort_limit c k n).
Proof. intros w. reflexivity. Qed.

Lemma keeps_countDocuments c f : keeps_store (DatabaseService.countDocuments c f).
Proof. intros w. reflexivity. Qed.

(** Solves [keeps_store] for a computation made of steps that keep it. *)
Ltac solve_keeps :=
  repeat first
    [ apply keeps_by_dbType | apply keeps_connect | apply keeps_Date_now
    | apply keeps_find_by_id | apply keeps_find_page | apply keeps_find_sort_limit
    | apply keeps_countDocuments | apply keeps_get | apply keeps_await
    | apply keeps_ret | apply keeps_throw
    | apply keeps_bind; [|intros ?]
    | match goal with |- keeps_store (if ?b then _ else _) => destruct b end ].

(** No reading method touches a collection, whatever the backend and
    whether or not the database can be reached. *)
Lemma reads_keep_store c :
  reads c = true -> keeps_store (perform (service_api E H this) c).
Proof.
  destruct c; try discriminate; intros _; cbn [perform service_api];
    unfold Api.getMemberById, Api.getMembers, Api.getEventById, Api.getEvents,
      Api.getBlogById, Api.getBlogsByAuthor, Api.getBlogs, Api.getDashboardStats,
      Api.getRecentActivity, Api.getMemberStats;
    unfold DatabaseService.getMemberById, DatabaseService.getMembers,
      DatabaseService.getEventById, DatabaseService.getEvents,
      DatabaseService.getBlogById, DatabaseService.getBlogsByAuthor,
      DatabaseService.getBlogs, DatabaseService.getDashboardStats,
      DatabaseService.getRecentActivity;
    solve_keeps; unfold DatabaseService.getMemberStats; solve_keeps.
Qed.

End Keeping.


(** ** Calls that throw *)

Section Throwing.
Context (E : Env) (H : Host) (this : Service).

(** A computation that, when it throws, has left the collections as they
    were. *)
Lemma wp_throws_clean_by_dbType (m : M World payload) w :
  wp m (fun r w' => forall e, r = Throw e -> store w' = store w) w ->
  wp (DatabaseService.by_dbType this m)
     (fun r w' => forall e, r = Throw e -> store w' = store w) w.
Proof.
  intros Hm. unfold DatabaseService.by_dbType.
  destruct (String.eqb (dbType this) "mongodb"); [exact Hm|].
  destruct (String.eqb (dbType this) "mysql"); unfold wp; simpl; auto.
Qed.

Lemma registerMember_throws memberData w e w' :
  DatabaseService.registerMember E this memberData w = (Throw e, w') ->
  store w' = store w.
Proof.
  intros Hr. pose proof (registerMember_creates E this memberData w) as Hc.
  cbv zeta in Hc. rewrite Hr in Hc.
  destruct Hc as (He & Hb & [(Hm & _)|(? & ? & _ & _ & _ & [=] & _)]).
  unfold store. now rewrite Hm, He, Hb.
Qed.

Lemma addEvent_throws eventData w e w' :
  DatabaseService.addEvent E this eventData w = (Throw e, w') ->
  store w' = store w.
Proof.
  intros Hr. pose proof (addEvent_creates E this eventData w) as Hc.
  cbv zeta in Hc. rewrite Hr in Hc.
  destruct Hc as (Hm & Hb & [(He & _)|(? & [=] & _)]).
  unfold store. now rewrite Hm, He, Hb.
Qed.

Lemma addBlog_throws blogData w e w' :
  DatabaseService.addBlog E this blogData w = (Throw e, w') ->
  store w' = store w.
Proof.
  intros Hr. pose proof (addBlog_creates E this blogData w) as Hc.
  cbv zeta in Hc. rewrite Hr in Hc.
  destruct Hc as (Hm & He & [(Hb & _)|(? & ? & ? & _ & _ & [=] & _)]).
  unfold store. now rewrite Hm, He, Hb.
Qed.

Lemma wp_run {A} (m : M World A) (Q : outcome A -> World -> Prop) w r w' :
  wp m Q w -> m w = (r, w') -> Q r w'.
Proof. unfold wp. intros Hq Hr. now rewrite Hr in Hq. Qed.

Lemma updateMember_throws memberId updateData w e w' :
  DatabaseService.updateMember E this memberId updateData w = (Throw e, w') ->
  store w' = store w.
Proof.
  intros Hr.
  refine (wp_run _ (fun r w' => forall e, r = Throw e -> store w' = store w)
            w _ _ _ Hr e eq_refl).
  set (Q := fun (r : outcome payload) (w' : World) => _).
  assert (Hfail : forall r w2, store w2 = store w -> Q r w2) by (intros r w2 Hst e0 _; exact Hst).
  unfold DatabaseService.updateMember.
  wp_step @wp_destructure; [intros e0; now apply Hfail|].
  apply wp_throws_clean_by_dbType. fold Q.
  wp_step wp_connectToMongoDB. intros [c|e0] w1 Hst Htk _; [|now apply Hfail].
  apply wp_stateless_bind.
  { destruct (truthy _); [|apply stateless_ret].
    apply stateless_bind; [apply stateless_call_toLowerCase_trim|intros ?].
    apply stateless_bind; [apply stateless_new_ObjectId|intros ?].
    apply stateless_bind; [apply stateless_findOne|intros [?|]];
      [apply stateless_throw|apply stateless_ret]. }
  intros [[]|e0]; [|now apply Hfail].
  wp_step @wp_trim_if; [intros e0; now apply Hfail|]. intros name' Hname.
  wp_step @wp_toLowerCase_trim_if; [intros e0; now apply Hfail|]. intros email' Hemail.
  wp_step @wp_trim_if; [intros e0; now apply Hfail|]. intros department' Hdep.
  wp_step @wp_trim_if; [intros e0; now apply Hfail|]. intros interests' Hint.
  wp_step wp_new_Date.
  wp_step @wp_new_ObjectId; [intros _; now apply Hfail|]. intros o Ho.
  wp_step wp_findOneAndUpdate; [intros _; now apply Hfail|]. intros m Hfind.
  apply wp_ret. intros e0 [=].
Qed.

Lemma updateEvent_throws eventId updateData w e w' :
  DatabaseService.updateEvent E this eventId updateData w = (Throw e, w') ->
  store w' = store w.
Proof.
  intros Hr.
  refine (wp_run _ (fun r w' => forall e, r = Throw e -> store w' = store w)
            w _ _ _ Hr e eq_refl).
  set (Q := fun (r : outcome payload) (w' : World) => _).
  assert (Hfail : forall r w2, store w2 = store w -> Q r w2) by (intros r w2 Hst e0 _; exact Hst).
  unfold DatabaseService.updateEvent.
  wp_step @wp_destructure; [intros e0; now apply Hfail|].
  apply wp_throws_clean_by_dbType. fold Q.
  wp_step wp_connectToMongoDB. intros [c|e0] w1 Hst Htk _; [|now apply Hfail].
  wp_step @wp_trim_if; [intros e0; now apply Hfail|]. intros title' Htitle.
  wp_step @wp_trim_if; [intros e0; now apply Hfail|]. intros description' Hdesc.
  wp_step @wp_trim_if; [intros e0; now apply Hfail|]. intros location' Hloc.
  wp_step wp_new_Date.
  wp_step @wp_new_ObjectId; [intros _; now apply Hfail|]. intros o Ho.
  wp_step wp_findOneAndUpdate; [intros _; now apply Hfail|]. intros m Hfind.
  apply wp_ret. intros e0 [=].
Qed.

Lemma updateBlog_throws blogId updateData w e w' :
  DatabaseService.updateBlog E this blogId updateData w = (Throw e, w') ->
  store w' = store w.
Proof.
  intros Hr.
  refine (wp_run _ (fun r w' => forall e, r = Throw e -> store w' = store w)
            w _ _ _ Hr e eq_refl).
  set (Q := fun (r : outcome payload) (w' : World) => _).
  assert (Hfail : forall r w2, store w2 = store w -> Q r w2) by (intros r w2 Hst e0 _; exact Hst).
  unfold DatabaseService.updateBlog.
  wp_step @wp_destructure; [intros e0; now apply Hfail|].
  apply wp_throws_clean_by_dbType. fold Q.
  wp_step wp_connectToMongoDB. intros [c|e0] w1 Hst Htk _; [|now apply Hfail].
  wp_step @wp_trim_if; [intros e0; now apply Hfail|]. intros title' Htitle.
  wp_step @wp_trim_if; [intros e0; now apply Hfail|]. intros content' Hcontent.
  wp_step wp_new_Date.
  wp_step @wp_new_ObjectId; [intros _; now apply Hfail|]. intros o Ho.
  wp_step wp_findOneAndUpdate; [intros _; now apply Hfail|]. intros m Hfind.
  apply wp_ret. intros e0 [=].
Qed.

Lemma wp_deleteOne c f (Q : outcome nat -> World -> Prop) w :
  (List.find (sat f) (collection c w) = None -> Q (Return 0%nat) w) ->
  (forall d, List.find (sat f) (collection c w) = Some d ->
     Q (Return 1%nat) (set_collection c (remove_first (sat f) (collection c w)) w)) ->
  wp (deleteOne c f) Q w.
Proof.
  intros Hn Hs. unfold wp, deleteOne. monad_unfold.
  destruct (List.find (sat f) (collection c w)); simpl; eauto.
Qed.

Lemma delete_throws c id notfound (k : M World payload) w e w' :
  (forall w1 r w2, k w1 = (r, w2) -> exists p, r = Return p) ->
  DatabaseService.by_dbType this (
    _ ← connectToMongoDB E (MONGODB_URI E);
    id' ← new_ObjectId E id;
    deletedCount ← deleteOne c (FEq "_id" id');
    if Nat.eqb deletedCount 0 then throw (Error notfound) else k) w
  = (Throw e, w') ->
  store w' = store w.
Proof.
  intros Hk Hr.
  refine (wp_run _ (fun r w' => forall e, r = Throw e -> store w' = store w)
            w _ _ _ Hr e eq_refl).
  set (Q := fun (r : outcome payload) (w' : World) => _).
  assert (Hfail : forall r w2, store w2 = store w -> Q r w2) by (intros r w2 Hst e0 _; exact Hst).
  apply wp_throws_clean_by_dbType. fold Q.
  wp_step wp_connectToMongoDB. intros [h|e0] w1 Hst Htk _; [|now apply Hfail].
  wp_step @wp_new_ObjectId; [intros _; now apply Hfail|]. intros o Ho.
  wp_step wp_deleteOne; [intros _; now apply Hfail|]. intros d Hfind.
  cbn [Nat.eqb]. unfold wp.
  destruct (k _) as [r w2] eqn:Hk2. destruct (Hk _ _ _ Hk2) as [p ->].
  intros e0 [=].
Qed.

(** A call that throws has changed no collection. *)
Lemma throws_keep_store c w e w' :
  perform (service_api E H this) c w = (Throw e, w') -> store w' = store w.
Proof.
  destruct (reads c) eqn:Hreads.
  { intros Hr. pose proof (reads_keep_store E H this c Hreads w) as Hk.
    now rewrite Hr in Hk. }
  destruct c; try discriminate; cbn [perform service_api];
    unfold Api.registerMember, Api.updateMember, Api.deleteMember, Api.addEvent,
      Api.updateEvent, Api.deleteEvent, Api.addBlog, Api.updateBlog, Api.deleteBlog.
  - apply registerMember_throws.
  - apply updateMember_throws.
  - apply delete_throws. intros w1 r w2. unfold deleteMany. monad_unfold.
    intros [= <- _]. eauto.
  - apply addEvent_throws.
  - apply updateEvent_throws.
  - apply delete_throws. intros w1 r w2 [= <- _]. eauto.
  - apply addBlog_throws.
  - apply updateBlog_throws.
  - apply delete_throws. intros w1 r w2 [= <- _]. eauto.
Qed.

End Throwing.


(** ** The database API *)

Section Serving.
Context (E : Env).

(** Each method of a request makes its own kind of call. *)
Lemma calls_of_verb req c :
  calls_of E req = [c] ->
  (method req = "GET"%string /\ reads c = true)
  \/ (method req = "POST"%string /\ creates c = true)
  \/ (method req = "PUT"%string /\ updates c = true)
  \/ (method req = "DELETE"%string /\ deletes c = true).
Proof.
  router_unfold. unfold record_call. monad_unfold.
  destruct (String.eqb (method req) "OPTIONS"); [discriminate|].
  destruct (field (query req) "action") as [| | | |a| | |]; try discriminate.
  repeat match goal with
         | |- context [if String.eqb ?x ?y then _ else _] =>
             destruct (String.eqb_spec x y)
         | |- context [if truthy ?v then _ else _] => destruct (truthy v)
         end;
    try discriminate; intros [= <-]; cbn [reads creates updates deletes]; tauto.
Qed.

(** X14. The router always answers. Whatever the service does, a request gets
    a response, never an exception: with the CORS headers of the request,
    and with status 200, 201, 400, 405 or 500, where 201 is the answer to
    a creation that returned and to nothing else. *)
Theorem router_always_answers {S} (svc : Api.t S) (req : Request) (s : S) :
  exists resp s',
    Database.handler E svc req s = (Return resp, s')
    /\ headers resp = Database.setHeaders req
    /\ (status resp = 200 \/ status resp = 201 \/ status resp = 400
        \/ status resp = 405 \/ status resp = 500)
    /\ (status resp = 201 <->
        exists c p, calls_of E req = [c] /\ creates c = true
                    /\ perform svc c s = (Return p, s')).
Proof.
  destruct (handler_cases E svc req s)
    as [(Hnone & -> & resp & -> & Hh & Hs)|(c & Hc & ->)].
  - exists resp, s. split; [reflexivity|]. split; [exact Hh|]. split; [tauto|].
    split.
    + intros H201. exfalso. destruct Hs as [(Hs & _)|[Hs|[Hs|Hs]]]; congruence.
    + intros (c & p & Hc & _). congruence.
  - destruct (perform svc c s) as [[p|e] s'] eqn:Hp; eexists; exists s';
      (split; [reflexivity|]); (split; [reflexivity|]); cbn [relayed status].
    + destruct (creates c) eqn:Hcr; (split; [tauto|]); split.
      * intros _. exists c, p. auto.
      * reflexivity.
      * discriminate.
      * intros (c' & p' & Hc' & Hcr' & _). congruence.
    + split; [tauto|]. split; [discriminate|].
      intros (c' & p' & Hc' & _ & Hp'). congruence.
Qed.

(** X15. The router relays the outcome of the call it makes. What the call
    returns is sent as [data] with status 201 for a creation and 200
    otherwise; what it throws is sent with status 500 as [error], the
    message of the exception or 'Internal server error' when that is
    empty, and the stack is sent along only when [NODE_ENV] is
    'development'. The state is the one the call leaves. *)
Theorem router_relays {S} (svc : Api.t S) (req : Request) (c : call) (s : S) :
  calls_of E req = [c] ->
  let (r, s') := perform svc c s in
  exists resp,
    Database.handler E svc req s = (Return resp, s')
    /\ match r with
       | Return p =>
           status resp = (if creates c then 201 else 200) /\ sent resp = JData p
       | Throw e =>
           status resp = 500
           /\ exists details,
                sent resp = JError (if String.eqb (message e) ""
                                    then "Internal server error" else message e)
                              details
                /\ (details = None \/ NODE_ENV E = Some "development"%string)
       end.
Proof.
  intros Hc.
  destruct (handler_cases E svc req s) as [(Hnone & _)|(c' & Hc' & Hh)];
    [congruence|].
  assert (c' = c) as -> by congruence. rewrite Hh.
  destruct (perform svc c s) as [[p|e] s']; eexists; (split; [reflexivity|]);
    cbn [relayed status sent]; [auto|].
  split; [reflexivity|]. eexists. split; [reflexivity|].
  case_bool_decide; auto.
Qed.

Context (H : Host).

(** X16. Only POST, PUT and DELETE requests can change a collection: any
    other request to the database API, GET and OPTIONS among them, leaves
    the members, the events and the blogs as they are, whatever its
    action and parameters, the backend and the state of the connection. *)
Theorem database_api_safe_methods (req : Request) (w : World) :
  method req <> "POST"%string -> method req <> "PUT"%string ->
  method req <> "DELETE"%string ->
  store (snd (database_api E H req w)) = store w.
Proof.
  intros Hpost Hput Hdel. unfold database_api, dbService.
  destruct (handler_cases E (service_api E H (new_DatabaseService E)) req w)
    as [(_ & -> & _)|(c & Hc & ->)]; [reflexivity|].
  destruct (calls_of_verb req c Hc) as [[_ Hr]|[[Hm _]|[[Hm _]|[Hm _]]]];
    try contradiction.
  pose proof (reads_keep_store E H (new_DatabaseService E) c Hr w) as Hk.
  destruct (perform _ c w) as [r w']. exact Hk.
Qed.

(** X17. What the service refuses, it refuses before it writes. Every
    request to the database API is answered. An answer with status 400
    or 405 comes from the router alone: no method of the service was
    called, and a request that calls none leaves the process exactly as
    it was. When the one call of a request throws an error of the
    service's own (a missing or malformed field, an address that is
    taken, a document that is not found, a method called on a value that
    lacks it) rather than one of the driver, the answer is 500 and the
    members, the events and the blogs are as they were. *)
Theorem database_api_errors_change_nothing (req : Request) (w : World) :
  let (r, w') := database_api E H req w in
  exists resp,
    r = Return resp
    /\ (status resp = 400 \/ status resp = 405 -> calls_of E req = [])
    /\ (calls_of E req = [] -> w' = w)
    /\ (forall c e,
          calls_of E req = [c] ->
          fst (perform (dbService E H) c w) = Throw e ->
          status resp = 500
          /\ (raised_by_service e = true -> store w' = store w)).
Proof.
  unfold database_api, dbService.
  destruct (handler_cases E (service_api E H (new_DatabaseService E)) req w)
    as [(Hnone & -> & resp & -> & _)|(c & Hc & ->)].
  - exists resp. split; [reflexivity|]. split; [auto|]. split; [auto|].
    intros c e Hc. congruence.
  - destruct (perform _ c w) as [[p|e] w'] eqn:Hp; eexists;
      (split; [reflexivity|]); cbn [relayed status].
    + split; [destruct (creates c); intros [?|?]; discriminate|].
      split; [congruence|].
      intros c' e Hc'. assert (c' = c) as -> by congruence.
      rewrite Hp. discriminate.
    + split; [intros [?|?]; discriminate|]. split; [congruence|].
      intros c' e' Hc'. assert (c' = c) as -> by congruence.
      rewrite Hp. intros [= <-]. split; [reflexivity|].
      intros _. exact (throws_keep_store E H _ c w e w' Hp).
Qed.

End Serving.


(** ** The join handler *)

Section Joining.
Context (E : Env).


End Joining.


(** ** The bare insert handler *)

Section Inserting.
Context (E : Env).

Lemma existsb_id_false (l : list doc) (v : value) :
  existsb (sat (FEq "_id" v)) l = false ->
  forall m, In m l -> field m "_id" <> v.
Proof.
  induction l as [|x l IH]; simpl; [intros _ m []|].
  intros Hex m [<-|Hin]; apply orb_false_elim in Hex as [Hx Hl].
  - now apply bool_decide_eq_false in Hx.
  - now apply IH.
Qed.

(** X19. The bare insert handler, outcome by outcome. Every request is
    answered, without any header, and the shared connection cache, the
    events and the blogs are never touched. A method other than POST is
    answered 405 and leaves the process as it was. A POST is answered
    500 'Database error', the members being as before, or 200 with the
    identifier of the inserted document: then the body was an object, and
    the members have gained that object, all its fields kept, under an
    identifier no member had, which is the [_id] of the body when it has
    one and a new [ObjectId] otherwise. *)
Theorem insert_handler_outcomes (req : Request) (w : World) :
  let (r, w') := Insert.handler E req w in
  exists resp,
    r = Return resp /\ headers resp = []
    /\ events w' = events w /\ blogs w' = blogs w /\ w_mongo w' = w_mongo w
    /\ ((status resp = 405 /\ sent resp = JError "Only POST allowed" None
         /\ method req <> "POST"%string /\ w' = w)
        \/ (status resp = 500 /\ sent resp = JError "Database error" None
            /\ method req = "POST"%string /\ members w' = members w)
        \/ (status resp = 200 /\ method req = "POST"%string
            /\ exists d id,
                 body req = Obj d /\ sent resp = JInserted id
                 /\ members w' = members w ++ [<["_id" := id]> d]
                 /\ (forall m, In m (members w) -> field m "_id" <> id)
                 /\ if nullish (field d "_id") then exists o, id = VObjectId o
                    else id = field d "_id")).
Proof.
  wp_goal. set (Q := fun (r : outcome Response) (w' : World) => _).
  unfold Insert.handler.
  destruct (String.eqb_spec (method req) "POST") as [Hpost|Hpost]; cbn [negb];
    [|apply wp_ret; unfold Q; eexists; repeat (split; [reflexivity|]); left; auto].
  assert (Hfail : forall w2, events w2 = events w -> blogs w2 = blogs w ->
                             w_mongo w2 = w_mongo w -> members w2 = members w ->
                             wp (Insert.reply 500 (JError "Database error" None)) Q w2).
  { intros w2 H1 H2 H3 H4. apply wp_ret. unfold Q. eexists.
    split; [reflexivity|]. split; [reflexivity|]. repeat (split; [assumption|]).
    right; left. auto. }
  assert (Hrest : forall w2, events w2 = events w -> blogs w2 = blogs w ->
                             w_mongo w2 = w_mongo w -> members w2 = members w ->
            wp (Insert.through_client E ;;
                insertOne Members (body req) ≫= fun insertedId =>
                Insert.reply 200 (JInserted insertedId))
               (fun r w3 => match r with
                            | Return a => Q (Return a) w3
                            | Throw e =>
                                wp (Insert.reply 500 (JError "Database error" None)) Q w3
                            end) w2).
  { intros w2 H1 H2 H3 H4. apply wp_bind. unfold Insert.through_client.
    destruct (reachable E (Insert.uri E)); [apply wp_ret|apply wp_throw; now apply Hfail].
    destruct (body req) as [d|v] eqn:Hbody;
      [|apply wp_bind, wp_throw; now apply Hfail].
    apply wp_bind. unfold wp at 1, insertOne. monad_unfold.
    destruct (nullish (field d "_id")) eqn:Hn.
    - cbn [collection set_collection set_oids members events blogs w_mongo fst snd].
      apply wp_ret. unfold Q. eexists. split; [reflexivity|]. split; [reflexivity|].
      split; [exact H1|]. split; [exact H2|]. split; [exact H3|].
      right; right. split; [reflexivity|]. split; [exact Hpost|].
      exists d. eexists. split; [reflexivity|]. split; [reflexivity|].
      split; [now rewrite H4|]. split.
      + intros m Hin. apply (fresh_oid_new Members w2). cbn [collection].
        now rewrite H4.
      + rewrite Hn. eauto.
    - cbn [collection]. destruct (existsb _ (members w2)) eqn:Hex; cbn [fst snd].
      + now apply Hfail.
      + apply wp_ret. unfold Q. cbn [set_collection members events blogs w_mongo].
        eexists. split; [reflexivity|]. split; [reflexivity|].
        split; [exact H1|]. split; [exact H2|]. split; [exact H3|].
        right; right. split; [reflexivity|]. split; [exact Hpost|].
        exists d, (field d "_id"). split; [reflexivity|]. split; [reflexivity|].
        split.
        * rewrite H4. do 2 f_equal. apply map_eq. intros k.
          destruct (decide (k = "_id"%string)) as [->|Hk].
          -- rewrite lookup_insert_eq. unfold field in *.
             destruct (d !! "_id"%string) as [v|]; [reflexivity|discriminate].
          -- now rewrite lookup_insert_ne by congruence.
        * split; [rewrite <- H4; now apply existsb_id_false|]. now rewrite Hn. }
  apply wp_try_catch. wp_step @wp_get.
  destruct (w_client w) eqn:Hclient.
  - apply wp_bind, wp_ret. now apply Hrest.
  - apply wp_bind. wp_step wp_new_MongoClient; [intros e; now apply Hfail|].
    wp_step @wp_modify. wp_step @wp_await.
    destruct (client_connect E _ _); [|now apply Hfail].
    apply wp_ret. now apply Hrest.
Qed.

End Inserting.


(** ** The clients of a process *)

Section Clients.
Context (E : Env) (H : Host).

Lemma connects_refl w : connects w w.
Proof. split; auto. Qed.

Lemma connects_trans w1 w2 w3 : connects w1 w2 -> connects w2 w3 -> connects w1 w3.
Proof. intros [H1 H2] [H3 H4]. split; [congruence|auto]. Qed.

Lemma quiet_connects w w' :
  w_mongo w' = w_mongo w -> w_clients w' = w_clients w -> w_client w' = w_client w ->
  connects w w'.
Proof.
  intros H1 H2 H3. split; [exact H3|].
  unfold clients_inv, cache_clients, own_clients. now rewrite H1, H2, H3.
Qed.

Lemma quiet_connecting {A} (m : M World A) : quiet m -> connecting m.
Proof. intros Hq w. destruct (Hq w) as (H1 & H2 & H3). now apply quiet_connects. Qed.

Lemma connecting_bind {A B} (m : M World A) (f : A -> M World B) :
  connecting m -> (forall a, connecting (f a)) -> connecting (m ≫= f).
Proof.
  intros Hm Hf w. unfold mbind, M_bind. specialize (Hm w).
  destruct (m w) as [[a|e] w1]; simpl in *; [|exact Hm].
  exact (connects_trans _ _ _ Hm (Hf a w1)).
Qed.

Lemma connecting_try_catch {A} (m : M World A) (h : exn -> M World A) :
  connecting m -> (forall e, connecting (h e)) -> connecting (try_catch m h).
Proof.
  intros Hm Hh w. unfold try_catch. specialize (Hm w).
  destruct (m w) as [[a|e] w1]; simpl in *; [exact Hm|].
  exact (connects_trans _ _ _ Hm (Hh e w1)).
Qed.

Lemma quiet_ret {A} (a : A) : quiet (mret a : M World A).
Proof. intros w. auto. Qed.

Lemma quiet_throw {A} e : quiet (throw e : M World A).
Proof. intros w. auto. Qed.

Lemma quiet_stateless {A} (m : M World A) : stateless m -> quiet m.
Proof. intros Hm w. rewrite Hm. auto. Qed.

Lemma quiet_insertOne c d : quiet (insertOne c d).
Proof.
  intros w. unfold insertOne. destruct d as [d|v]; [|simpl; auto].
  monad_unfold. destruct (nullish _); [destruct c; simpl; auto|].
  destruct (existsb _ _); [simpl; auto|destruct c; simpl; auto].
Qed.

Lemma quiet_deleteOne c f : quiet (deleteOne c f).
Proof.
  intros w. unfold deleteOne. monad_unfold.
  destruct (List.find _ _); [destruct c; simpl; auto|simpl; auto].
Qed.

Lemma quiet_deleteMany c f : quiet (deleteMany c f).
Proof. intros w. unfold deleteMany. monad_unfold. destruct c; simpl; auto. Qed.

Lemma quiet_findOneAndUpdate c f fields : quiet (findOneAndUpdate c f fields).
Proof.
  intros w. unfold findOneAndUpdate. monad_unfold.
  destruct (List.find _ _); [destruct c; simpl; auto|simpl; auto].
Qed.

Lemma quiet_Date_now : quiet (Date_now E).
Proof. intros w. simpl. auto. Qed.

Lemma quiet_new_Date : quiet (new_Date E).
Proof. intros w. simpl. auto. Qed.

Lemma quiet_destructure d : quiet (destructure d : M World doc).
Proof. intros w. destruct d as [d|[]]; simpl; auto. Qed.

Lemma quiet_call_trim x v : quiet (call_trim E x v : M World value).
Proof. intros w. destruct v; simpl; auto. Qed.

Lemma quiet_opt_trim x v : quiet (opt_trim E x v : M World value).
Proof. intros w. destruct v; simpl; auto. Qed.

Lemma quiet_call_toLowerCase_trim x v :
  quiet (call_toLowerCase_trim E x v : M World value).
Proof. intros w. destruct v; simpl; auto. Qed.

Lemma quiet_new_ObjectId v : quiet (new_ObjectId E v : M World value).
Proof. apply quiet_stateless, stateless_new_ObjectId. Qed.

Lemma quiet_reads {A} (f : World -> outcome A) : quiet (fun w => (f w, w)).
Proof. intros w. auto. Qed.

(** A call to either connection function constructs a client only when
    the cache is empty, and then puts the cache in use. *)
Lemma connecting_cached_connect options uri :
  connecting (cached_connect E options uri).
Proof.
  intros w. split; [apply (cached_connect_frame E options uri w)|].
  unfold clients_inv, cache_clients, own_clients.
  pose proof (proj2 (proj2 (proj2 (cached_connect_frame E options uri w)))) as Hcl.
  rewrite Hcl. generalize (match w_client w with None => 0 | Some _ => 1 end)%nat.
  intros n. unfold cached_connect, new_MongoClient, client_connect. monad_unfold.
  destruct (conn (w_mongo w)) eqn:Hc; [simpl; now rewrite Hc|].
  destruct (promise (w_mongo w)) as [[c|e]|] eqn:Hp; simpl; try (rewrite ?Hc, ?Hp; lia).
  destruct (uri_valid E uri); simpl; [|rewrite Hc, Hp; lia].
  destruct (reachable E uri); simpl; rewrite length_app; simpl; lia.
Qed.

Lemma connecting_connectToMongoDB uri : connecting (connectToMongoDB E uri).
Proof. apply connecting_cached_connect. Qed.

Lemma connecting_connectToDatabase uri : connecting (connectToDatabase E uri).
Proof. apply connecting_cached_connect. Qed.

(** Solves [connecting] for a computation made of the steps of the
    service and of the handlers. *)
Ltac solve_connecting :=
  repeat first
    [ apply connecting_connectToMongoDB | apply connecting_connectToDatabase
    | apply connecting_bind; [|intros ?]
    | apply connecting_try_catch; [|intros ?]
    | match goal with
      | |- connecting (if ?b then _ else _) => destruct b
      | |- connecting (match ?x with Some _ => _ | None => _ end) => destruct x
      | |- connecting (DatabaseService.by_dbType _ _) =>
          unfold DatabaseService.by_dbType
      | |- connecting (let _ := _ in _) => cbv zeta
      end
    | apply quiet_connecting;
      first [ apply quiet_ret | apply quiet_throw | apply quiet_insertOne
            | apply quiet_deleteOne | apply quiet_deleteMany
            | apply quiet_findOneAndUpdate | apply quiet_Date_now
            | apply quiet_new_Date | apply quiet_destructure | apply quiet_call_trim
            | apply quiet_opt_trim | apply quiet_call_toLowerCase_trim
            | apply quiet_new_ObjectId | apply quiet_reads
            | apply quiet_stateless; apply stateless_findOne ] ].

Lemma connecting_perform this c : connecting (perform (service_api E H this) c).
Proof.
  destruct c; unfold service_api;
    cbn [perform Api.getMemberById Api.getMembers Api.registerMember Api.updateMember
      Api.deleteMember Api.getEventById Api.getEvents Api.addEvent
      Api.updateEvent Api.deleteEvent Api.getBlogById Api.getBlogsByAuthor
      Api.getBlogs Api.addBlog Api.updateBlog Api.deleteBlog
      Api.getDashboardStats Api.getRecentActivity Api.getMemberStats];
    unfold DatabaseService.getMemberById, DatabaseService.getMembers,
      DatabaseService.registerMember, DatabaseService.updateMember,
      DatabaseService.deleteMember, DatabaseService.getEventById,
      DatabaseService.getEvents, DatabaseService.addEvent,
      DatabaseService.updateEvent, DatabaseService.deleteEvent,
      DatabaseService.getBlogById, DatabaseService.getBlogsByAuthor,
      DatabaseService.getBlogs, DatabaseService.addBlog, DatabaseService.updateBlog,
      DatabaseService.deleteBlog, DatabaseService.getDashboardStats,
      DatabaseService.getRecentActivity;
    unfold DatabaseService.find_by_id, DatabaseService.find_page,
      DatabaseService.find_sort_limit, DatabaseService.countDocuments, get, await;
    solve_connecting; unfold DatabaseService.getMemberStats,
      DatabaseService.countDocuments, get; solve_connecting.
Qed.

Lemma connecting_database_api req : connecting (database_api E H req).
Proof.
  intros w. unfold database_api, dbService.
  destruct (handler_cases E (service_api E H (new_DatabaseService E)) req w)
    as [(_ & -> & _)|(c & _ & ->)]; [apply connects_refl|].
  pose proof (connecting_perform (new_DatabaseService E) c w) as Hc.
  now destruct (perform _ c w) as [r w'].
Qed.

Lemma connecting_join req : connecting (Join.handler E req).
Proof. unfold Join.handler, Join.reply. solve_connecting. Qed.

(** The bare insert handler constructs a client only when it holds none,
    and never touches the shared cache. *)
Lemma insert_handler_clients req w :
  let w' := snd (Insert.handler E req w) in
  w_mongo w' = w_mongo w /\ (clients_inv w -> clients_inv w').
Proof.
  unfold Insert.handler, Insert.reply, Insert.through_client, new_MongoClient,
    client_connect, clients_inv, cache_clients, own_clients.
  destruct (negb _); [simpl; auto|].
  monad_unfold. destruct (w_client w) eqn:Hcl.
  - assert (forall w2 (m : M World value),
              quiet m ->
              w_mongo w2 = w_mongo w -> w_clients w2 = w_clients w ->
              w_client w2 = w_client w ->
              forall (k : value -> Response) r,
              let w' := snd (match (match m w2 with
                                    | (Return a, s') => (Return (k a), s')
                                    | (Throw e, s') => (Throw e, s')
                                    end) with
                             | (Return a, s') => (Return a, s')
                             | (Throw e, s') => (Return r, s')
                             end) in
              w_mongo w' = w_mongo w /\ w_clients w' = w_clients w
              /\ w_client w' = w_client w) as Hq.
    { intros w2 m Hm H1 H2 H3 k r. destruct (Hm w2) as (Ha & Hb & Hc).
      destruct (m w2) as [[a|e] w3]; simpl in *; repeat split; congruence. }
    destruct (reachable E (Insert.uri E)).
    + destruct (Hq w _ (quiet_insertOne Members (body req)) eq_refl eq_refl eq_refl
                  (fun id => mkResponse 200 [] (JInserted id))
                  (mkResponse 500 [] (JError "Database error" None)))
        as (H1 & H2 & H3).
      cbv zeta in H1, H2, H3. rewrite H1, H2, H3, Hcl. auto.
    + simpl. rewrite Hcl. auto.
  - destruct (uri_valid E (Insert.uri E)); [|simpl; rewrite Hcl; auto].
    destruct (reachable E (Insert.uri E)); cbn [fst snd set_client add_client];
      [|simpl; rewrite length_app; simpl; split; [reflexivity|lia]].
    pose proof (quiet_insertOne Members (body req)
                  (set_client (Some (length (w_clients w)))
                     (add_client (mkClient (Insert.uri E) []) w))) as (H1 & H2 & H3).
    destruct (insertOne Members (body req) _) as [[a|e] w3]; simpl in *;
      rewrite H1, H2, H3, length_app; simpl; split; try reflexivity; lia.
Qed.

Lemma serve_clients reqs :
  forall w, clients_inv w -> clients_inv (snd (serve E H reqs w)).
Proof.
  induction reqs as [|[ep req] reqs IH]; intros w Hw; simpl; [exact Hw|].
  assert (clients_inv (snd (serve_one E H ep req w))) as H1.
  { destruct ep; cbn [serve_one].
    - now apply (connecting_join req w).
    - now apply (insert_handler_clients req w).
    - now apply (connecting_database_api req w). }
  destruct (serve_one E H ep req w) as [r w1]. simpl in H1.
  specialize (IH w1 H1). now destruct (serve E H reqs w1) as [rs w2].
Qed.

(** X20. A process constructs two clients at most, however many requests it
    serves through its three handlers: the join handler and the database
    API share one through the connection cache, and the bare insert
    handler keeps one of its own. A process that serves only the first
    two constructs one at most and leaves the client of the insert
    handler unset; one that serves only the insert handler constructs one
    at most and leaves the cache empty. *)
Theorem process_clients (reqs : list (endpoint * Request)) (ms es bs : list doc) :
  let w' := snd (serve E H reqs (boot ms es bs)) in
  (length (w_clients w') <= 2)%nat
  /\ (Forall (fun x => fst x <> InsertApi) reqs ->
      (length (w_clients w') <= 1)%nat /\ w_client w' = None)
  /\ (Forall (fun x => fst x = InsertApi) reqs ->
      (length (w_clients w') <= 1)%nat /\ w_mongo w' = mkCache None None).
Proof.
  cbv zeta.
  assert (clients_inv (boot ms es bs)) as H0 by (unfold clients_inv; simpl; lia).
  pose proof (serve_clients reqs _ H0) as Hinv.
  assert (forall w, (cache_clients w <= 1)%nat) as Hc.
  { intros w. unfold cache_clients.
    destruct (conn (w_mongo w)), (promise (w_mongo w)); lia. }
  assert (forall w, (own_clients w <= 1)%nat) as Ho.
  { intros w. unfold own_clients. destruct (w_client w); lia. }
  split; [|split].
  - unfold clients_inv in Hinv.
    pose proof (Hc (snd (serve E H reqs (boot ms es bs)))).
    pose proof (Ho (snd (serve E H reqs (boot ms es bs)))). lia.
  - intros Hno.
    assert (w_client (snd (serve E H reqs (boot ms es bs))) = None) as Hnone.
    { change None with (w_client (boot ms es bs)). clear Hinv H0.
      generalize (boot ms es bs). induction Hno as [|[ep req] reqs Hep Hno IH];
        intros w; simpl; [reflexivity|].
      assert (w_client (snd (serve_one E H ep req w)) = w_client w) as H1.
      { destruct ep; cbn [serve_one]; [apply (connecting_join req w)
                                      |now simpl in Hep
                                      |apply (connecting_database_api req w)]. }
      destruct (serve_one E H ep req w) as [r w1]. simpl in H1.
      specialize (IH w1). destruct (serve E H reqs w1) as [rs w2]. simpl in *.
      congruence. }
    split; [|exact Hnone]. unfold clients_inv, own_clients in Hinv.
    rewrite Hnone in Hinv.
    pose proof (Hc (snd (serve E H reqs (boot ms es bs)))). lia.
  - intros Honly.
    assert (w_mongo (snd (serve E H reqs (boot ms es bs))) = mkCache None None)
      as Hnone.
    { change (mkCache None None) with (w_mongo (boot ms es bs)). clear Hinv H0.
      generalize (boot ms es bs). induction Honly as [|[ep req] reqs Hep Honly IH];
        intros w; simpl; [reflexivity|].
      simpl in Hep. subst ep. cbn [serve_one].
      pose proof (proj1 (insert_handler_clients req w)) as H1.
      destruct (Insert.handler E req w) as [r w1]. simpl in H1.
      specialize (IH w1). destruct (serve E H reqs w1) as [rs w2]. simpl in *.
      congruence. }
    split; [|exact Hnone]. unfold clients_inv, cache_clients in Hinv.
    rewrite Hnone in Hinv. simpl in Hinv.
    pose proof (Ho (snd (serve E H reqs (boot ms es bs)))). lia.
Qed.

End Clients.


(** ** The uniqueness of the addresses *)

Section Unique.
Context (E : Env) (this : Service).

Lemma unique_on_app_new k l d :
  unique_on k l -> (forall m, In m l -> field m k <> field d k) ->
  unique_on k (l ++ [d]).
Proof.
  unfold unique_on. intros Hl Hd. rewrite map_app. apply NoDup_app.
  split; [exact Hl|]. split; [|apply NoDup_singleton].
  intros v Hv Hv'. apply list_elem_of_singleton in Hv'. subst v.
  apply list_elem_of_In, in_map_iff in Hv as (m & Hm & Hin).
  exact (Hd m Hin Hm).
Qed.

Lemma unique_on_replace k pre m m' post :
  unique_on k (pre ++ m :: post) ->
  (forall d, In d (pre ++ post) -> field d k <> field m' k) ->
  unique_on k (pre ++ m' :: post).
Proof.
  unfold unique_on. rewrite !map_app. cbn [map]. intros Hnd Hnew.
  apply NoDup_app in Hnd as (Hpre & Hdisj & Hrest).
  apply NoDup_cons in Hrest as (Hm & Hpost).
  apply NoDup_app. split; [exact Hpre|]. split.
  - intros v Hv Hv'. apply elem_of_cons in Hv' as [->|Hv'].
    + apply list_elem_of_In, in_map_iff in Hv as (d & Hd & Hin).
      apply (Hnew d); [apply in_or_app; now left|exact Hd].
    + apply (Hdisj v Hv). now right.
  - apply NoDup_cons. split; [|exact Hpost].
    intros Hin. apply list_elem_of_In, in_map_iff in Hin as (d & Hd & Hin).
    apply (Hnew d); [apply in_or_app; now right|exact Hd].
Qed.

Lemma unique_on_same k pre m m' post :
  unique_on k (pre ++ m :: post) -> field m' k = field m k ->
  unique_on k (pre ++ m' :: post).
Proof. unfold unique_on. rewrite !map_app. cbn [map]. now intros H ->. Qed.

(** In a collection without two documents of the same identifier, the
    documents around the one with the identifier [o] have another. *)
Lemma unique_id_others pre m post o :
  unique_on "_id" (pre ++ m :: post) -> field m "_id" = VObjectId o ->
  forall d, In d (pre ++ post) -> field d "_id" <> VObjectId o.
Proof.
  unfold unique_on. rewrite map_app. cbn [map]. intros Hnd Hm d Hd Ho.
  apply NoDup_app in Hnd as (Hpre & Hdisj & Hrest).
  apply NoDup_cons in Hrest as (Hnm & Hpost).
  apply in_app_or in Hd as [Hd|Hd].
  - apply (Hdisj (field d "_id")).
    + apply list_elem_of_In. exact (in_map (fun x : doc => field x "_id") _ _ Hd).
    + rewrite Ho, <- Hm. now left.
  - apply Hnm. rewrite Hm, <- Ho. apply list_elem_of_In.
    exact (in_map (fun x : doc => field x "_id") _ _ Hd).
Qed.

(** X21. [updateMember] keeps the addresses of the members distinct. When no
    two members share an identifier and no two share an [email],
    whatever the call is given and whatever it does, no two members
    share an [email] afterwards: an address another member holds is
    refused before anything is written. *)
Theorem updateMember_keeps_emails_unique
    (memberId : value) (updateData : data) (w : World) :
  unique_on "_id" (members w) -> unique_on "email" (members w) ->
  unique_on "email"
    (members (snd (DatabaseService.updateMember E this memberId updateData w))).
Proof.
  intros Hids Hemails.
  apply (wp_run (DatabaseService.updateMember E this memberId updateData)
           (fun _ w' => unique_on "email" (members w')) w
           (fst (DatabaseService.updateMember E this memberId updateData w)));
    [|now destruct (DatabaseService.updateMember E this memberId updateData w)].
  assert (Hfail : forall w2, store w2 = store w -> unique_on "email" (members w2)).
  { intros w2 Hst. unfold store in Hst. injection Hst as H1 H2 H3. now rewrite H1. }
  unfold DatabaseService.updateMember.
  wp_step @wp_destructure; [intros e; now apply Hfail|].
  set (upd := properties updateData).
  unfold DatabaseService.by_dbType.
  destruct (String.eqb (dbType this) "mongodb");
    [|destruct (String.eqb (dbType this) "mysql"); now apply Hfail].
  wp_step wp_connectToMongoDB. intros [c|e] w1 Hst Htk _; [|now apply Hfail].
  unfold store in Hst. injection Hst as Hm He Hb.
  assert (wp_check :
    forall (Q' : outcome unit -> World -> Prop),
      (forall e, Q' (Throw e) w1) ->
      ((truthy (field upd "email") = true ->
        exists str o,
          field upd "email" = VStr str
          /\ ObjectId_parse E memberId = Some o
          /\ forall d, In d (members w) -> field d "_id" <> VObjectId o ->
                       field d "email"
                       <> VStr (JsString.trim (JsString.toLowerCase str))) ->
       Q' (Return tt) w1) ->
      wp (if truthy (field upd "email")
          then email' ← call_toLowerCase_trim E "email" (field upd "email");
               id ← new_ObjectId E memberId;
               existingMember ← findOne Members (FAnd (FEq "email" email') (FNe "_id" id));
               match existingMember with
               | Some _ => throw (Error "Email already taken by another member")
               | None => mret tt
               end
          else mret tt) Q' w1).
  { intros Q' Ht Hr. destruct (truthy (field upd "email")) eqn:Hemail;
      [|apply wp_ret, Hr; discriminate].
    wp_step @wp_call_toLowerCase_trim; [exact Ht|]. intros str Hstr.
    wp_step @wp_new_ObjectId; [intros _; apply Ht|]. intros o Ho.
    wp_step wp_findOne. cbn [collection]. rewrite Hm.
    destruct (List.find _ (members w)) eqn:Hfind; [apply wp_throw, Ht|].
    apply wp_ret, Hr. intros _. exists str, o. split; [exact Hstr|].
    split; [exact Ho|]. intros d Hin Hid Hmail.
    apply (find_none _ _ Hfind) in Hin. cbn [sat] in Hin.
    rewrite (bool_decide_eq_true_2 _ Hmail), (bool_decide_eq_false_2 _ Hid) in Hin.
    discriminate. }
  wp_step wp_check; [intros e; apply Hfail; unfold store; now rewrite Hm, He, Hb|].
  intros Hchecked.
  assert (Hfail1 : unique_on "email" (members w1))
    by (apply Hfail; unfold store; now rewrite Hm, He, Hb).
  wp_step @wp_trim_if; [intros e; apply Hfail1|]. intros name' Hname.
  wp_step @wp_toLowerCase_trim_if; [intros e; apply Hfail1|]. intros email' Hemail.
  wp_step @wp_trim_if; [intros e; apply Hfail1|]. intros department' Hdep.
  wp_step @wp_trim_if; [intros e; apply Hfail1|]. intros interests' Hint.
  wp_step wp_new_Date.
  wp_step @wp_new_ObjectId;
    [intros _; apply Hfail; unfold store; cbn [tick members events blogs];
     now rewrite Hm, He, Hb|].
  intros o Ho.
  wp_step wp_findOneAndUpdate;
    [intros _; apply wp_throw, Hfail; unfold store; cbn [tick members events blogs];
     now rewrite Hm, He, Hb|].
  intros m Hfind. apply wp_ret.
  cbn [collection tick members set_collection] in *. rewrite Hm in *.
  destruct (find_split _ _ _ Hfind) as (pre & post & Hsplit & Hm0 & Hpre).
  apply sat_FEq in Hm0.
  rewrite Hsplit, (update_first_app _ _ pre post m Hpre) by now apply sat_FEq.
  rewrite Hsplit in Hemails, Hids.
  pose proof (updateFields_lookup upd name' email' department' interests'
                (VDate (Some (clock E (w_ticks w1)))) "email"
                Hname Hemail Hdep Hint ltac:(discriminate)) as Hlook.
  destruct (truthy (field upd "email")) eqn:Hsupplied.
  - rewrite (supplied_true member_fields upd "email") in Hlook;
      [|apply list_elem_of_In; simpl; tauto|exact Hsupplied].
    destruct (Hchecked eq_refl) as (str & o' & Hstr & Ho' & Hfree).
    assert (o' = o) as -> by congruence.
    apply (unique_on_replace "email" pre m _ post Hemails).
    intros d Hd. unfold field at 2. rewrite (lookup_union_Some_l _ _ _ _ Hlook).
    cbn [default]. rewrite Hstr. cbn [normalised String.eqb Ascii.eqb Bool.eqb].
    apply Hfree.
    + rewrite Hsplit. apply in_app_or in Hd as [Hd|Hd]; apply in_or_app;
        [now left|right; now right].
    + exact (unique_id_others pre m post o Hids Hm0 d Hd).
  - rewrite (supplied_falsy member_fields upd "email" Hsupplied) in Hlook.
    apply (unique_on_same "email" pre m _ post Hemails).
    unfold field. now rewrite (lookup_union_r _ _ _ Hlook).
Qed.

(** X22. [registerMember] keeps the addresses of the members distinct when it
    is given an address without capitals: if no two members share an
    [email], none do after the call. *)
Theorem registerMember_keeps_emails_unique (memberData : data) (w : World) :
  (forall e, field (properties memberData) "email" = VStr e -> JsString.lowercased e) ->
  unique_on "email" (members w) ->
  unique_on "email"
    (members (snd (DatabaseService.registerMember E this memberData w))).
Proof.
  intros Hlow Hemails.
  pose proof (registerMember_creates E this memberData w) as Hc. cbv zeta in Hc.
  destruct (DatabaseService.registerMember E this memberData w) as [r w'].
  cbn [snd]. destruct Hc as (_ & _ & [(-> & _)|Hnew]); [exact Hemails|].
  destruct Hnew as (e & d & He & Hre & Hfree & _ & -> & Hd & _).
  apply unique_on_app_new; [exact Hemails|].
  intros m Hin. unfold field at 2. rewrite Hd. cbn [default].
  rewrite (Hlow e He).
  rewrite JsStringFacts.trim_spaceless
    by now apply RegexFacts.emailRegex_spaceless.
  now apply Hfree.
Qed.

End Unique.


(** ** The pattern of an address *)

Module PatternFacts.
Import Regex.

Lemma append_nil_l (t : string) : "" +:+ t = t.
Proof. reflexivity. Qed.

Lemma append_cons c (s t : string) : String c s +:+ t = String c (s +:+ t).
Proof. reflexivity. Qed.

Lemma append_empty s1 s2 : s1 +:+ s2 = ""%string -> s1 = ""%string /\ s2 = ""%string.
Proof. destruct s1; rewrite ?append_cons, ?append_nil_l; [auto|discriminate]. Qed.

Lemma nullable_lang r : nullable r = true <-> lang r "".
Proof.
  induction r as [| |p|a IHa b IHb|a IHa b IHb|a IHa]; simpl.
  - split; [discriminate|intros []].
  - tauto.
  - split; [discriminate|intros (c & [=] & _)].
  - rewrite andb_true_iff, IHa, IHb. split.
    + intros [Ha Hb]. exists ""%string, ""%string. auto.
    + intros (s1 & s2 & Hs & Ha & Hb). symmetry in Hs.
      apply append_empty in Hs as [-> ->]. auto.
  - rewrite orb_true_iff, IHa, IHb. tauto.
  - split; [constructor|reflexivity].
Qed.

(** A word of a starred language that starts with [c]. *)
Lemma star_cons (L : string -> Prop) c s :
  star L (String c s) <->
  exists s1 s2, s = s1 +:+ s2 /\ L (String c s1) /\ star L s2.
Proof.
  split.
  - intros Hs. remember (String c s) as t eqn:Ht. revert c s Ht.
    induction Hs as [|s1 s2 Hne H1 H2 _]; intros c s Ht; [discriminate|].
    destruct s1 as [|c1 s1]; [contradiction|]. rewrite append_cons in Ht.
    injection Ht as -> <-. exists s1, s2. auto.
  - intros (s1 & s2 & -> & H1 & H2). rewrite <- append_cons.
    now constructor.
Qed.

Lemma deriv_lang r : forall c s, lang (deriv c r) s <-> lang r (String c s).
Proof.
  induction r as [| |p|a IHa b IHb|a IHa b IHb|a IHa]; intros c s; simpl.
  - tauto.
  - split; [intros []|discriminate].
  - destruct (p c) eqn:Hp; simpl.
    + split; [intros ->; eauto|intros (c' & [= <- <-] & _); reflexivity].
    + split; [intros []|intros (c' & Heq & Hp'); injection Heq as <- _; congruence].
  - split.
    + intros [(s1 & s2 & -> & Ha & Hb)|Hb].
      * exists (String c s1), s2. split; [reflexivity|]. split; [now apply IHa|exact Hb].
      * destruct (nullable a) eqn:Hn; [|destruct Hb].
        exists ""%string, (String c s). split; [reflexivity|].
        split; [now apply nullable_lang|now apply IHb].
    + intros (s1 & s2 & Hs & Ha & Hb).
      destruct s1 as [|c1 s1]; rewrite ?append_cons, ?append_nil_l in Hs.
      * right. subst s2. apply nullable_lang in Ha. rewrite Ha. now apply IHb.
      * injection Hs as <- ->. left. exists s1, s2.
        split; [reflexivity|]. split; [now apply IHa|exact Hb].
  - now rewrite IHa, IHb.
  - rewrite star_cons. split.
    + intros (s1 & s2 & -> & Ha & Hs). exists s1, s2. split; [reflexivity|].
      split; [now apply IHa|exact Hs].
    + intros (s1 & s2 & -> & Ha & Hs). exists s1, s2. split; [reflexivity|].
      split; [now apply IHa|exact Hs].
Qed.

(** The matcher accepts the words of the expression, and only them. *)
Lemma matches_lang s : forall r, matches r s = true <-> lang r s.
Proof.
  induction s as [|c s IH]; intros r; simpl.
  - apply nullable_lang.
  - now rewrite IH, deriv_lang.
Qed.

(** One character or more of a class. *)
Lemma star_class p s :
  star (lang (Class p)) s <-> Forall (fun c => p c = true) (JsString.chars s).
Proof.
  split.
  - induction 1 as [|s1 s2 _ (c & -> & Hc) _ IH]; [constructor|].
    rewrite append_cons, append_nil_l. now constructor.
  - induction s as [|c s IH]; simpl; intros Hs; [constructor|].
    apply Forall_cons_1 in Hs as [Hc Hs].
    rewrite <- (append_nil_l s), <- append_cons.
    constructor; [discriminate|simpl; eauto|now apply IH].
Qed.

Lemma plus_class p s :
  lang (Plus (Class p)) s <->
  s <> ""%string /\ Forall (fun c => p c = true) (JsString.chars s).
Proof.
  unfold Plus. cbn [lang]. split.
  - intros (s1 & s2 & -> & (c & -> & Hc) & Hs).
    rewrite append_cons, append_nil_l. split; [discriminate|].
    simpl. constructor; [exact Hc|now apply star_class].
  - intros [Hne Hs]. destruct s as [|c s]; [contradiction|]. simpl in Hs.
    apply Forall_cons_1 in Hs as [Hc Hs].
    exists (String c ""), s. split; [reflexivity|].
    split; [eauto|now apply star_class].
Qed.

Lemma lit_lang c s : lang (Lit c) s <-> s = String c "".
Proof.
  unfold Lit. cbn [lang]. split.
  - intros (c' & -> & Hc). now apply Ascii.eqb_eq in Hc as <-.
  - intros ->. exists c. split; [reflexivity|apply Ascii.eqb_refl].
Qed.

End PatternFacts.

(** X23. The pattern accepts the addresses of the shape [local@domain.tld] and
    nothing else: a string is accepted exactly when it is a local part,
    an [@], a domain, a dot and a last part, where each part holds one
    character or more and neither white space nor [@]. An accepted
    address so holds exactly one [@], with a dot somewhere after it that
    neither follows the [@] directly nor ends the address. *)
Theorem emailRegex_shape (s : string) :
  Regex.matches emailRegex s = true <-> address_shape s.
Proof.
  rewrite PatternFacts.matches_lang. unfold emailRegex, address_shape.
  cbn [lang]. split.
  - intros (a & s1 & -> & Ha & at_ & s2 & -> & Hat & b & s3 & -> & Hb
            & dot & c & -> & Hdot & Hc).
    apply PatternFacts.lit_lang in Hat, Hdot. subst at_ dot.
    apply PatternFacts.plus_class in Ha, Hb, Hc.
    exists a, b, c. auto.
  - intros (a & b & c & -> & Ha & Hb & Hc).
    apply PatternFacts.plus_class in Ha, Hb, Hc.
    exists a. eexists. split; [reflexivity|]. split; [exact Ha|].
    exists "@"%string. eexists. split; [reflexivity|].
    split; [now apply PatternFacts.lit_lang|].
    exists b. eexists. split; [reflexivity|]. split; [exact Hb|].
    exists "."%string, c. split; [reflexivity|].
    split; [now apply PatternFacts.lit_lang|exact Hc].
Qed.


(** ** Backends other than MongoDB *)

Section OtherBackends.
Context (E : Env) (H : Host) (this : Service).
Hypothesis other : dbType this <> "mongodb"%string.

Lemma by_dbType_other (m : M World payload) :
  DatabaseService.by_dbType this m
  = if String.eqb (dbType this) "mysql"
    then throw (Error "MySQL implementation not enabled")
    else mret PUndefined.
Proof.
  unfold DatabaseService.by_dbType.
  now destruct (String.eqb_spec (dbType this) "mongodb").
Qed.

Lemma idle_bind {A B} (m : M World A) (f : A -> M World B) :
  idle m -> (forall a, idle (f a)) -> idle (m ≫= f).
Proof.
  intros Hm Hf w. unfold mbind, M_bind. specialize (Hm w).
  destruct (m w) as [[a|e] w1]; simpl in *; [|exact Hm].
  destruct (Hf a w1) as (H1 & H2 & H3). destruct Hm as (H4 & H5 & H6).
  repeat split; congruence.
Qed.

Lemma idle_stateless {A} (m : M World A) : stateless m -> idle m.
Proof. intros Hm w. rewrite Hm. auto. Qed.

Lemma idle_Date_now : idle (Date_now E).
Proof. intros w. simpl. auto. Qed.

Lemma idle_destructure d : idle (destructure d : M World doc).
Proof. intros w. destruct d as [d|[]]; simpl; auto. Qed.

(** A property of results that every exception has. *)
Lemma wp_bind_throws {A B} (m : M World A) (f : A -> M World B)
    (Q : outcome B -> Prop) w :
  (forall e, Q (Throw e)) ->
  (forall a w1, wp (f a) (fun r _ => Q r) w1) ->
  wp (m ≫= f) (fun r _ => Q r) w.
Proof.
  intros Ht Hf. unfold wp, mbind, M_bind. destruct (m w) as [[a|e] w1].
  - apply Hf.
  - apply Ht.
Qed.

Ltac unfold_service c :=
  destruct c; unfold service_api;
  cbn [perform Api.getMemberById Api.getMembers Api.registerMember
    Api.updateMember Api.deleteMember Api.getEventById Api.getEvents
    Api.addEvent Api.updateEvent Api.deleteEvent Api.getBlogById
    Api.getBlogsByAuthor Api.getBlogs Api.addBlog Api.updateBlog Api.deleteBlog
    Api.getDashboardStats Api.getRecentActivity Api.getMemberStats];
  unfold DatabaseService.getMemberById, DatabaseService.getMembers,
    DatabaseService.registerMember, DatabaseService.updateMember,
    DatabaseService.deleteMember, DatabaseService.getEventById,
    DatabaseService.getEvents, DatabaseService.addEvent,
    DatabaseService.updateEvent, DatabaseService.deleteEvent,
    DatabaseService.getBlogById, DatabaseService.getBlogsByAuthor,
    DatabaseService.getBlogs, DatabaseService.addBlog,
    DatabaseService.updateBlog, DatabaseService.deleteBlog,
    DatabaseService.getDashboardStats, DatabaseService.getRecentActivity,
    DatabaseService.getMemberStats;
  rewrite ?by_dbType_other, ?(proj2 (String.eqb_neq _ _) other).

Ltac idly :=
  repeat first
    [ rewrite by_dbType_other
    | apply idle_bind; [|intros ?]
    | match goal with
      | |- idle (if ?b then _ else _) => destruct b
      end
    | apply idle_Date_now | apply idle_destructure
    | apply idle_stateless; first [apply stateless_ret | apply stateless_throw] ].

Ltac results_with lem :=
  repeat first
    [ rewrite lem
    | match goal with
      | |- wp ((if ?b then throw _ else mret None) ≫= _) _ _ =>
          destruct b; unfold wp; simpl;
          first [eauto; discriminate | now intros p [= <-]]
      end
    | match goal with
      | |- wp (throw _ ≫= _) _ _ => unfold wp; simpl; eauto; discriminate
      end
    | apply wp_bind_throws; [eauto; discriminate|intros ? ?]
    | match goal with
      | |- wp (if ?b then _ else _) _ _ => destruct b
      end
    | apply wp_throw; eauto; discriminate
    | apply wp_ret; first [now intros p [= <-] | discriminate] ].

(** X24. With a backend other than MongoDB the service never reaches for a
    database. Whatever the call, no client is constructed and the cache
    and the three collections are left alone, and no document is ever
    returned: the result, if there is one, is [undefined]. With 'mysql'
    every call throws, a reading call always 'MySQL implementation not
    enabled'; with any other backend a reading call resolves to
    [undefined] and changes nothing at all. *)
Theorem other_backends_idle (c : call) (w : World) :
  let (r, w') := perform (service_api E H this) c w in
  w_mongo w' = w_mongo w /\ w_clients w' = w_clients w /\ store w' = store w
  /\ (forall p, r = Return p -> p = PUndefined)
  /\ (dbType this = "mysql"%string ->
      (exists e, r = Throw e)
      /\ (reads c = true ->
          r = Throw (Error "MySQL implementation not enabled") /\ w' = w))
  /\ (dbType this <> "mysql"%string -> reads c = true ->
      r = Return PUndefined /\ w' = w).
Proof.
  assert (idle (perform (service_api E H this) c)) as Hidle
      by (unfold_service c; idly).
  assert (wp (perform (service_api E H this) c)
             (fun r _ => forall p, r = Return p -> p = PUndefined) w) as Hundef
      by (unfold_service c; results_with by_dbType_other).
  assert (dbType this = "mysql"%string ->
          wp (perform (service_api E H this) c) (fun r _ => exists e, r = Throw e) w)
    as Hthrows.
  { intros Hmysql.
    assert (forall m, DatabaseService.by_dbType this m
                      = throw (Error "MySQL implementation not enabled")) as Hby
        by (intros m; now rewrite by_dbType_other, Hmysql).
    unfold_service c; rewrite ?Hmysql; cbn [String.eqb Ascii.eqb Bool.eqb];
      results_with Hby. }
  assert (reads c = true ->
          perform (service_api E H this) c w
          = (if String.eqb (dbType this) "mysql"
             then Throw (Error "MySQL implementation not enabled")
             else Return PUndefined, w)) as Hreads
      by (intros Hr; unfold_service c; try discriminate;
          destruct (String.eqb (dbType this) "mysql"); reflexivity).
  specialize (Hidle w). unfold wp in Hundef, Hthrows.
  destruct (perform (service_api E H this) c w) as [r w'].
  destruct Hidle as (H1 & H2 & H3).
  split; [exact H1|]. split; [exact H2|]. split; [exact H3|].
  split; [exact Hundef|]. split.
  - intros Hmysql. split; [now apply Hthrows|]. intros Hr.
    specialize (Hreads Hr). rewrite Hmysql in Hreads.
    cbn [String.eqb Ascii.eqb Bool.eqb] in Hreads. now injection Hreads as -> ->.
  - intros Hother Hr. specialize (Hreads Hr).
    rewrite (proj2 (String.eqb_neq _ _) Hother) in Hreads.
    now injection Hreads as -> ->.
Qed.

End OtherBackends.


(** ** Creations the service refuses *)

Section Refusals.
Context (E : Env) (H : Host).



End Refusals.


(** ** The uniqueness of the identifiers *)

Section Identifiers.
Context (E : Env) (H : Host).

Lemma preserving_bind I {A B} (m : M World A) (f : A -> M World B) :
  preserving I m -> (forall a, preserving I (f a)) -> preserving I (m ≫= f).
Proof.
  intros Hm Hf w Hw. unfold mbind, M_bind. specialize (Hm w Hw).
  destruct (m w) as [[a|e] w1]; simpl in *; [|exact Hm]. now apply Hf.
Qed.

Lemma preserving_try_catch I {A} (m : M World A) (h : exn -> M World A) :
  preserving I m -> (forall e, preserving I (h e)) -> preserving I (try_catch m h).
Proof.
  intros Hm Hh w Hw. unfold try_catch. specialize (Hm w Hw).
  destruct (m w) as [[a|e] w1]; simpl in *; [exact Hm|]. now apply Hh.
Qed.

Lemma preserving_keeps {A} (m : M World A) :
  keeps_store m -> preserving ids_unique m.
Proof.
  intros Hk w Hw c. specialize (Hk w). unfold store in Hk.
  injection Hk as H1 H2 H3. specialize (Hw c).
  destruct c; cbn [collection] in *; congruence.
Qed.

Lemma ids_unique_set c l w :
  ids_unique w -> unique_on "_id" l -> ids_unique (set_collection c l w).
Proof.
  intros Hw Hl c'. pose proof (Hw c') as Hc'.
  destruct c, c'; cbn [collection set_collection members events blogs] in *; assumption.
Qed.

Lemma preserving_insertOne c d : preserving ids_unique (insertOne c d).
Proof.
  intros w Hw. unfold insertOne. destruct d as [d|v]; [|exact Hw].
  monad_unfold. destruct (nullish (field d "_id")) eqn:Hn.
  - cbn [fst snd].
    assert (ids_unique (set_oids (N.succ (fresh_oid c w)) w)) as Hw'
        by (intros c'; pose proof (Hw c'); destruct c'; assumption).
    replace (collection c (set_oids (N.succ (fresh_oid c w)) w))
      with (collection c w) by (destruct c; reflexivity).
    apply ids_unique_set; [exact Hw'|].
    apply unique_on_app_new; [apply Hw|]. intros m Hin.
    unfold field at 2. rewrite lookup_insert_eq. cbn [default].
    now apply fresh_oid_new.
  - destruct (existsb _ (collection c w)) eqn:Hex; [exact Hw|]. cbn [fst snd].
    apply ids_unique_set; [exact Hw|].
    apply unique_on_app_new; [apply Hw|]. now apply existsb_id_false.
Qed.

Lemma unique_on_remove_first k p l :
  unique_on k l -> unique_on k (remove_first p l).
Proof.
  unfold unique_on. induction l as [|d l IH]; simpl; [auto|].
  intros Hnd. apply NoDup_cons in Hnd as [Hd Hl].
  destruct (p d); [exact Hl|]. simpl. apply NoDup_cons. split; [|now apply IH].
  intros Hin. apply Hd. clear -Hin.
  induction l as [|x l IH]; simpl in *; [exact Hin|].
  destruct (p x); [now right|]. simpl in Hin.
  apply elem_of_cons in Hin as [->|Hin]; [now left|right; now apply IH].
Qed.

Lemma unique_on_filter k p l :
  unique_on k l -> unique_on k (List.filter p l).
Proof.
  unfold unique_on. induction l as [|d l IH]; simpl; [auto|].
  intros Hnd. apply NoDup_cons in Hnd as [Hd Hl].
  destruct (p d); [|now apply IH]. simpl. apply NoDup_cons. split; [|now apply IH].
  intros Hin. apply Hd. apply list_elem_of_In, in_map_iff in Hin as (x & Hx & Hin).
  apply filter_In in Hin as [Hin _]. rewrite <- Hx.
  apply list_elem_of_In. exact (in_map (fun y : doc => field y k) _ _ Hin).
Qed.

Lemma unique_on_update_first k p (fields : doc) l :
  fields !! k = None ->
  unique_on k l -> unique_on k (update_first p fields l).
Proof.
  intros Hk. unfold unique_on.
  assert (map (fun d => field d k) (update_first p fields l)
          = map (fun d => field d k) l) as ->; [|auto].
  induction l as [|d l IH]; simpl; [reflexivity|].
  destruct (p d); simpl; [|now rewrite IH].
  f_equal. unfold field. now rewrite (lookup_union_r _ _ _ Hk).
Qed.

Lemma preserving_deleteOne c f : preserving ids_unique (deleteOne c f).
Proof.
  intros w Hw. unfold deleteOne. monad_unfold.
  destruct (List.find _ _); [|exact Hw]. cbn [snd].
  apply ids_unique_set; [exact Hw|]. apply unique_on_remove_first, Hw.
Qed.

Lemma preserving_deleteMany c f : preserving ids_unique (deleteMany c f).
Proof.
  intros w Hw. unfold deleteMany. monad_unfold. cbn [snd].
  apply ids_unique_set; [exact Hw|]. apply unique_on_filter, Hw.
Qed.

Lemma preserving_findOneAndUpdate c f (fields : doc) :
  fields !! "_id"%string = None ->
  preserving ids_unique (findOneAndUpdate c f fields).
Proof.
  intros Hid w Hw. unfold findOneAndUpdate. monad_unfold.
  destruct (List.find _ _); [|exact Hw]. cbn [snd].
  apply ids_unique_set; [exact Hw|]. apply unique_on_update_first; [exact Hid|apply Hw].
Qed.

Lemma keeps_stateless_bind {A} (m : M World A) : stateless m -> keeps_store m.
Proof. intros Hm w. now rewrite Hm. Qed.

(** Solves [preserving ids_unique] for the steps of the service. *)
Ltac solve_preserving :=
  repeat first
    [ match goal with
      | |- preserving _ (if ?b then _ else _) => destruct b
      | |- preserving _ (match ?x with Some _ => _ | None => _ end) => destruct x
      | |- preserving _ (DatabaseService.by_dbType _ _) =>
          unfold DatabaseService.by_dbType
      end
    | apply preserving_insertOne | apply preserving_deleteOne
    | apply preserving_deleteMany
    | apply preserving_findOneAndUpdate;
      repeat (first [rewrite lookup_insert_ne by discriminate
                    |rewrite lookup_spread_if_ne by discriminate]);
      apply lookup_empty
    | apply preserving_keeps;
      first [ apply keeps_connect | apply keeps_Date_now | apply keeps_ret
            | apply keeps_throw | apply keeps_get | apply keeps_await
            | apply keeps_find_by_id | apply keeps_find_page
            | apply keeps_find_sort_limit | apply keeps_countDocuments
            | intros ?; apply (cached_connect_frame E)
            | apply keeps_stateless_bind;
              first [ apply stateless_new_ObjectId | apply stateless_findOne
                    | apply stateless_call_toLowerCase_trim
                    | intros ?; match goal with
                                | |- snd (?f _ _ ?v _) = _ => destruct v; reflexivity
                                | |- snd (?f ?d _) = _ =>
                                    destruct d as [?|[]]; reflexivity
                                end
                    | intros ?; reflexivity ] ]
    | apply preserving_try_catch; [|intros ?]
    | apply preserving_bind; [|intros ?] ].

Lemma preserving_perform this c :
  preserving ids_unique (perform (service_api E H this) c).
Proof.
  destruct (reads c) eqn:Hr;
    [apply preserving_keeps, (reads_keep_store E H this c Hr)|].
  destruct c; try discriminate; unfold service_api;
    cbn [perform Api.registerMember Api.updateMember Api.deleteMember Api.addEvent
      Api.updateEvent Api.deleteEvent Api.addBlog Api.updateBlog Api.deleteBlog];
    unfold DatabaseService.registerMember, DatabaseService.updateMember,
      DatabaseService.deleteMember, DatabaseService.addEvent,
      DatabaseService.updateEvent, DatabaseService.deleteEvent,
      DatabaseService.addBlog, DatabaseService.updateBlog,
      DatabaseService.deleteBlog;
    solve_preserving.
Qed.

Lemma preserving_database_api req : preserving ids_unique (database_api E H req).
Proof.
  intros w Hw. unfold database_api, dbService.
  destruct (handler_cases E (service_api E H (new_DatabaseService E)) req w)
    as [(_ & -> & _)|(c & _ & ->)]; [exact Hw|].
  pose proof (preserving_perform (new_DatabaseService E) c w Hw) as Hc.
  now destruct (perform _ c w) as [r w'].
Qed.

Lemma preserving_join req : preserving ids_unique (Join.handler E req).
Proof.
  unfold Join.handler, Join.reply, connectToDatabase. solve_preserving.
Qed.

Lemma keeps_new_MongoClient uri options : keeps_store (new_MongoClient E uri options).
Proof. intros w. unfold new_MongoClient. now destruct (uri_valid E uri). Qed.

Lemma preserving_insert req : preserving ids_unique (Insert.handler E req).
Proof.
  unfold Insert.handler, Insert.reply, Insert.through_client.
  destruct (negb _); [apply preserving_keeps, keeps_ret|].
  apply preserving_try_catch; [|intros e; apply preserving_keeps, keeps_ret].
  apply preserving_bind; [apply preserving_keeps, keeps_get|intros w0].
  apply preserving_bind.
  - destruct (w_client w0); [apply preserving_keeps, keeps_ret|].
    apply preserving_bind; [apply preserving_keeps, keeps_new_MongoClient|intros client].
    apply preserving_bind; [apply preserving_keeps; intros w; reflexivity|intros _].
    apply preserving_bind; [apply preserving_keeps, keeps_await|intros _].
    apply preserving_keeps, keeps_ret.
  - intros _. apply preserving_bind.
    + destruct (reachable E (Insert.uri E)); apply preserving_keeps;
        [apply keeps_ret|apply keeps_throw].
    + intros _. apply preserving_bind; [apply preserving_insertOne|intros id].
      apply preserving_keeps, keeps_ret.
Qed.

(** X26. The identifiers stay unique. When no two documents of a collection
    share an [_id], none do after any sequence of requests to the three
    handlers, whatever the requests hold and however they end: an
    insertion gives the document an identifier new to the collection or
    refuses one that is taken, an update never writes [_id], and a
    deletion only removes documents. *)
Theorem identifiers_stay_unique (reqs : list (endpoint * Request)) (w : World) :
  ids_unique w -> ids_unique (snd (serve E H reqs w)).
Proof.
  revert w. induction reqs as [|[ep req] reqs IH]; intros w Hw; simpl; [exact Hw|].
  assert (ids_unique (snd (serve_one E H ep req w))) as H1.
  { destruct ep; cbn [serve_one].
    - now apply preserving_join.
    - now apply preserving_insert.
    - now apply preserving_database_api. }
  destruct (serve_one E H ep req w) as [r w1]. simpl in H1.
  specialize (IH w1 H1). now destruct (serve E H reqs w1) as [rs w2].
Qed.

End Identifiers.


(** ** Instances *)

(** Without arguments, two members come back on one page. *)
Lemma getMembers_page_witness :
  exists pg,
    fst (DatabaseService.getMembers Sample.env Sample.this Sample.host None None
           (boot [Sample.bob; Sample.ada] [] []))
    = Return (PDocs pg)
    /\ is_page "joinedAt" 100 0 [Sample.bob; Sample.ada] pg.
Proof.
  assert (dbType Sample.this = "mongodb"%string) as Hdb by reflexivity.
  assert (online Sample.env (boot [Sample.bob; Sample.ada] [] []) = true) as Hon
      by (vm_compute; reflexivity).
  pose proof (getMembers_page Sample.env Sample.host Sample.this Hdb
                None None 100 0 (boot [Sample.bob; Sample.ada] [] [])
                Hon eq_refl eq_refl eq_refl eq_refl) as Hp.
  destruct (DatabaseService.getMembers _ _ _ _ _ _) as [r w'].
  destruct Hp as (_ & pg & -> & Hpg). exists pg. split; [reflexivity|exact Hpg].
Defined.

(** The second page of one blog each. *)
Lemma getBlogs_page_witness :
  exists pg,
    fst (DatabaseService.getBlogs Sample.env Sample.this Sample.host
           (Some (Int 1)) (Some (Int 1)) (boot [] [] [Sample.essay; Sample.notes]))
    = Return (PDocs pg)
    /\ is_page "createdAt" 1 1 [Sample.essay; Sample.notes] pg.
Proof.
  assert (dbType Sample.this = "mongodb"%string) as Hdb by reflexivity.
  assert (online Sample.env (boot [] [] [Sample.essay; Sample.notes]) = true) as Hon
      by (vm_compute; reflexivity).
  pose proof (getBlogs_page Sample.env Sample.host Sample.this Hdb
                (Some (Int 1)) (Some (Int 1)) 1 1
                (boot [] [] [Sample.essay; Sample.notes])
                Hon eq_refl eq_refl eq_refl eq_refl) as Hp.
  destruct (DatabaseService.getBlogs _ _ _ _ _ _) as [r w'].
  destruct Hp as (_ & pg & -> & Hpg). exists pg. split; [reflexivity|exact Hpg].
Defined.

(** Ada is found by her identifier. *)
Lemma get_by_id_lookup_witness :
  exists d,
    fst (get_by_id Sample.env Sample.this Members Sample.id1
           (boot [Sample.ada] [] []))
    = Return (PDoc d)
    /\ field d "_id" = VObjectId 1.
Proof.
  assert (dbType Sample.this = "mongodb"%string) as Hdb by reflexivity.
  assert (online Sample.env (boot [Sample.ada] [] []) = true) as Hon
      by (vm_compute; reflexivity).
  assert (ObjectId_parse Sample.env Sample.id1 = Some 1%N) as Hid
      by (vm_compute; reflexivity).
  assert (field Sample.ada "_id" = VObjectId 1) as Hada by (vm_compute; reflexivity).
  pose proof (get_by_id_lookup Sample.env Sample.this Hdb Members Sample.id1
                (boot [Sample.ada] [] []) Hon) as Hp.
  destruct (get_by_id _ _ _ _ _) as [r w'].
  destruct Hp as (_ & _ & Hp). destruct (Hp 1%N Hid) as [_ Hfound].
  destruct Hfound as (pre & d & post & _ & Hd & _ & ->).
  - exists Sample.ada. split; [now left|exact Hada].
  - exists d. split; [reflexivity|exact Hd].
Defined.

(** Of the fair of 2020 and the talk of 2030, the talk is upcoming in
    2026. *)
Lemma getEvents_upcoming_witness :
  exists evs,
    fst (DatabaseService.getEvents Sample.env Sample.this true
           (boot [] [Sample.fair; Sample.talk] []))
    = Return (PDocs evs)
    /\ sorted_asc "eventDate" evs
    /\ Permutation evs [Sample.talk].
Proof.
  assert (dbType Sample.this = "mongodb"%string) as Hdb by reflexivity.
  assert (online Sample.env (boot [] [Sample.fair; Sample.talk] []) = true) as Hon
      by (vm_compute; reflexivity).
  assert (upcoming (clock Sample.env
                      (w_ticks (boot [] [Sample.fair; Sample.talk] [])))
            Sample.fair = false) as Hfair by (vm_compute; reflexivity).
  assert (upcoming (clock Sample.env
                      (w_ticks (boot [] [Sample.fair; Sample.talk] [])))
            Sample.talk = true) as Htalk by (vm_compute; reflexivity).
  pose proof (getEvents_upcoming Sample.env Sample.this Hdb true
                (boot [] [Sample.fair; Sample.talk] []) Hon) as Hp.
  destruct (DatabaseService.getEvents _ _ _ _) as [r w'].
  destruct Hp as (_ & evs & -> & Hs & Hperm & _). exists evs.
  split; [reflexivity|]. split; [exact Hs|].
  change (events (boot [] [Sample.fair; Sample.talk] []))
    with [Sample.fair; Sample.talk] in Hperm.
  cbn [List.filter] in Hperm. rewrite Hfair, Htalk in Hperm. exact Hperm.
Defined.

(** The blogs of Ada. *)
Lemma getBlogsByAuthor_exact_witness :
  exists bs,
    fst (DatabaseService.getBlogsByAuthor Sample.env Sample.this Sample.id1
           (boot [] [] [Sample.essay; Sample.notes]))
    = Return (PDocs bs)
    /\ Permutation bs
         (List.filter (written_by Sample.id1) [Sample.essay; Sample.notes]).
Proof.
  assert (dbType Sample.this = "mongodb"%string) as Hdb by reflexivity.
  assert (online Sample.env (boot [] [] [Sample.essay; Sample.notes]) = true) as Hon
      by (vm_compute; reflexivity).
  assert (nullish Sample.id1 = false) as Hn by reflexivity.
  pose proof (getBlogsByAuthor_exact Sample.env Sample.this Hdb Sample.id1
                (boot [] [] [Sample.essay; Sample.notes]) Hon Hn) as Hp.
  destruct (DatabaseService.getBlogsByAuthor _ _ _ _) as [r w'].
  destruct Hp as (_ & bs & -> & _ & Hperm). exists bs. split; [reflexivity|exact Hperm].
Defined.

(** The talk is deleted; the members and the blogs stay. *)
Lemma deleteEvent_removes_witness :
  let w := boot [Sample.ada] [Sample.talk] [Sample.essay] in
  let res := DatabaseService.deleteEvent Sample.env Sample.this Sample.id1 w in
  fst res = Return (deleted "Event deleted successfully")
  /\ members (snd res) = members w /\ blogs (snd res) = blogs w.
Proof.
  intros w res. subst res.
  assert (dbType Sample.this = "mongodb"%string) as Hdb by reflexivity.
  assert (online Sample.env w = true) as Hon by (vm_compute; reflexivity).
  assert (ObjectId_parse Sample.env Sample.id1 = Some 1%N) as Hid
      by (vm_compute; reflexivity).
  assert (field Sample.talk "_id" = VObjectId 1) as Htalk by (vm_compute; reflexivity).
  pose proof (deleteEvent_removes Sample.env Sample.this Hdb Sample.id1 w Hon) as Hp.
  destruct (DatabaseService.deleteEvent _ _ _ _) as [r w'].
  destruct Hp as (Hm & Hb & _ & Hp). destruct (Hp 1%N Hid) as [_ Hfound].
  destruct Hfound as (pre & d & post & _ & _ & _ & _ & ->).
  - exists Sample.talk. split; [now left|exact Htalk].
  - split; [reflexivity|]. split; [exact Hm|exact Hb].
Defined.

(** Bob's blog is deleted; the members and the events stay. *)
Lemma deleteBlog_removes_witness :
  let w := boot [Sample.ada] [Sample.talk] [Sample.essay; Sample.notes] in
  let res :=
    DatabaseService.deleteBlog Sample.env Sample.this
      (VStr "000000000000000000000002") w in
  fst res = Return (deleted "Blog deleted successfully")
  /\ members (snd res) = members w /\ events (snd res) = events w.
Proof.
  intros w res. subst res.
  assert (dbType Sample.this = "mongodb"%string) as Hdb by reflexivity.
  assert (online Sample.env w = true) as Hon by (vm_compute; reflexivity).
  assert (ObjectId_parse Sample.env (VStr "000000000000000000000002") = Some 2%N)
    as Hid by (vm_compute; reflexivity).
  assert (field Sample.notes "_id" = VObjectId 2) as Hnotes
      by (vm_compute; reflexivity).
  pose proof (deleteBlog_removes Sample.env Sample.this Hdb
                (VStr "000000000000000000000002") w Hon) as Hp.
  destruct (DatabaseService.deleteBlog _ _ _ _) as [r w'].
  destruct Hp as (Hm & He & _ & Hp). destruct (Hp 2%N Hid) as [_ Hfound].
  destruct Hfound as (pre & d & post & _ & _ & _ & _ & ->).
  - exists Sample.notes. split; [right; now left|exact Hnotes].
  - split; [reflexivity|]. split; [exact Hm|exact He].
Defined.


(** An event is added, found, deleted and then found no more. *)
Lemma event_lifecycle_witness :
  exists ev w1 w2,
    DatabaseService.addEvent Sample.env Sample.this
      (Obj (<["title" := VStr "Talk"]> (
            <["eventDate" := VStr "2030-01-01T00:00:00.000Z"]> ∅)))
      (boot [] [] [])
    = (Return (PDoc ev), w1)
    /\ DatabaseService.getEventById Sample.env Sample.this (field ev "_id") w1
       = (Return (PDoc ev), w1)
    /\ DatabaseService.deleteEvent Sample.env Sample.this (field ev "_id") w1
       = (Return (deleted "Event deleted successfully"), w2)
    /\ events w2 = [].
Proof.
  pose proof (event_lifecycle Sample.env Sample.this
                (Obj (<["title" := VStr "Talk"]> (
                      <["eventDate" := VStr "2030-01-01T00:00:00.000Z"]> ∅)))
                (boot [] [] [])) as Hl.
  assert (match fst (DatabaseService.addEvent Sample.env Sample.this
                       (Obj (<["title" := VStr "Talk"]> (
                             <["eventDate" := VStr "2030-01-01T00:00:00.000Z"]> ∅)))
                       (boot [] [] []))
          with
          | Return (PDoc ev) =>
              match time_of "eventDate" ev with Some _ => true | None => false end
          | _ => false
          end = true) as Hdoc
      by (vm_compute; reflexivity).
  destruct (DatabaseService.addEvent Sample.env Sample.this _ _) as [r w1].
  cbn [fst] in Hdoc. destruct r as [[| |ev|]|]; try discriminate.
  destruct (Hl ev eq_refl) as (o & Ho & Hid).
  assert (ObjectId_parse Sample.env (VObjectId o) = Some o) as Hparse by reflexivity.
  destruct (Hid (VObjectId o) Hparse) as (Hget & w2 & Hdel & Hst & _).
  assert (dated "eventDate" ev) as Hdated
      by (unfold dated; destruct (time_of "eventDate" ev) as [t|];
          [now exists t|discriminate]).
  exists ev, w1, w2. rewrite Ho. split; [reflexivity|].
  split; [exact (Hget Hdated)|].
  split; [exact Hdel|]. unfold store in Hst. now injection Hst.
Defined.

(** A blog by Ada is added, listed among hers, found and deleted. *)
Lemma blog_lifecycle_witness :
  exists b w1 w2,
    DatabaseService.addBlog Sample.env Sample.this
      (Obj (<["title" := VStr "On looms"]> (<["content" := VStr "Cards"]> (
            <["authorId" := Sample.id1]> ∅))))
      (boot [Sample.ada] [] [])
    = (Return (PDoc b), w1)
    /\ DatabaseService.getBlogById Sample.env Sample.this (field b "_id") w1
       = (Return (PDoc b), w1)
    /\ DatabaseService.deleteBlog Sample.env Sample.this (field b "_id") w1
       = (Return (deleted "Blog deleted successfully"), w2)
    /\ blogs w2 = [].
Proof.
  pose proof (blog_lifecycle Sample.env Sample.this
                (Obj (<["title" := VStr "On looms"]> (<["content" := VStr "Cards"]> (
                      <["authorId" := Sample.id1]> ∅))))
                (boot [Sample.ada] [] [])) as Hl.
  assert (match fst (DatabaseService.addBlog Sample.env Sample.this
                       (Obj (<["title" := VStr "On looms"]> (
                             <["content" := VStr "Cards"]> (
                             <["authorId" := Sample.id1]> ∅))))
                       (boot [Sample.ada] [] []))
          with Return (PDoc _) => true | _ => false end = true) as Hdoc
      by (vm_compute; reflexivity).
  destruct (DatabaseService.addBlog Sample.env Sample.this _ _) as [r w1].
  cbn [fst] in Hdoc. destruct r as [[| |b|]|]; try discriminate.
  destruct (Hl b eq_refl) as (o & Ho & _ & Hid).
  assert (ObjectId_parse Sample.env (VObjectId o) = Some o) as Hparse by reflexivity.
  destruct (Hid (VObjectId o) Hparse) as (Hget & w2 & Hdel & Hst & _).
  exists b, w1, w2. rewrite Ho. split; [reflexivity|]. split; [exact Hget|].
  split; [exact Hdel|]. unfold store in Hst. now injection Hst.
Defined.

(** Eve registers, is found, and is deleted: Ada alone remains. *)
Lemma member_lifecycle_witness :
  exists m w1 w2,
    DatabaseService.registerMember Sample.env Sample.this
      (Obj (<["name" := VStr "Eve"]> (<["email" := VStr "eve@club.org"]> ∅)))
      (boot [Sample.ada] [] [])
    = (Return (PDoc m), w1)
    /\ DatabaseService.getMemberById Sample.env Sample.this (field m "_id") w1
       = (Return (PDoc m), w1)
    /\ DatabaseService.deleteMember Sample.env Sample.this (field m "_id") w1
       = (Return (deleted "Member deleted successfully"), w2)
    /\ members w2 = [Sample.ada].
Proof.
  pose proof (member_lifecycle Sample.env Sample.this
                (Obj (<["name" := VStr "Eve"]> (<["email" := VStr "eve@club.org"]> ∅)))
                (boot [Sample.ada] [] [])) as Hl.
  assert (match fst (DatabaseService.registerMember Sample.env Sample.this
                       (Obj (<["name" := VStr "Eve"]> (
                             <["email" := VStr "eve@club.org"]> ∅)))
                       (boot [Sample.ada] [] []))
          with Return (PDoc _) => true | _ => false end = true) as Hdoc
      by (vm_compute; reflexivity).
  destruct (DatabaseService.registerMember Sample.env Sample.this _ _) as [r w1].
  cbn [fst] in Hdoc. destruct r as [[| |m|]|]; try discriminate.
  destruct (Hl m eq_refl) as (o & Ho & Hid).
  assert (nullish (VObjectId o) = false) as Hn by reflexivity.
  assert (ObjectId_parse Sample.env (VObjectId o) = Some o) as Hparse by reflexivity.
  destruct (Hid (VObjectId o) Hn Hparse) as (Hget & w2 & Hdel & Hm & _).
  exists m, w1, w2. rewrite Ho. split; [reflexivity|]. split; [exact Hget|].
  split; [exact Hdel|exact Hm].
Defined.

(** Two members, one event and one blog are counted. *)
Lemma getDashboardStats_counts_witness :
  exists stats,
    fst (DatabaseService.getDashboardStats Sample.env Sample.this Sample.host
           (boot [Sample.ada; Sample.bob] [Sample.talk] [Sample.essay]))
    = Return (PDoc stats)
    /\ field stats "totalMembers" = VNum 2
    /\ field stats "totalBlogs" = VNum 1.
Proof.
  assert (dbType Sample.this = "mongodb"%string) as Hdb by reflexivity.
  assert (online Sample.env
            (boot [Sample.ada; Sample.bob] [Sample.talk] [Sample.essay]) = true)
    as Hon by (vm_compute; reflexivity).
  pose proof (getDashboardStats_counts Sample.env Sample.host Sample.this Hdb
                (boot [Sample.ada; Sample.bob] [Sample.talk] [Sample.essay]) Hon) as Hp.
  destruct (DatabaseService.getDashboardStats _ _ _ _) as [r w'].
  destruct Hp as (_ & _ & stats & ? & ? & ? & ? & -> & Hm & Hb & _).
  exists stats. split; [reflexivity|]. split; [exact Hm|exact Hb].
Defined.

(** Ada and Bob are grouped by department. *)
Lemma getMemberStats_grouped_witness :
  exists stats,
    fst (DatabaseService.getMemberStats Sample.env Sample.this Sample.host
           (boot [Sample.ada; Sample.bob] [] []))
    = Return (Some stats)
    /\ grouped "department" [Sample.ada; Sample.bob]
         (DatabaseService.departmentStats stats).
Proof.
  assert (dbType Sample.this = "mongodb"%string) as Hdb by reflexivity.
  assert (online Sample.env (boot [Sample.ada; Sample.bob] [] []) = true)
    as Hon by (vm_compute; reflexivity).
  pose proof (getMemberStats_grouped Sample.env Sample.host Sample.this Hdb
                (boot [Sample.ada; Sample.bob] [] []) Hon) as Hp.
  destruct (DatabaseService.getMemberStats _ _ _ _) as [r w'].
  destruct Hp as (_ & stats & -> & Hg & _).
  exists stats. split; [reflexivity|exact Hg].
Defined.

(** A GET on the dashboard relays what [getDashboardStats] returns. *)
Lemma router_relays_witness :
  exists resp,
    Database.handler Sample.env recorder
      (mkRequest "GET" None {[ "action"%string := VStr "dashboard" ]} (Prim VUndefined))
      []
    = (Return resp, [GetDashboardStats])
    /\ status resp = 200 /\ sent resp = JData PNull.
Proof.
  assert (calls_of Sample.env
            (mkRequest "GET" None {[ "action"%string := VStr "dashboard" ]}
               (Prim VUndefined)) = [GetDashboardStats]) as Hc
      by (vm_compute; reflexivity).
  pose proof (router_relays Sample.env recorder
                (mkRequest "GET" None {[ "action"%string := VStr "dashboard" ]}
                   (Prim VUndefined)) GetDashboardStats [] Hc) as Hr.
  assert (perform recorder GetDashboardStats [] = (Return PNull, [GetDashboardStats]))
    as Hp by reflexivity.
  rewrite Hp in Hr. destruct Hr as (resp & Hh & Hs & Hd).
  exists resp. split; [exact Hh|]. split; [exact Hs|exact Hd].
Defined.

(** A GET on the dashboard changes no collection. *)
Lemma database_api_safe_methods_witness :
  store (snd (database_api Sample.env Sample.host
                (mkRequest "GET" None {[ "action"%string := VStr "dashboard" ]}
                   (Prim VUndefined))
                (boot [Sample.ada] [Sample.talk] [Sample.essay])))
  = ([Sample.ada], [Sample.talk], [Sample.essay]).
Proof.
  assert ("GET" <> "POST")%string as H1 by discriminate.
  assert ("GET" <> "PUT")%string as H2 by discriminate.
  assert ("GET" <> "DELETE")%string as H3 by discriminate.
  exact (database_api_safe_methods Sample.env Sample.host
           (mkRequest "GET" None {[ "action"%string := VStr "dashboard" ]}
              (Prim VUndefined))
           (boot [Sample.ada] [Sample.talk] [Sample.essay]) H1 H2 H3).
Defined.


(** Bob asks for Ada's address, in capitals: it is refused, and the two
    addresses stay distinct. *)
Lemma updateMember_keeps_emails_unique_witness :
  unique_on "email"
    (members (snd (DatabaseService.updateMember Sample.env Sample.this
                     (VStr "000000000000000000000002")
                     (Obj (<["email" := VStr "Ada@Club.org"]> ∅))
                     (boot [Sample.ada; Sample.bob] [] [])))).
Proof.
  assert (map (fun d => field d "_id") [Sample.ada; Sample.bob]
          = [VObjectId 1; VObjectId 2]) as Hids by (vm_compute; reflexivity).
  assert (map (fun d => field d "email") [Sample.ada; Sample.bob]
          = [VStr "ada@club.org"; VStr "Bob@Club.org"]) as Hemails
      by (vm_compute; reflexivity).
  assert (unique_on "_id" (members (boot [Sample.ada; Sample.bob] [] []))) as H1.
  { unfold unique_on. cbn [boot members]. rewrite Hids.
    apply NoDup_cons. split; [|apply NoDup_singleton].
    intros Hin. apply list_elem_of_singleton in Hin. discriminate. }
  assert (unique_on "email" (members (boot [Sample.ada; Sample.bob] [] []))) as H2.
  { unfold unique_on. cbn [boot members]. rewrite Hemails.
    apply NoDup_cons. split; [|apply NoDup_singleton].
    intros Hin. apply list_elem_of_singleton in Hin. discriminate. }
  exact (updateMember_keeps_emails_unique Sample.env Sample.this
           (VStr "000000000000000000000002")
           (Obj (<["email" := VStr "Ada@Club.org"]> ∅))
           (boot [Sample.ada; Sample.bob] [] []) H1 H2).
Defined.

(** Eve registers with an address in lower case. *)
Lemma registerMember_keeps_emails_unique_witness :
  unique_on "email"
    (members (snd (DatabaseService.registerMember Sample.env Sample.this
                     (Obj (<["name" := VStr "Eve"]> (
                           <["email" := VStr "eve@club.org"]> ∅)))
                     (boot [Sample.ada] [] [])))).
Proof.
  assert (forall e,
            field (properties (Obj (<["name" := VStr "Eve"]> (
                                    <["email" := VStr "eve@club.org"]> ∅))))
              "email" = VStr e -> JsString.lowercased e) as Hlow.
  { intros e He. vm_compute in He. injection He as <-. reflexivity. }
  assert (unique_on "email" (members (boot [Sample.ada] [] []))) as Hu.
  { unfold unique_on. cbn [boot members map]. apply NoDup_singleton. }
  exact (registerMember_keeps_emails_unique Sample.env Sample.this _ _ Hlow Hu).
Defined.

(** With 'mysql', the dashboard throws and nothing is touched. *)
Lemma other_backends_idle_witness :
  perform (service_api Sample.env Sample.host {| dbType := "mysql" |})
    GetDashboardStats (boot [Sample.ada] [] [])
  = (Throw (Error "MySQL implementation not enabled"), boot [Sample.ada] [] []).
Proof.
  assert (dbType {| dbType := "mysql" |} <> "mongodb"%string) as Hother
      by discriminate.
  pose proof (other_backends_idle Sample.env Sample.host {| dbType := "mysql" |}
                Hother GetDashboardStats (boot [Sample.ada] [] [])) as Hp.
  destruct (perform _ _ _) as [r w'].
  destruct Hp as (_ & _ & _ & _ & Hmysql & _).
  destruct (Hmysql eq_refl) as [_ Hr]. destruct (Hr eq_refl) as [-> ->].
  reflexivity.
Defined.


(** Eve joins; the identifiers of the members stay distinct. *)
Lemma identifiers_stay_unique_witness :
  ids_unique
    (snd (serve Sample.env Sample.host
            [(JoinApi, Sample.post (<["name" := VStr "Eve"]> (
                                    <["email" := VStr "eve@club.org"]> ∅)))]
            (boot [Sample.ada] [] []))).
Proof.
  assert (ids_unique (boot [Sample.ada] [] [])) as Hu.
  { intros []; unfold unique_on; cbn [boot collection members events blogs map];
      [apply NoDup_singleton|apply NoDup_nil_2|apply NoDup_nil_2]. }
  exact (identifiers_stay_unique Sample.env Sample.host _ _ Hu).
Defined.
